(** * Recovery and agent orchestration layer of optics_framework

    A shallow embedding of

      - [optics_framework/common/error_handler.py]            (ErrorHandler)
      - [optics_framework/common/llm_agents/popup_handler.py] (PopupHandler)
      - [optics_framework/common/llm_agents/ai_action.py]     (AIActionHandler)
      - [optics_framework/common/llm_agents/client.py]        (PydanticAIClient)
      - [optics_framework/common/llm_agents/manager.py]       (LLMAgentManager)
      - [optics_framework/common/llm_agents/models.py]        (the records)

    Python values that reach the modelled code as decoded JSON are the
    inductive [value]; a Python [str] is a [string], read as the sequence of
    its code points (code points above 255 are outside the model).  A method
    is a function into the monad [Eff]: it yields the list of observable
    effects it performed (log records, keyword calls, bus commands, calls to
    the inference services) and either a result or the exception it raised.
    A method that assigns to [self] returns the new object next to that. *)

From stdpp Require Import gmap strings list pretty.
From Stdlib Require Import ZArith Ascii String.

Open Scope string_scope.
Open Scope list_scope.

(** ** Python values *)

#[local] Set Warnings "-register-all".

Inductive value : Type :=
| VNone
| VBool (b : bool)
| VInt (z : Z)
| VFloat (lexeme : string)
| VStr (s : string)
| VList (l : list value)
| VDict (d : list (string * value)).

(** ** Insertion-ordered dictionaries with string keys

    A Python [dict] iterates in insertion order; [d[k] = v] on a key that is
    present overwrites the value in place. *)
Module odict.
Section defs.
Context {V : Type}.

Fixpoint get (k : string) (d : list (string * V)) : option V :=
      match d with
      | [] => None
      | (k', v) :: d' => if String.eqb k k' then Some v else get k d'
      end.

Fixpoint set (k : string) (v : V) (d : list (string * V)) : list (string * V) :=
      match d with
      | [] => [(k, v)]
      | (k', v') :: d' =>
          if String.eqb k k' then (k, v) :: d' else (k', v') :: set k v d'
      end.

Definition mem (k : string) (d : list (string * V)) : bool :=
      match get k d with Some _ => true | None => false end.

    (** [d.get(k, default)] *)
Definition get_default (k : string) (default : V) (d : list (string * V)) : V :=
      match get k d with Some v => v | None => default end.
End defs.
End odict.

(** ** Exceptions, outcomes and observable effects *)

Record exn : Type := PyExc { exc_class : string; exc_msg : string }.

Inductive Outcome (A : Type) : Type :=
| Ok (a : A)
| Raise (e : exn).
Arguments Ok {A} a.
Arguments Raise {A} e.

Inductive Level : Type := DEBUG | INFO | WARNING | ERROR.

Inductive CommandType : Type := PAUSE | RESUME.

(** One constructor per [internal_logger] call of the modelled methods; the
    arguments are the values the f-string interpolates. *)
Inductive LogMsg : Type :=
(* error_handler.py *)
| MsgPopupSuggestion (suggestions : value)
| MsgActionNotInKeywordMap (action : value)
| MsgPopupHandlerFailed (e : exn)
| MsgHandlingError (error_code error_message : string)
(* popup_handler.py, ai_action.py *)
| MsgPromptSent (prompt : string)
| MsgLlmResponse (response : value)
| MsgAIHandlerFailed (e : exn)
| MsgExecutingAIAction (instruction : string)
(* client.py *)
| MsgPromptFileFailed (e : exn)
| MsgAgentCreateFailed (e : exn)
| MsgToolsWithPydantic (n : nat) (model_name : value)
| MsgAgentNotInitialized
| MsgExecutingQuery (query : string)
| MsgAgentExecuted (message : string)
| MsgExecuteFailed (e : exn)
| MsgEnvVarNotFound (env_var : string)
(* manager.py *)
| MsgAgentDisabled (name : string)
| MsgAgentRegistered (name trigger : string)
| MsgSessionToolsRegistered (n : nat) (session_id : string)
| MsgAgentToolsRegistered (n : nat) (agent_name : string)
| MsgSessionUnregistered (session_id : string)
| MsgCheckingTrigger (trigger : string)
| MsgNoSessionId (entity_id : string)
| MsgNoToolsForSession (session_id : string)
| MsgExecutingAgent (agent_name event_type : string)
| MsgAgentResponse (agent_name message : string)
| MsgRequiresHuman (agent_name message : string)
| MsgAgentError (agent_name : string) (e : exn)
| MsgAgentNotFound (agent_name : string)
| MsgNoActions
| MsgNoToolsToProcess (session_id : string)
| MsgProcessingAction (tool_name : string) (parameters : list (string * value))
| MsgExecutingTool (tool_name : string) (args kwargs : value)
| MsgToolExecuted (tool_name : string)
| MsgToolError (tool_name : string) (e : exn)
| MsgToolNotFound (tool_name : string)
| MsgScreenshotError (e : exn).

Inductive Effect : Type :=
| ELog (lvl : Level) (msg : LogMsg)
(** a keyword handler is called with positional and keyword arguments *)
| ECall (name : string) (args : list value) (kwargs : list (string * value))
(** [event_manager.publish_command(type, session_id, params)] *)
| ECommand (cmd : CommandType) (session_id : string) (params : option value)
(** [requests.post] to the local inference endpoint *)
| EQueryOllama (url model prompt : string)
(** [utils.save_llm_log(prompt, response, agent_name)] *)
| ESaveLlmLog (prompt : string) (response : value) (agent_name : string)
(** [Agent.run(query)] of the pydantic-ai library *)
| EAgentRun (query : string)
(** the constructor [Agent] of the library, and [agent.tool(func)] *)
| EAgentInit (model_name : value) (agent_kwargs : list (string * value))
| EAgentTool (tool : string)
(** reads of the file system *)
| EParseXml (path : string)
(** the strategy manager captures the screen or the page source *)
| ECaptureScreenshot (name : string)
| ECapturePageSource.

Definition Trace : Type := list Effect.

(** The effect monad: the effects performed, and the result or the exception
    that ended the computation. *)
Definition Eff (A : Type) : Type := Outcome A * Trace.

Definition ret {A} (a : A) : Eff A := (Ok a, []).
Definition raise {A} (e : exn) : Eff A := (Raise e, []).
Definition emit (x : Effect) : Eff unit := (Ok tt, [x]).
Definition log (lvl : Level) (m : LogMsg) : Eff unit := emit (ELog lvl m).

Definition bind {A B} (m : Eff A) (k : A → Eff B) : Eff B :=
  match m with
  | (Ok a, t) => let '(r, t') := k a in (r, t ++ t')
  | (Raise e, t) => (Raise e, t)
  end.

(** [x ← m; k] and [m;; k] below are stdpp's notations for [bind]. *)
#[global] Instance eff_bind : MBind Eff := λ A B k m, bind m k.
#[global] Instance eff_ret : MRet Eff := λ A a, ret a.
#[global] Instance eff_fmap : FMap Eff := λ A B f m, bind m (λ a, ret (f a)).

(** [try: m  except Exception as e: h e] *)
Definition try_except {A} (m : Eff A) (h : exn → Eff A) : Eff A :=
  match m with
  | (Ok a, t) => (Ok a, t)
  | (Raise e, t) => let '(r, t') := h e in (r, t ++ t')
  end.

(** Lift the outcome of an external call, after recording the call. *)
Definition call {A} (x : Effect) (o : Outcome A) : Eff A := (o, [x]).

(** [for x in xs: body x], stopped by the first exception. *)
Fixpoint for_each {A} (body : A → Eff unit) (xs : list A) : Eff unit :=
  match xs with
  | [] => ret tt
  | x :: xs' => body x;; for_each body xs'
  end.

(** A loop whose body may [return] from the enclosing function: the body
    yields [Some r] to return [r], [None] to go on. *)
Fixpoint for_return {A R} (body : A → Eff (option R)) (xs : list A) : Eff (option R) :=
  match xs with
  | [] => ret None
  | x :: xs' =>
      r ← body x;
      match r with
      | Some v => ret (Some v)
      | None => for_return body xs'
      end
  end.

(** ** Strings: the Python [str] methods the code uses *)

Module pystr.

Definition code (c : ascii) : nat := nat_of_ascii c.

  (** [str.isspace] on one character (code points below 256). *)
Definition isspace (c : ascii) : bool :=
    let n := code c in
    ((9 <=? n)%nat && (n <=? 13)%nat) || ((28 <=? n)%nat && (n <=? 32)%nat)
    || (n =? 133)%nat || (n =? 160)%nat.

  (** The whitespace the JSON decoder skips: space, tab, line feed,
      carriage return. *)
Definition json_ws (c : ascii) : bool :=
    let n := code c in
    (n =? 32)%nat || (n =? 9)%nat || (n =? 10)%nat || (n =? 13)%nat.

Definition is_empty (s : string) : bool :=
    match s with EmptyString => true | String _ _ => false end.

Section strip.
Variable P : ascii → bool.

Fixpoint lstrip (s : string) : string :=
      match s with
      | EmptyString => EmptyString
      | String c r => if P c then lstrip r else s
      end.

Fixpoint rstrip (s : string) : string :=
      match s with
      | EmptyString => EmptyString
      | String c r =>
          let r' := rstrip r in
          if is_empty r' && P c then EmptyString else String c r'
      end.

Definition strip_with (s : string) : string := rstrip (lstrip s).
End strip.

  (** [s.strip()] *)
Definition strip (s : string) : string := strip_with isspace s.

  (** [s.startswith(p)] *)
Definition startswith (p s : string) : bool := String.prefix p s.

  (** [s.endswith(p)] *)
Fixpoint endswith (p s : string) : bool :=
    String.eqb p s
    || match s with
       | EmptyString => false
       | String _ r => endswith p r
       end.

  (** [s[:-1]] *)
Fixpoint drop_last (s : string) : string :=
    match s with
    | EmptyString => EmptyString
    | String c EmptyString => EmptyString
    | String c r => String c (drop_last r)
    end.

Fixpoint drop (n : nat) (s : string) : string :=
    match n, s with
    | O, _ => s
    | S n', String _ r => drop n' r
    | S _, EmptyString => EmptyString
    end.

  (** [c.lower()] on one character (ASCII letters and the Latin-1 capitals). *)
Definition lower_char (c : ascii) : ascii :=
    let n := code c in
    if ((65 <=? n)%nat && (n <=? 90)%nat)
       || ((192 <=? n)%nat && (n <=? 222)%nat && negb (n =? 215)%nat)
    then ascii_of_nat (n + 32) else c.

  (** [s.lower()] *)
Fixpoint lower (s : string) : string :=
    match s with
    | EmptyString => EmptyString
    | String c r => String (lower_char c) (lower r)
    end.

  (** [p in s] *)
Fixpoint contains (p s : string) : bool :=
    String.prefix p s
    || match s with
       | EmptyString => false
       | String _ r => contains p r
       end.

  (** Iterating over a string yields its one-character strings. *)
Fixpoint chars (s : string) : list string :=
    match s with
    | EmptyString => []
    | String c r => String c EmptyString :: chars r
    end.

Definition lf : string := String (ascii_of_nat 10) EmptyString.
Definition fence : string := "```".
Definition json_fence : string := "```json" +:+ lf.

  (** The matches of the alternative [```$] from a position on: three
      backticks at the very end of the text, or just before a final line
      feed.  Every other character is copied. *)
Fixpoint sub_closing_fence (s : string) : string :=
    match s with
    | EmptyString => EmptyString
    | String c r =>
        if String.eqb s fence then EmptyString
        else if String.eqb s (fence +:+ lf) then lf
        else String c (sub_closing_fence r)
    end.

  (** [re.sub(r"^```json\n|```$", "", s)]: the first alternative can only
      match at position 0 and is tried first there; the scan then goes on
      behind it. *)
Definition sub_fences (s : string) : string :=
    if startswith json_fence s
    then sub_closing_fence (drop (String.length json_fence) s)
    else sub_closing_fence s.

End pystr.

(** ** The JSON decoder

    [json.loads] belongs to the Python standard library.  Its decoder skips
    JSON whitespace in front of and behind the document, reads one value and
    demands the end of the text; objects become dictionaries in which a
    repeated key keeps its first position and its last value.  Numbers with a
    fraction or an exponent are kept as their lexeme, and [\u] escapes above
    U+00FF are not decoded by this model.  [None] stands for
    [json.JSONDecodeError]. *)
Module json.
Import pystr.

Definition is_digit (c : ascii) : bool :=
    ((48 <=? code c)%nat && (code c <=? 57)%nat).

Fixpoint span_digits (s : string) : string * string :=
    match s with
    | String c r =>
        if is_digit c then let '(d, rest) := span_digits r in (String c d, rest)
        else (EmptyString, s)
    | EmptyString => (EmptyString, EmptyString)
    end.

Fixpoint digits_value (acc : Z) (s : string) : Z :=
    match s with
    | String c r => digits_value (10 * acc + Z.of_nat (code c - 48)) r
    | EmptyString => acc
    end.

  (** The integer part of a number: an optional minus sign, then either a
      single 0 or a run of digits that starts with a non-zero digit.  Yields
      sign, digits and rest. *)
Definition scan_int (s : string) : option (bool * string * string) :=
    let '(neg, s1) :=
      match s with
      | String "-" r => (true, r)
      | _ => (false, s)
      end in
    match s1 with
    | String "0" r => Some (neg, "0", r)
    | _ =>
        let '(d, rest) := span_digits s1 in
        if is_empty d then None else Some (neg, d, rest)
    end.

  (** The optional fraction: a point and at least one digit. *)
Definition scan_frac (s : string) : string * string :=
    match s with
    | String "." r =>
        let '(d, rest) := span_digits r in
        if is_empty d then (EmptyString, s) else (String "." d, rest)
    | _ => (EmptyString, s)
    end.

  (** The optional exponent: e or E, an optional sign, at least one digit. *)
Definition scan_exp (s : string) : string * string :=
    match s with
    | String e r =>
        if Ascii.eqb e "e" || Ascii.eqb e "E" then
          let '(sign, r1) :=
            match r with
            | String "-" r' => ("-", r')
            | String "+" r' => ("+", r')
            | _ => (EmptyString, r)
            end in
          let '(d, rest) := span_digits r1 in
          if is_empty d then (EmptyString, s)
          else (String e (sign +:+ d), rest)
        else (EmptyString, s)
    | EmptyString => (EmptyString, s)
    end.

Definition scan_number (s : string) : option (value * string) :=
    match scan_int s with
    | None => None
    | Some (neg, d, r) =>
        let '(frac, r1) := scan_frac r in
        let '(ex, r2) := scan_exp r1 in
        if is_empty frac && is_empty ex
        then Some (VInt (if neg then - digits_value 0 d else digits_value 0 d)%Z, r2)
        else Some (VFloat ((if neg then "-" else "") +:+ d +:+ frac +:+ ex), r2)
    end.

Definition hex_digit (c : ascii) : option nat :=
    let n := code c in
    if is_digit c then Some (n - 48)
    else if ((97 <=? n) && (n <=? 102))%nat then Some (n - 87)
    else if ((65 <=? n) && (n <=? 70))%nat then Some (n - 55)
    else None.

  (** [\uXXXX], for code points up to U+00FF. *)
Definition scan_unicode (s : string) : option (ascii * string) :=
    match s with
    | String a (String b (String c (String d rest))) =>
        match hex_digit a, hex_digit b, hex_digit c, hex_digit d with
        | Some 0, Some 0, Some h, Some l => Some (ascii_of_nat (16 * h + l), rest)
        | _, _, _, _ => None
        end
    | _ => None
    end.

  (** The body of a string literal, behind its opening quote. *)
Fixpoint scan_string (fuel : nat) (s : string) : option (string * string) :=
    match fuel with
    | O => None
    | S fuel' =>
        match s with
        | EmptyString => None
        | String c r =>
            if Ascii.eqb c (ascii_of_nat 34) then Some (EmptyString, r)
            else if Ascii.eqb c "\" then
              match r with
              | EmptyString => None
              | String e r' =>
                  let simple (x : nat) :=
                    match scan_string fuel' r' with
                    | Some (str, rest) => Some (String (ascii_of_nat x) str, rest)
                    | None => None
                    end in
                  if Ascii.eqb e (ascii_of_nat 34) then simple 34
                  else if Ascii.eqb e "\" then simple 92
                  else if Ascii.eqb e "/" then simple 47
                  else if Ascii.eqb e "b" then simple 8
                  else if Ascii.eqb e "f" then simple 12
                  else if Ascii.eqb e "n" then simple 10
                  else if Ascii.eqb e "r" then simple 13
                  else if Ascii.eqb e "t" then simple 9
                  else if Ascii.eqb e "u" then
                    match scan_unicode r' with
                    | Some (x, r'') =>
                        match scan_string fuel' r'' with
                        | Some (str, rest) => Some (String x str, rest)
                        | None => None
                        end
                    | None => None
                    end
                  else None
              end
            else if (code c <? 32)%nat then None
            else
              match scan_string fuel' r with
              | Some (str, rest) => Some (String c str, rest)
              | None => None
              end
        end
    end.

Definition quote : ascii := ascii_of_nat 34.

Fixpoint scan_once (fuel : nat) (s : string) : option (value * string) :=
    match fuel with
    | O => None
    | S fuel' =>
        match s with
        | EmptyString => None
        | String c r =>
            if Ascii.eqb c quote then
              match scan_string (S (String.length r)) r with
              | Some (str, rest) => Some (VStr str, rest)
              | None => None
              end
            else if Ascii.eqb c "{" then
              match lstrip json_ws r with
              | String "}" rest => Some (VDict [], rest)
              | r1 => scan_members fuel' [] r1
              end
            else if Ascii.eqb c "[" then
              match lstrip json_ws r with
              | String "]" rest => Some (VList [], rest)
              | r1 => scan_items fuel' [] r1
              end
            else if startswith "null" s then Some (VNone, drop 4 s)
            else if startswith "true" s then Some (VBool true, drop 4 s)
            else if startswith "false" s then Some (VBool false, drop 5 s)
            else
              match scan_number s with
              | Some res => Some res
              | None =>
                  if startswith "NaN" s then Some (VFloat "NaN", drop 3 s)
                  else if startswith "Infinity" s then Some (VFloat "Infinity", drop 8 s)
                  else if startswith "-Infinity" s then Some (VFloat "-Infinity", drop 9 s)
                  else None
              end
        end
    end

  (** The items of an array, from the start of an item on. *)
  with scan_items (fuel : nat) (acc : list value) (s : string) : option (value * string) :=
    match fuel with
    | O => None
    | S fuel' =>
        match scan_once fuel' s with
        | None => None
        | Some (v, r) =>
            match lstrip json_ws r with
            | String "]" rest => Some (VList (acc ++ [v]), rest)
            | String "," rest => scan_items fuel' (acc ++ [v]) (lstrip json_ws rest)
            | _ => None
            end
        end
    end

  (** The members of an object, from the opening quote of a key on. *)
  with scan_members (fuel : nat) (acc : list (string * value)) (s : string)
    : option (value * string) :=
    match fuel with
    | O => None
    | S fuel' =>
        match s with
        | String c r =>
            if Ascii.eqb c quote then
              match scan_string (S (String.length r)) r with
              | None => None
              | Some (key, r1) =>
                  match lstrip json_ws r1 with
                  | String ":" r2 =>
                      match scan_once fuel' (lstrip json_ws r2) with
                      | None => None
                      | Some (v, r3) =>
                          match lstrip json_ws r3 with
                          | String "}" rest => Some (VDict (odict.set key v acc), rest)
                          | String "," rest =>
                              scan_members fuel' (odict.set key v acc) (lstrip json_ws rest)
                          | _ => None
                          end
                      end
                  | _ => None
                  end
              end
            else None
        | EmptyString => None
        end
    end.

  (** One value that fills the whole text. *)
Definition decode_document (s : string) : option value :=
    match scan_once (2 * String.length s + 2) s with
    | Some (v, EmptyString) => Some v
    | _ => None
    end.

  (** [json.loads(s)] *)
Definition loads (s : string) : option value :=
    decode_document (strip_with json_ws s).

End json.

(** ** Operations of the Python object model used by the handlers *)

Definition dq : string := String json.quote EmptyString.

Definition AttributeError (what : string) : exn := PyExc "AttributeError" what.
Definition TypeError (what : string) : exn := PyExc "TypeError" what.
Definition KeyError (key : string) : exn := PyExc "KeyError" key.
Definition ValueError (what : string) : exn := PyExc "ValueError" what.

(** [for x in v]: a list yields its items, a dictionary its keys, a string
    its characters; nothing else that JSON decodes to is iterable. *)
Definition iterate (v : value) : Eff (list value) :=
  match v with
  | VList l => ret l
  | VDict d => ret (VStr <$> d.*1)
  | VStr s => ret (VStr <$> pystr.chars s)
  | _ => raise (TypeError "object is not iterable")
  end.

(** [v.get(k, default)]: only a dictionary has the method. *)
Definition get_method (v : value) (k : string) (default : value) : Eff value :=
  match v with
  | VDict d => ret (odict.get_default k default d)
  | _ => raise (AttributeError "object has no attribute 'get'")
  end.

(** [v.items()] *)
Definition items_method (v : value) : Eff (list (string * value)) :=
  match v with
  | VDict d => ret d
  | _ => raise (AttributeError "object has no attribute 'items'")
  end.

(** [v[k]] for a string key [k]. *)
Definition subscript (v : value) (k : string) : Eff value :=
  match v with
  | VDict d =>
      match odict.get k d with
      | Some x => ret x
      | None => raise (KeyError k)
      end
  | _ => raise (TypeError "indices must be integers, or object is not subscriptable")
  end.

(** ** Keyword handlers *)

(** A callable of the keyword map: its docstring, whether it is a coroutine
    function, and what a call with given arguments does. *)
Record Handler : Type := {
  h_doc : option string;
  h_async : bool;
  h_run : list value → list (string * value) → Outcome value
}.

Definition KeywordMap : Type := list (string * Handler).

(** The call of a handler with unpacked positional and keyword arguments. *)
Definition invoke (name : string) (h : Handler)
    (args : list value) (kwargs : list (string * value)) : Eff value :=
  call (ECall name args kwargs) (h_run h args kwargs).

(** [action and action in keyword_map], with the handler when it holds: a
    string is looked up unless it is empty; a non-empty list or dictionary is
    not hashable; every other value is falsy or equal to no key. *)
Definition keyword_for (keyword_map : KeywordMap) (action : value) : Eff (option (string * Handler)) :=
  match action with
  | VStr s =>
      if pystr.is_empty s then ret None
      else ret (pair s <$> odict.get s keyword_map)
  | VList (_ :: _) | VDict (_ :: _) => raise (TypeError "unhashable type")
  | _ => ret None
  end.

(** The calls and commands in a trace, without the log records. *)
Definition is_dispatch (x : Effect) : bool :=
  match x with
  | ECall _ _ _ | ECommand _ _ _ => true
  | _ => false
  end.

Definition dispatches (t : Trace) : Trace := List.filter is_dispatch t.

(** ** models.py *)

Module LLMAgentConfig.
Record t : Type := {
    enabled : bool;
    url : option string;
    capabilities : list (string * value);
    trigger : string;
    system_prompt : option string;
    user_prompt : option string;
    max_tokens : option Z;
    (** a float, kept as its decimal literal *)
    temperature : string;
    prompt_file : option string;
    prompt_source_file : option string
  }.

  (** The field defaults of the model class. *)
Definition defaults : t := {|
    enabled := false;
    url := None;
    capabilities := [];
    trigger := "Keyword_fail";
    system_prompt := None;
    user_prompt := None;
    max_tokens := Some 1000%Z;
    temperature := "0.7";
    prompt_file := None;
    prompt_source_file := None
  |}.
End LLMAgentConfig.

Module AgentPrompt.
Record t : Type := {
    system_prompt : option string;
    user_prompt : option string;
    max_tokens : option Z
  }.
End AgentPrompt.

Module Tool.
Record t : Type := {
    name : string;
    description : string;
    parameters : list (string * value)
  }.
End Tool.

Module AgentAction.
Record t : Type := {
    tool_name : string;
    parameters : list (string * value)
  }.
End AgentAction.

Module AgentResponse.
Record t : Type := {
    message : string;
    actions : list AgentAction.t;
    requires_human_input : bool
  }.
End AgentResponse.

Module AgentContext.
Record t : Type := {
    event_type : string;
    entity_type : string;
    entity_id : string;
    entity_name : string;
    status : string;
    message : string;
    session_id : string;
    screenshot_path : option string;
    available_tools : list Tool.t;
    execution_history : list (list (string * value))
  }.
End AgentContext.

(** Modelled from the spec: the module [optics_framework.common.events] is
    not among the sources.  An event is the record of section 3; [status] is
    the string value of the status enumeration, and the entries of [extra]
    that the manager reads are strings. *)
Module Event.
Record t : Type := {
    entity_type : string;
    entity_id : string;
    name : string;
    status : string;
    message : string;
    extra : gmap string string
  }.
End Event.

(** ** The outside world

    What the code obtains from its collaborators: the HTTP endpoint of the
    local model, the log writer of [utils], the file system, the process
    environment and the pydantic-ai library. *)

Record HttpResponse : Type := {
  ok : bool;
  status_code : Z;
  text : string;
  (** [response.json()] *)
  json_body : Outcome value
}.

(** A pydantic-ai [Agent]: the model and keyword arguments it was created
    with, and the functions registered with it as tools. *)
Record PydAgent : Type := {
  pa_model : value;
  pa_kwargs : list (string * value);
  pa_tools : KeywordMap
}.

Record World : Type := {
  requests_post : string → string → string → Outcome HttpResponse;
  save_llm_log : string → value → string → Outcome unit;
  (** the attribute dictionaries of the elements of an XML file, in
      document order *)
  parse_xml : string → Outcome (list (list (string * string)));
  path_exists : string → bool;
  listdir : string → Outcome (list string);
  getmtime : string → Outcome Z;
  environ : string → option string;
  Agent_init : value → list (string * value) → Outcome unit;
  Agent_tool : PydAgent → string → Outcome unit;
  (** [str(await agent.run(query))] *)
  Agent_run : PydAgent → string → Outcome string;
  (** the tool calls the library makes while the run is awaited: name,
      positional and keyword arguments, in the order of the calls *)
  Agent_tool_calls : PydAgent → string → list (string * list value * list (string * value));
  (** the prompts of one agent in a YAML prompt file *)
  load_yaml_prompt : string → string → Outcome AgentPrompt.t;
  (** [capture_screenshot] followed by [utils.save_screenshot]: the path *)
  capture_screenshot : string → Outcome (option string);
  capture_pagesource : Outcome (option string)
}.

(** ** popup_handler.py *)

Module PopupHandler.

Record t : Type := { ollama_model : string }.

  (** [PopupHandler()] *)
Definition init : t := {| ollama_model := "gemma3:4b" |}.

Definition prompt_head : string :=
    "You are an intelligent assistant analyzing an Appium XML page source representing a mobile app screen.

    Here is the extracted page structure:
    ".

Definition prompt_tail : string :=
    "

    Based on the elements and their attributes, suggest the next best action the user should perform on this screen. Your suggestion can include:
    - Action name (e.g., press_element, enter_text, swipe)
    - Target (element name or description)
    - Reason for choosing this action

    Rules for your suggestions:
    - Only use `" +:+ dq +:+ "enter_text" +:+ dq +:+ "` if an actual text input field is clearly visible.
    - If the user must tap a button or option (e.g., " +:+ dq +:+ "Continue" +:+ dq +:+ ", " +:+ dq +:+ "Use without account" +:+ dq +:+ "), use `" +:+ dq +:+ "press_element" +:+ dq +:+ "` with the button text.


    The output must be a valid JSON array of dictionaries, each with:
    - " +:+ dq +:+ "action" +:+ dq +:+ ": one of the above action names
    - " +:+ dq +:+ "target" +:+ dq +:+ ": a dictionary containing required arguments for that action
    - " +:+ dq +:+ "reason" +:+ dq +:+ ": a brief explanation of why this action is recommended".

Definition build_prompt (xml_text : string) : string :=
    prompt_head +:+ xml_text +:+ prompt_tail.

Definition query_ollama (w : World) (prompt model : string) : Eff value :=
    let url := "http://localhost:11434/api/generate" in
    response ← call (EQueryOllama url model prompt) (requests_post w url model prompt);
    if ok response then
      body ← (json_body response, []);
      subscript body "response"
    else
      raise (PyExc "Exception"
               ("Request failed: " +:+ pretty (status_code response) +:+ " - " +:+ text response)).

Definition attrib (k : string) (attribs : list (string * string)) : string :=
    odict.get_default k EmptyString attribs.

Definition element_line (attribs : list (string * string)) : string :=
    "Element: class='" +:+ attrib "class" attribs
    +:+ "', resource-id='" +:+ attrib "resource-id" attribs
    +:+ "', content-desc='" +:+ attrib "content-desc" attribs
    +:+ "', text='" +:+ attrib "text" attribs +:+ "'".

Fixpoint join (sep : string) (lines : list string) : string :=
    match lines with
    | [] => EmptyString
    | [l] => l
    | l :: ls => l +:+ sep +:+ join sep ls
    end.

Definition extract_xml_text (w : World) (xml_file : string) : Eff string :=
    elems ← call (EParseXml xml_file) (parse_xml w xml_file);
    ret (join pystr.lf (element_line <$> elems)).

  (** The decoder's own message, which the source appends, is not modelled. *)
Definition extract_json_from_llm_response (raw_response : value) : Eff value :=
    match raw_response with
    | VStr s =>
        let cleaned := pystr.sub_fences (pystr.strip s) in
        match json.loads cleaned with
        | Some v => ret v
        | None => raise (ValueError "Failed to parse JSON")
        end
    | _ => raise (AttributeError "object has no attribute 'strip'")
    end.

Definition truthy_str (s : option string) : bool :=
    match s with
    | Some x => negb (pystr.is_empty x)
    | None => false
    end.

Definition handle_popup (w : World) (self : t)
      (xml_file xml_string screenshot_path : option string) : Eff value :=
    xml_text ← (if truthy_str xml_file
                then Some <$> extract_xml_text w (default EmptyString xml_file)
                else ret xml_string);
    if negb (truthy_str xml_text) then
      raise (ValueError "Either xml_file or xml_string must be provided.")
    else if negb (truthy_str screenshot_path) then
      raise (ValueError "screenshot_path is not provided for popup handling.")
    else
      let prompt := build_prompt (default EmptyString xml_text) in
      response ← query_ollama w prompt (ollama_model self);
      log DEBUG (MsgPromptSent prompt);;
      log DEBUG (MsgLlmResponse response);;
      call (ESaveLlmLog prompt response "popup_handler")
           (save_llm_log w prompt response "popup_handler");;
      extract_json_from_llm_response response.

End PopupHandler.

(** ** error_handler.py *)

Module ErrorHandler.

Record t : Type := {
    popup_handler : PopupHandler.t;
    keyword_map : KeywordMap
  }.

  (** [ErrorHandler(keyword_map)] *)
Definition init (keyword_map : option KeywordMap) : t :=
    {| popup_handler := PopupHandler.init;
       keyword_map := default [] keyword_map |}.

Definition set_keyword_map (keyword_map : KeywordMap) (self : t) : t :=
    {| popup_handler := popup_handler self; keyword_map := keyword_map |}.

Definition classify_failure (error_code : string) : string :=
    if pystr.startswith "E0201" error_code || pystr.startswith "X0201" error_code
    then "screen_popup"
    else if pystr.startswith "E0401" error_code || pystr.startswith "X0401" error_code
    then "keyword_execution"
    else if pystr.startswith "E0101" error_code
    then "driver_issue"
    else "general_error".

  (** [context_info.get(k) if context_info else None] *)
Definition context_get (context_info : option (gmap string string)) (k : string)
    : option string :=
    match context_info with
    | Some m => if decide (m = ∅) then None else m !! k
    | None => None
    end.

  (** The body of the loop over the suggestions; [Some true] is the
      [return True] of the source. *)
Definition try_step (self : t) (step : value) : Eff (option bool) :=
    action ← get_method step "action" VNone;
    target ← get_method step "target" (VDict []);
    found ← keyword_for (keyword_map self) action;
    match found with
    | Some (name, h) =>
        arg ← subscript target "element_name";
        invoke name h [arg] [];;
        ret (Some true)
    | None =>
        log WARNING (MsgActionNotInKeywordMap action);;
        ret None
    end.

Definition handle_error (w : World) (self : t)
      (error_code error_message : string)
      (context_info : option (gmap string string)) : Eff bool :=
    let failure_type := classify_failure error_code in
    let screenshot_path := context_get context_info "screenshot_path" in
    let page_source := context_get context_info "page_source" in
    returned ←
      (if String.eqb failure_type "screen_popup" && PopupHandler.truthy_str page_source
       then
         try_except
           (suggestions ← PopupHandler.handle_popup w (popup_handler self)
                            None page_source screenshot_path;
            log INFO (MsgPopupSuggestion suggestions);;
            steps ← iterate suggestions;
            for_return (try_step self) steps)
           (λ e, log ERROR (MsgPopupHandlerFailed e);; ret None)
       else ret None);
    match returned with
    | Some b => ret b
    | None =>
        log WARNING (MsgHandlingError error_code error_message);;
        ret false
    end.

End ErrorHandler.

(** ** ai_action.py and api/ai_keyword.py *)

Module AIActionHandler.

Record t : Type := {
    ollama_model : string;
    keyword_map : KeywordMap
  }.

Definition init (keyword_map : option KeywordMap) : t :=
    {| ollama_model := "gemma3:4b"; keyword_map := default [] keyword_map |}.

Definition set_keyword_map (keyword_map : KeywordMap) (self : t) : t :=
    {| ollama_model := ollama_model self; keyword_map := keyword_map |}.

Definition prompt_head : string :=
    "You are an intelligent assistant helping automate mobile app testing.

    The user gave the following instruction:
    " +:+ dq.

Definition prompt_mid : string :=
    dq +:+ "

    Here is the current mobile app screen, represented as an Appium XML page source:
    ".

Definition prompt_tail : string :=
    "

    Your task is to analyze the page source, understand the user's intent, and recommend the best action(s) to perform next. You must extract both:
    1. The action (e.g., press_element, enter_text, swipe)
    2. The target element (from the page source) that matches the user's intent

    Guidelines:
    - Use `" +:+ dq +:+ "press_element" +:+ dq +:+ "` if the user wants to tap a button or UI element.
    - Use `" +:+ dq +:+ "enter_text" +:+ dq +:+ "` only if the target is a visible input field.
    - Use `" +:+ dq +:+ "swipe" +:+ dq +:+ "` if navigation or content scrolling is required.
    - You can match elements based on `text`, `content-desc`, `resource-id`, `label`, `value`, or other attributes found in the XML.
    - Ensure the selected target is present in the page source and relevant to the instruction.
    - If the instruction includes positions like " +:+ dq +:+ "first" +:+ dq +:+ ", " +:+ dq +:+ "second" +:+ dq +:+ ", " +:+ dq +:+ "third" +:+ dq +:+ ", etc., treat it as a request to press the N-th clickable option from a list or group.

    The output must be a valid JSON array of dictionaries, each with:
    - " +:+ dq +:+ "action" +:+ dq +:+ ": one of the above action names
    - " +:+ dq +:+ "target" +:+ dq +:+ ": a dictionary containing required arguments for that action
    - " +:+ dq +:+ "reason" +:+ dq +:+ ": a brief explanation of why this action is recommended

    Do not include " +:+ dq +:+ "action" +:+ dq +:+ " inside the " +:+ dq +:+ "target" +:+ dq +:+ " dictionary.
    Be accurate and concise. Do not return anything outside the JSON array.".

  (** An f-string renders [None] as the text None. *)
Definition build_prompt (instruction : option string) (xml_text : string) : string :=
    prompt_head +:+ default "None" instruction +:+ prompt_mid +:+ xml_text +:+ prompt_tail.

Definition query_ollama (w : World) (prompt model : string) : Eff value :=
    let url := "http://localhost:11434/api/generate" in
    response ← call (EQueryOllama url model prompt) (requests_post w url model prompt);
    if ok response then
      body ← (json_body response, []);
      subscript body "response"
    else
      raise (PyExc "Exception"
               ("Request failed: " +:+ pretty (status_code response) +:+ " - " +:+ text response)).

  (** The decoder's own message, which the source appends, is not modelled. *)
Definition extract_json_from_llm_response (raw_response : value) : Eff value :=
    match raw_response with
    | VStr s =>
        let cleaned := pystr.sub_fences (pystr.strip s) in
        match json.loads cleaned with
        | Some v => ret v
        | None => raise (ValueError "Failed to parse JSON")
        end
    | _ => raise (AttributeError "object has no attribute 'strip'")
    end.

  (** [self.extract_visible_elements(xml_file)]: the method is declared
      without [self], so the handler object arrives as the file to parse and
      the XML parser rejects it. *)
Definition extract_visible_elements_call (xml_file : string) : Eff string :=
    raise (TypeError "expected str, bytes or os.PathLike object, not AIActionHandler").

Definition handle_action (w : World) (self : t) (instruction : option string)
      (xml_file xml_string screenshot_path : option string) : Eff value :=
    xml_text ← (if PopupHandler.truthy_str xml_file
                then Some <$> extract_visible_elements_call (default EmptyString xml_file)
                else ret xml_string);
    if negb (PopupHandler.truthy_str xml_text) then
      raise (ValueError "Either xml_file or xml_string must be provided.")
    else if negb (PopupHandler.truthy_str screenshot_path) then
      raise (ValueError "screenshot_path is not provided for popup handling.")
    else
      let prompt := build_prompt instruction (default EmptyString xml_text) in
      response ← query_ollama w prompt (ollama_model self);
      log DEBUG (MsgPromptSent prompt);;
      log DEBUG (MsgLlmResponse response);;
      call (ESaveLlmLog prompt response "ai_action")
           (save_llm_log w prompt response "ai_action");;
      extract_json_from_llm_response response.

  (** The condition of the generator, as Python groups it: the string
      literal, or else the membership test. *)
Definition target_predicate (k : string) : bool :=
    negb (pystr.is_empty "element") || pystr.contains "text" (pystr.lower k).

  (** [next((v for k, v in items if ...), None)] *)
Definition element_value (items : list (string * value)) : value :=
    match List.find (λ kv, target_predicate kv.1) items with
    | Some (_, v) => v
    | None => VNone
    end.

  (** The body of the loop over the suggestions. *)
Definition perform_step (self : t) (step : value) : Eff unit :=
    action ← get_method step "action" VNone;
    target ← get_method step "target" (VDict []);
    found ← keyword_for (keyword_map self) action;
    match found with
    | Some (name, h) =>
        items ← items_method target;
        invoke name h [element_value items] [];;
        ret tt
    | None => log WARNING (MsgActionNotInKeywordMap action)
    end.

Definition perform_ai_action (w : World) (self : t) (instruction : option string)
      (xml_file xml_string screenshot_path : option string) : Eff unit :=
    try_except
      (suggestion ← handle_action w self instruction xml_file xml_string screenshot_path;
       log INFO (MsgPopupSuggestion suggestion);;
       steps ← iterate suggestion;
       for_each (perform_step self) steps)
      (λ e, log ERROR (MsgAIHandlerFailed e)).

End AIActionHandler.

Module AIKeyword.

Record t : Type := { ai_handler : AIActionHandler.t }.


End AIKeyword.

(** [try: m  except (C1, C2) as e: h e]: only the listed classes are caught. *)
Definition try_except_only {A} (classes : list string) (m : Eff A) (h : exn → Eff A) : Eff A :=
  match m with
  | (Raise e, t) =>
      if bool_decide (exc_class e ∈ classes)
      then let '(r, t') := h e in (r, t ++ t')
      else (Raise e, t)
  | ok => ok
  end.

(** [load_prompt_from_file(file_path, agent_name)] of models.py *)
Definition load_prompt_from_file (w : World) (file_path agent_name : option string)
  : Eff AgentPrompt.t :=
  if negb (PopupHandler.truthy_str file_path)
     || negb (path_exists w (default EmptyString file_path))
  then raise (PyExc "FileNotFoundError" "Prompt file not found")
  else if negb (PopupHandler.truthy_str agent_name)
  then raise (ValueError "Agent name is required for loading prompts from file")
  else (load_yaml_prompt w (default EmptyString file_path) (default EmptyString agent_name), []).

(** ** client.py *)

Module PydanticAIClient.

Record t : Type := {
    config : LLMAgentConfig.t;
    prompt : AgentPrompt.t;
    agent : option PydAgent;
    tools : KeywordMap
  }.

  (** [getattr(self, 'agent_name', None)]: no code sets the attribute. *)
Definition agent_name : option string := None.

Definition _load_prompts (w : World) (config : LLMAgentConfig.t) : Eff AgentPrompt.t :=
    loaded ←
      (if PopupHandler.truthy_str (LLMAgentConfig.prompt_file config)
       then
         try_except_only ["FileNotFoundError"; "ValidationError"]
           (Some <$> load_prompt_from_file w (LLMAgentConfig.prompt_file config) agent_name)
           (λ e, log ERROR (MsgPromptFileFailed e);; ret None)
       else ret None);
    match loaded with
    | Some p => ret p
    | None =>
        ret {| AgentPrompt.system_prompt := LLMAgentConfig.system_prompt config;
               AgentPrompt.user_prompt := LLMAgentConfig.user_prompt config;
               AgentPrompt.max_tokens := LLMAgentConfig.max_tokens config |}
    end.

  (** [PydanticAIClient(config)] *)
Definition init (w : World) (config : LLMAgentConfig.t) : Eff t :=
    p ← _load_prompts w config;
    ret {| config := config; prompt := p; agent := None; tools := [] |}.

Definition with_tools (tools' : KeywordMap) (self : t) : t :=
    {| config := config self; prompt := prompt self; agent := agent self; tools := tools' |}.

Definition with_agent (a : PydAgent) (self : t) : t :=
    {| config := config self; prompt := prompt self; agent := Some a; tools := tools self |}.

Definition is_private (name : string) : bool := pystr.startswith "_" name.

  (** An [or] between an optional string and a default. *)
Definition or_default (s : option string) (d : string) : string :=
    if PopupHandler.truthy_str s then default d s else d.

  (** The loop that resolves environment references of the capabilities. *)
Fixpoint process_capabilities (w : World) (caps acc : list (string * value))
    : Eff (list (string * value)) :=
    match caps with
    | [] => ret acc
    | (key, v) :: caps' =>
        match v with
        | VStr s =>
            if pystr.startswith "${" s && pystr.endswith "}" s then
              let env_var := pystr.drop_last (pystr.drop 2 s) in
              if PopupHandler.truthy_str (environ w env_var)
              then process_capabilities w caps'
                     (odict.set key (VStr (default EmptyString (environ w env_var))) acc)
              else log WARNING (MsgEnvVarNotFound env_var);;
                   process_capabilities w caps' acc
            else process_capabilities w caps' (odict.set key v acc)
        | _ => process_capabilities w caps' (odict.set key v acc)
        end
    end.

Definition agent_kwargs (self : t) (processed : list (string * value))
    : list (string * value) :=
    let system_prompt :=
      or_default (AgentPrompt.system_prompt (prompt self))
        "You are an AI assistant helping with test automation." in
    let k0 := [("system_prompt", VStr system_prompt)] in
    let k1 := odict.set "temperature" (VFloat (LLMAgentConfig.temperature (config self))) k0 in
    let k2 := match AgentPrompt.max_tokens (prompt self) with
              | Some n => odict.set "max_tokens" (VInt n) k1
              | None => k1
              end in
    fold_left (λ acc kv, if String.eqb kv.1 "model" then acc else odict.set kv.1 kv.2 acc)
      processed k2.

Definition with_tool (name : string) (func : Handler) (a : PydAgent) : PydAgent :=
    {| pa_model := pa_model a; pa_kwargs := pa_kwargs a;
       pa_tools := odict.set name func (pa_tools a) |}.

  (** The loop [self.agent.tool(func)] over the stored tools: the agent
      object gains every function up to the first registration that
      raises. *)
Fixpoint register_each (w : World) (a : PydAgent) (todo : KeywordMap)
    : PydAgent * Eff unit :=
    match todo with
    | [] => (a, ret tt)
    | (name, func) :: rest =>
        match Agent_tool w a name with
        | Raise e => (a, (Raise e, [EAgentTool name]))
        | Ok _ =>
            let '(a', r) := register_each w (with_tool name func a) rest in
            (a', ((Ok tt, [EAgentTool name]) : Eff unit);; r)
        end
    end.

Definition register_tools (w : World) (tools_in : KeywordMap) (self : t) : t * Eff unit :=
    let stored :=
      fold_left (λ acc nf, if is_private nf.1 then acc else odict.set nf.1 nf.2 acc)
        tools_in (tools self) in
    let self1 := with_tools stored self in
    let caps := LLMAgentConfig.capabilities (config self) in
    let model_name := odict.get_default "model" (VStr "gpt-3.5-turbo") caps in
    let created : Eff PydAgent :=
      processed ← process_capabilities w caps [];
      let processed :=
        if PopupHandler.truthy_str (LLMAgentConfig.url (config self))
        then odict.set "api_base"
               (VStr (default EmptyString (LLMAgentConfig.url (config self)))) processed
        else processed in
      let kwargs := agent_kwargs self processed in
      call (EAgentInit model_name kwargs) (Agent_init w model_name kwargs);;
      ret {| pa_model := model_name; pa_kwargs := kwargs; pa_tools := [] |} in
    let reraise (e : exn) : Eff unit :=
      log ERROR (MsgAgentCreateFailed e);; raise e in
    match created with
    | (Raise e, t0) => (self1, try_except ((Raise e, t0) : Eff unit) reraise)
    | (Ok a, t0) =>
        let '(a', registered) := register_each w a stored in
        (with_agent a' self1,
         try_except
           (((Ok tt, t0) : Eff unit);;
            registered;;
            log INFO (MsgToolsWithPydantic (List.length stored) model_name))
           reraise)
    end.

Definition default_user_prompt : string :=
    "The test automation has encountered an event that requires your attention. "
    +:+ "Review the information provided and take appropriate action using available tools.".

Definition context_str (context : AgentContext.t) : string :=
    "Event: " +:+ AgentContext.event_type context +:+ pystr.lf
    +:+ "Entity: " +:+ AgentContext.entity_type context +:+ " - "
    +:+ AgentContext.entity_name context +:+ pystr.lf
    +:+ "Status: " +:+ AgentContext.status context +:+ pystr.lf
    +:+ "Message: " +:+ AgentContext.message context +:+ pystr.lf
    +:+ (if PopupHandler.truthy_str (AgentContext.screenshot_path context)
         then "Screenshot is available at: "
              +:+ default EmptyString (AgentContext.screenshot_path context) +:+ pystr.lf
         else EmptyString).

  (** What the awaited [agent.run(query)] does besides answering: the
      library calls functions that were registered with the agent as tools,
      with arguments the model chose; it has no other function to call. *)
Definition run_tool_calls (w : World) (a : PydAgent) (query : string) : Trace :=
    omap (λ c : string * list value * list (string * value),
            if odict.mem c.1.1 (pa_tools a)
            then Some (ECall c.1.1 c.1.2 c.2)
            else None)
      (Agent_tool_calls w a query).

Definition run (w : World) (a : PydAgent) (query : string) : Eff string :=
    (Agent_run w a query, EAgentRun query :: run_tool_calls w a query).

Definition execute (w : World) (context : AgentContext.t) (self : t)
    : Eff AgentResponse.t :=
    if negb (LLMAgentConfig.enabled (config self)) then
      ret {| AgentResponse.message := "LLM Agent is disabled";
             AgentResponse.actions := [];
             AgentResponse.requires_human_input := false |}
    else
      match agent self with
      | None =>
          log ERROR MsgAgentNotInitialized;;
          ret {| AgentResponse.message := "Agent not properly initialized with tools";
                 AgentResponse.actions := [];
                 AgentResponse.requires_human_input := true |}
      | Some a =>
          try_except
            (let user_prompt :=
               or_default (AgentPrompt.user_prompt (prompt self)) default_user_prompt in
             let query := user_prompt +:+ pystr.lf +:+ pystr.lf +:+ context_str context in
             log DEBUG (MsgExecutingQuery query);;
             message ← run w a query;
             let actions : list AgentAction.t := [] in
             let agent_response :=
               {| AgentResponse.message := message;
                  AgentResponse.actions := actions;
                  AgentResponse.requires_human_input := false |} in
             log INFO (MsgAgentExecuted message);;
             ret agent_response)
            (λ e,
               log ERROR (MsgExecuteFailed e);;
               ret {| AgentResponse.message := "Error executing LLM agent: " +:+ exc_msg e;
                      AgentResponse.actions := [];
                      AgentResponse.requires_human_input := true |})
      end.

End PydanticAIClient.

(** ** manager.py *)

(** What the manager asks of the objects it keeps in [agents]: it builds
    them from a configuration, hands them the public tools of a session and
    awaits their [execute]. *)
Class AgentClient (C : Type) : Type := {
  client_new : World → LLMAgentConfig.t → Eff C;
  client_register_tools : World → KeywordMap → C → C * Eff unit;
  client_execute : World → AgentContext.t → C → Eff AgentResponse.t
}.

#[global] Instance pydantic_client : AgentClient PydanticAIClient.t := {|
  client_new := PydanticAIClient.init;
  client_register_tools := PydanticAIClient.register_tools;
  client_execute := PydanticAIClient.execute
|}.

(** Modelled from the spec: the event bus ([optics_framework.common.events])
    is not among the sources.  Publishing a command hands it to the runner's
    channel; subscriber failures never propagate to the publisher, so the
    call returns. *)
Definition publish_command (cmd : CommandType) (session_id : string)
    (params : option value) : Eff unit :=
  emit (ECommand cmd session_id params).

(** [await asyncio.gather] over the tasks: every task runs, none is cancelled, and
    the first exception raised is the one the caller sees.  The tasks are run
    in list order, each to its end; interleavings at suspension points are
    not represented. *)
Fixpoint gather (tasks : list (Eff unit)) : Eff unit :=
  match tasks with
  | [] => ret tt
  | (r, t) :: rest =>
      let '(r', t') := gather rest in
      (match r with Ok _ => r' | Raise e => Raise e end, t ++ t')
  end.

Module LLMAgentManager.

Section manager.
Context {C : Type} `{AgentClient C}.

Record t : Type := {
      agents : list (string * C);
      configs : gmap string LLMAgentConfig.t;
      trigger_map : gmap string (list string);
      session_tools : gmap string KeywordMap
    }.

    (** The state after [__init__]. *)
Definition init : t :=
      {| agents := []; configs := ∅; trigger_map := ∅; session_tools := ∅ |}.

    (** [self.trigger_map.get(trigger, [])] *)
Definition agents_for (trigger : string) (self : t) : list string :=
      default [] (trigger_map self !! trigger).

Definition register_agent (w : World) (name : string) (config : LLMAgentConfig.t)
        (self : t) : t * Eff unit :=
      if negb (LLMAgentConfig.enabled config) then
        (self, log DEBUG (MsgAgentDisabled name))
      else
        let configs' := <[name := config]> (configs self) in
        match client_new w config with
        | (Raise e, tr) =>
            ({| agents := agents self; configs := configs';
                trigger_map := trigger_map self; session_tools := session_tools self |},
             (Raise e, tr))
        | (Ok client, tr) =>
            let trigger := LLMAgentConfig.trigger config in
            ({| agents := odict.set name client (agents self);
                configs := configs';
                trigger_map :=
                  <[trigger := agents_for trigger self ++ [name]]> (trigger_map self);
                session_tools := session_tools self |},
             (Ok tt, tr ++ [ELog INFO (MsgAgentRegistered name trigger)]))
        end.

Definition public_tools (keyword_map : KeywordMap) : KeywordMap :=
      List.filter (λ nf, negb (pystr.startswith "_" nf.1)) keyword_map.

    (** The loop over [self.agents.items()]: the agents already visited, the
        ones still to visit. *)
Fixpoint register_with_agents (w : World) (keyword_map : KeywordMap)
        (todo : list (string * C)) : list (string * C) * Eff unit :=
      match todo with
      | [] => ([], ret tt)
      | (agent_name, agent) :: rest =>
          let '(agent', r) := client_register_tools w (public_tools keyword_map) agent in
          match r with
          | (Raise e, tr) => ((agent_name, agent') :: rest, (Raise e, tr))
          | (Ok _, tr) =>
              let '(rest', r') := register_with_agents w keyword_map rest in
              ((agent_name, agent') :: rest',
               ((Ok tt, tr) : Eff unit);;
               log INFO (MsgAgentToolsRegistered
                           (List.length (public_tools keyword_map)) agent_name);;
               r')
          end
      end.

Definition register_tools_for_session (w : World) (session_id : string)
        (keyword_map : KeywordMap) (self : t) : t * Eff unit :=
      let '(agents', r) := register_with_agents w keyword_map (agents self) in
      ({| agents := agents'; configs := configs self; trigger_map := trigger_map self;
          session_tools := <[session_id := keyword_map]> (session_tools self) |},
       log DEBUG (MsgSessionToolsRegistered (List.length keyword_map) session_id);; r).

Definition unregister_session (session_id : string) (self : t) : t * Eff unit :=
      match session_tools self !! session_id with
      | Some _ =>
          ({| agents := agents self; configs := configs self;
              trigger_map := trigger_map self;
              session_tools := delete session_id (session_tools self) |},
           log DEBUG (MsgSessionUnregistered session_id))
      | None => (self, ret tt)
      end.

Definition pause_tool : Tool.t :=
      {| Tool.name := "pause_execution";
         Tool.description := "Pause the test execution";
         Tool.parameters := [("reason", VStr "str")] |}.

Definition resume_tool : Tool.t :=
      {| Tool.name := "resume_execution";
         Tool.description := "Resume the test execution";
         Tool.parameters := [] |}.

    (** The descriptor of one public handler. *)
Definition tool_of (nf : string * Handler) : Tool.t :=
      {| Tool.name := nf.1;
         Tool.description :=
           PydanticAIClient.or_default (h_doc nf.2)
             ("Execute the " +:+ nf.1 +:+ " function");
         Tool.parameters := [] |}.

Definition _get_available_tools (session_id : string) (self : t) : list Tool.t :=
      match session_tools self !! session_id with
      | None => []
      | Some keyword_map =>
          (tool_of <$> public_tools keyword_map) ++ [pause_tool; resume_tool]
      end.

    (** [max(items, key=key)]: the first item with the greatest key. *)
Fixpoint max_by (key : string → Outcome Z) (best : string) (best_key : Z)
        (rest : list string) : Eff string :=
      match rest with
      | [] => ret best
      | x :: rest' =>
          k ← (key x, []);
          if (best_key <? k)%Z then max_by key x k rest' else max_by key best best_key rest'
      end.

Definition is_image (f : string) : bool :=
      pystr.endswith ".png" f || pystr.endswith ".jpg" f || pystr.endswith ".jpeg" f.

Definition _find_latest_screenshot (w : World) : Eff (option string) :=
      try_except
        (let output_dir := "execution_output" in
         if negb (path_exists w output_dir) then ret None
         else
           names ← (listdir w output_dir, []);
           let files := (λ f, output_dir +:+ "/" +:+ f) <$> names in
           match List.filter is_image files with
           | [] => ret None
           | f :: fs =>
               k ← (getmtime w f, []);
               Some <$> max_by (getmtime w) f k fs
           end)
        (λ e, log ERROR (MsgScreenshotError e);; ret None).

    (** Unpacking of the positional and of the keyword arguments of a call. *)
Definition unpack_args (args : value) : Eff (list value) := iterate args.

Definition unpack_kwargs (kwargs : value) : Eff (list (string * value)) :=
      match kwargs with
      | VDict d => ret d
      | _ => raise (TypeError "keyword arguments must be a mapping")
      end.

Definition call_tool (tool_name : string) (h : Handler) (args kwargs : value)
      : Eff value :=
      a ← unpack_args args;
      k ← unpack_kwargs kwargs;
      invoke tool_name h a k.

    (** The body of the loop of [_process_actions]. *)
Definition process_action (session_id : string) (tools : KeywordMap)
        (action : AgentAction.t) : Eff unit :=
      let tool_name := AgentAction.tool_name action in
      let parameters := AgentAction.parameters action in
      log INFO (MsgProcessingAction tool_name parameters);;
      if String.eqb tool_name "pause_execution" then
        publish_command PAUSE session_id
          (Some (odict.get_default "reason" (VStr "Paused by LLM agent") parameters))
      else if String.eqb tool_name "resume_execution" then
        publish_command RESUME session_id None
      else
        match odict.get tool_name tools with
        | Some h =>
            try_except
              (let args := odict.get_default "args" (VList []) parameters in
               let kwargs := odict.get_default "kwargs" (VDict []) parameters in
               log DEBUG (MsgExecutingTool tool_name args kwargs);;
               (if h_async h
                then call_tool tool_name h args kwargs
                else call_tool tool_name h args kwargs);;
               log INFO (MsgToolExecuted tool_name))
              (λ e, log ERROR (MsgToolError tool_name e))
        | None => log WARNING (MsgToolNotFound tool_name)
        end.

Definition _process_actions (session_id : string) (actions : list AgentAction.t)
        (self : t) : Eff unit :=
      match actions with
      | [] => log DEBUG MsgNoActions
      | _ =>
          match session_tools self !! session_id with
          | None => log WARNING (MsgNoToolsToProcess session_id)
          | Some tools => for_each (process_action session_id tools) actions
          end
      end.

Definition _execute_agent (w : World) (agent_name : string)
        (context : AgentContext.t) (self : t) : Eff unit :=
      match odict.get agent_name (agents self) with
      | None => log ERROR (MsgAgentNotFound agent_name)
      | Some agent =>
          try_except
            (log INFO (MsgExecutingAgent agent_name (AgentContext.event_type context));;
             response ← client_execute w context agent;
             log INFO (MsgAgentResponse agent_name (AgentResponse.message response));;
             if AgentResponse.requires_human_input response then
               log WARNING (MsgRequiresHuman agent_name (AgentResponse.message response))
             else
               _process_actions (AgentContext.session_id context)
                 (AgentResponse.actions response) self)
            (λ e, log ERROR (MsgAgentError agent_name e))
      end.

Definition event_trigger (event : Event.t) : string :=
      Event.entity_type event +:+ "_" +:+ Event.status event.

    (** The [AgentContext] the manager builds for an event. *)
Definition event_context (event : Event.t) (session_id : string)
        (screenshot_path : option string) (tools : list Tool.t) : AgentContext.t :=
      {| AgentContext.event_type := event_trigger event;
         AgentContext.entity_type := Event.entity_type event;
         AgentContext.entity_id := Event.entity_id event;
         AgentContext.entity_name := Event.name event;
         AgentContext.status := Event.status event;
         AgentContext.message := Event.message event;
         AgentContext.session_id := session_id;
         AgentContext.screenshot_path := screenshot_path;
         AgentContext.available_tools := tools;
         AgentContext.execution_history := [] |}.

Definition on_event (w : World) (event : Event.t) (self : t) : Eff unit :=
      let trigger := event_trigger event in
      log DEBUG (MsgCheckingTrigger trigger);;
      match agents_for trigger self with
      | [] => ret tt
      | agent_names =>
          let session_id := Event.extra event !! "session_id" in
          if negb (PopupHandler.truthy_str session_id) then
            log WARNING (MsgNoSessionId (Event.entity_id event))
          else
            let sid := default EmptyString session_id in
            match _get_available_tools sid self with
            | [] => log WARNING (MsgNoToolsForSession sid)
            | tools =>
                screenshot_path ← _find_latest_screenshot w;
                let context := event_context event sid screenshot_path tools in
                gather ((λ name, _execute_agent w name context self) <$> agent_names)
            end
      end.

End manager.

Arguments t C : clear implicits.

End LLMAgentManager.

(** ** Concrete instances used by the examples *)

Module Examples.

  (** A keyword that returns, and one that raises (an element that cannot be
      found, say). *)
Definition returning : Handler :=
    {| h_doc := Some "Press the element"; h_async := false;
       h_run := λ _ _, Ok VNone |}.

Definition raising : Handler :=
    {| h_doc := None; h_async := true;
       h_run := λ _ _, Raise (PyExc "RuntimeError" "element not found") |}.

  (** The model answers with [reply]. *)
Definition world_replying (reply : string) : World := {|
    requests_post := λ _ _ _,
      Ok {| ok := true; status_code := 200; text := EmptyString;
            json_body := Ok (VDict [("response", VStr reply)]) |};
    save_llm_log := λ _ _ _, Ok tt;
    parse_xml := λ _, Ok [];
    path_exists := λ _, false;
    listdir := λ _, Ok [];
    getmtime := λ _, Ok 0%Z;
    environ := λ _, None;
    Agent_init := λ _ _, Ok tt;
    Agent_tool := λ _ _, Ok tt;
    Agent_run := λ a _,
      match pa_model a with
      | VStr "slow" => Raise (PyExc "TimeoutError" "timed out")
      | _ => Ok "done"
      end;
    Agent_tool_calls := λ _ _, [];
    load_yaml_prompt := λ _ _, Raise (PyExc "ValueError" "not found");
    capture_screenshot := λ _, Ok (Some "execution_output/ai_action_screenshot.png");
    capture_pagesource := Ok (Some "<hierarchy/>")
  |}.

  (** The inference endpoint cannot be reached. *)
Definition world_offline : World := {|
    requests_post := λ _ _ _, Raise (PyExc "ConnectionError" "connection refused");
    save_llm_log := λ _ _ _, Ok tt;
    parse_xml := λ _, Ok [];
    path_exists := λ _, false;
    listdir := λ _, Ok [];
    getmtime := λ _, Ok 0%Z;
    environ := λ _, None;
    Agent_init := λ _ _, Ok tt;
    Agent_tool := λ _ _, Ok tt;
    Agent_run := λ _ _, Raise (PyExc "TimeoutError" "timed out");
    Agent_tool_calls := λ _ _, [];
    load_yaml_prompt := λ _ _, Raise (PyExc "ValueError" "not found");
    capture_screenshot := λ _, Ok None;
    capture_pagesource := Ok None
  |}.

  (** The text of the suggestion list of the popup scenario. *)
Definition press_continue : string :=
    "[{" +:+ dq +:+ "action" +:+ dq +:+ ":" +:+ dq +:+ "press_element" +:+ dq +:+ ","
    +:+ dq +:+ "target" +:+ dq +:+ ":{" +:+ dq +:+ "element_name" +:+ dq +:+ ":"
    +:+ dq +:+ "Continue" +:+ dq +:+ "}}]".

Definition press_continue_value : value :=
    VList [VDict [("action", VStr "press_element");
                  ("target", VDict [("element_name", VStr "Continue")])]].

  (** The same suggestion with the target under another field name. *)
Definition press_continue_text : string :=
    "[{" +:+ dq +:+ "action" +:+ dq +:+ ":" +:+ dq +:+ "press_element" +:+ dq +:+ ","
    +:+ dq +:+ "target" +:+ dq +:+ ":{" +:+ dq +:+ "label" +:+ dq +:+ ":"
    +:+ dq +:+ "Continue" +:+ dq +:+ "}}]".

Definition popup_context : gmap string string :=
    <["page_source" := "<hierarchy><node text='Continue'/></hierarchy>"]>
      (<["screenshot_path" := "execution_output/popup.png"]> ∅).

Definition handler_with (h : Handler) : ErrorHandler.t :=
    ErrorHandler.init (Some [("press_element", h)]).

  (** A response in a fenced block with a language tag, and its parts. *)
Definition fenced (tag content : string) : string :=
    "```" +:+ tag +:+ pystr.lf +:+ content +:+ pystr.lf +:+ "```".

Definition form_feed : string := String (ascii_of_nat 12) EmptyString.

Definition action (name : string) (args : list value) : AgentAction.t :=
    {| AgentAction.tool_name := name;
       AgentAction.parameters := [("args", VList args)] |}.

Definition session_keywords : KeywordMap :=
    [("press_element", returning); ("enter_text", raising); ("_teardown", returning)].

Definition agent_config (model trigger : string) : LLMAgentConfig.t := {|
    LLMAgentConfig.enabled := true;
    LLMAgentConfig.url := None;
    LLMAgentConfig.capabilities := [("model", VStr model)];
    LLMAgentConfig.trigger := trigger;
    LLMAgentConfig.system_prompt := None;
    LLMAgentConfig.user_prompt := None;
    LLMAgentConfig.max_tokens := Some 1000%Z;
    LLMAgentConfig.temperature := "0.7";
    LLMAgentConfig.prompt_file := None;
    LLMAgentConfig.prompt_source_file := None
  |}.

Definition disabled_config : LLMAgentConfig.t := LLMAgentConfig.defaults.

Definition fail_event : Event.t := {|
    Event.entity_type := "Keyword";
    Event.entity_id := "kw-7";
    Event.name := "Press Element";
    Event.status := "fail";
    Event.message := "element not found";
    Event.extra := <["session_id" := "s1"]> ∅
  |}.

  (** A stand-in client, as a test double of the manager would be: its
      [execute] raises, or answers with a fixed list of actions. *)
Inductive mock_client : Type :=
  | MockRaises (e : exn)
  | MockAnswers (actions : list AgentAction.t).

#[global] Instance mock_agent_client : AgentClient mock_client := {|
    client_new := λ _ _, ret (MockAnswers []);
    client_register_tools := λ _ _ c, (c, ret tt);
    client_execute := λ _ _ c,
      match c with
      | MockRaises e => raise e
      | MockAnswers actions =>
          ret {| AgentResponse.message := "ok";
                 AgentResponse.actions := actions;
                 AgentResponse.requires_human_input := false |}
      end
  |}.

Definition mock_manager : LLMAgentManager.t mock_client := {|
    LLMAgentManager.agents :=
      [("slow", MockRaises (PyExc "TimeoutError" "timed out"));
       ("fast", MockAnswers [action "press_element" [VStr "Continue"]])];
    LLMAgentManager.configs := ∅;
    LLMAgentManager.trigger_map := <["Keyword_fail" := ["slow"; "fast"]]> ∅;
    LLMAgentManager.session_tools := <["s1" := session_keywords]> ∅
  |}.

End Examples.

(** ** Definitions the statements use *)

(** The operations that change a manager, as a session of the framework
    issues them. *)
Inductive manager_op : Type :=
| OpRegisterAgent (name : string) (config : LLMAgentConfig.t)
| OpRegisterTools (session_id : string) (keyword_map : KeywordMap)
| OpUnregisterSession (session_id : string).

Definition apply_op {C} `{AgentClient C} (w : World) (self : LLMAgentManager.t C)
    (op : manager_op) : LLMAgentManager.t C :=
  match op with
  | OpRegisterAgent name config => (LLMAgentManager.register_agent w name config self).1
  | OpRegisterTools session_id keyword_map =>
      (LLMAgentManager.register_tools_for_session w session_id keyword_map self).1
  | OpUnregisterSession session_id =>
      (LLMAgentManager.unregister_session session_id self).1
  end.

(** The manager after a history of operations on a fresh one. *)
Definition manager_after {C} `{AgentClient C} (w : World) (ops : list manager_op)
  : LLMAgentManager.t C :=
  fold_left (apply_op w) ops LLMAgentManager.init.

(** Every registration of [name] in the history carries a disabled
    configuration. *)
Definition only_disabled (name : string) (ops : list manager_op) : Prop :=
  ∀ config, OpRegisterAgent name config ∈ ops → LLMAgentConfig.enabled config = false.

(** A keyword map whose names all carry the private prefix. *)
Definition all_private (keyword_map : KeywordMap) : bool :=
  forallb (λ nf, pystr.startswith "_" nf.1) keyword_map.

(** What the dispatcher owes one action, whatever its handler then does: a
    pause or resume command for the two control tools, one call of the
    handler for a tool of the session whose arguments unpack, nothing for a
    name the session does not know. *)
Definition dispatch_of (session_id : string) (tools : KeywordMap)
    (action : AgentAction.t) : Trace :=
  let tool_name := AgentAction.tool_name action in
  let parameters := AgentAction.parameters action in
  if String.eqb tool_name "pause_execution" then
    [ECommand PAUSE session_id
       (Some (odict.get_default "reason" (VStr "Paused by LLM agent") parameters))]
  else if String.eqb tool_name "resume_execution" then
    [ECommand RESUME session_id None]
  else
    match odict.get tool_name tools,
          LLMAgentManager.unpack_args (odict.get_default "args" (VList []) parameters),
          LLMAgentManager.unpack_kwargs (odict.get_default "kwargs" (VDict []) parameters)
    with
    | Some _, (Ok args, _), (Ok kwargs, _) => [ECall tool_name args kwargs]
    | _, _, _ => []
    end.

(** The action is a call of a tool of the session with these unpacked
    arguments. *)
Definition calls_tool (tools : KeywordMap) (action : AgentAction.t) (h : Handler)
    (args : list value) (kwargs : list (string * value)) : Prop :=
  String.eqb (AgentAction.tool_name action) "pause_execution" = false
  ∧ String.eqb (AgentAction.tool_name action) "resume_execution" = false
  ∧ odict.get (AgentAction.tool_name action) tools = Some h
  ∧ LLMAgentManager.unpack_args
      (odict.get_default "args" (VList []) (AgentAction.parameters action)) = (Ok args, [])
  ∧ LLMAgentManager.unpack_kwargs
      (odict.get_default "kwargs" (VDict []) (AgentAction.parameters action)) = (Ok kwargs, []).

(** A response that wraps [content] in a fenced block tagged json: the
    opening fence and the tag on a line, the content, the closing fence on a
    line of its own. *)
Definition fenced_json (content : string) : string :=
  pystr.json_fence +:+ content +:+ pystr.lf +:+ pystr.fence.

(** A suggestion the loop passes over: a record whose action is no key of the
    keyword map (or is missing, or is empty). *)
Definition names_no_keyword (keyword_map : KeywordMap) (step : value) : Prop :=
  ∃ d, step = VDict d
       ∧ keyword_for keyword_map (odict.get_default "action" VNone d) = ret None.

(** A suggestion that names the registered keyword [name], handled by [h],
    and carries [arg] under the key the error handler reads. *)
Definition names_keyword (keyword_map : KeywordMap) (step : list (string * value))
    (name : string) (h : Handler) (arg : value) : Prop :=
  odict.get "action" step = Some (VStr name)
  ∧ pystr.is_empty name = false
  ∧ odict.get name keyword_map = Some h
  ∧ ∃ target, odict.get "target" step = Some (VDict target)
              ∧ odict.get "element_name" target = Some arg.

Definition returned {A} (o : Outcome A) : bool :=
  match o with Ok _ => true | Raise _ => false end.

(** What a [return True] of the error handler's loop stands for: a keyword
    of the map was called with one argument, and returned. *)
Definition invoked_keyword (self : ErrorHandler.t) (trace : Trace) : Prop :=
  ∃ name h arg,
    odict.get name (ErrorHandler.keyword_map self) = Some h
    ∧ ECall name [arg] [] ∈ trace
    ∧ returned (h_run h [arg] []) = true.

(** A reply with two suggestions: the first carries its target under label,
    the second under element_name. *)
Definition label_then_element_name : string :=
  "[{" +:+ dq +:+ "action" +:+ dq +:+ ":" +:+ dq +:+ "press_element" +:+ dq +:+ ","
  +:+ dq +:+ "target" +:+ dq +:+ ":{" +:+ dq +:+ "label" +:+ dq +:+ ":"
  +:+ dq +:+ "Continue" +:+ dq +:+ "}},{"
  +:+ dq +:+ "action" +:+ dq +:+ ":" +:+ dq +:+ "press_element" +:+ dq +:+ ","
  +:+ dq +:+ "target" +:+ dq +:+ ":{" +:+ dq +:+ "element_name" +:+ dq +:+ ":"
  +:+ dq +:+ "OK" +:+ dq +:+ "}}]".

(** The first value of a target mapping, None for an empty one. *)
Definition first_value (target : list (string * value)) : value :=
  match target with
  | [] => VNone
  | (_, v) :: _ => v
  end.

(** What the loop of the AI action handler reads from a suggestion record:
    [step.get("action")] and [step.get("target", {})].  The record may hold
    any further fields, such as the reason the prompt asks for. *)
Definition step_action (step : list (string * value)) : value :=
  odict.get_default "action" VNone step.

Definition step_target (step : list (string * value)) : value :=
  odict.get_default "target" (VDict []) step.

(** The suggestion names the keyword registered as [h] under [name] and
    carries the mapping [target]. *)
Definition asks_for (keyword_map : KeywordMap) (step : list (string * value))
    (name : string) (target : list (string * value)) (h : Handler) : Prop :=
  step_action step = VStr name
  ∧ pystr.is_empty name = false
  ∧ odict.get name keyword_map = Some h
  ∧ step_target step = VDict target.

(** The call the AI action handler makes for such a suggestion: the named
    keyword on the first value of the target. *)
Definition call_for (step : list (string * value)) : Effect :=
  ECall (match step_action step with VStr name => name | _ => EmptyString end)
    [first_value (match step_target step with VDict target => target | _ => [] end)]
    [].

(** The keyword a suggestion asks for returns, or raises [e], on the first
    value of the target. *)
Definition keyword_returns (keyword_map : KeywordMap)
    (step : list (string * value)) : Prop :=
  ∃ name target h,
    asks_for keyword_map step name target h
    ∧ returned (h_run h [first_value target] []) = true.

Definition keyword_raises (keyword_map : KeywordMap)
    (step : list (string * value)) (e : exn) : Prop :=
  ∃ name target h,
    asks_for keyword_map step name target h
    ∧ h_run h [first_value target] [] = Raise e.

(** A reply as the prompt of the AI action handler asks for it: every
    suggestion with its action, its target and its reason.  The first
    target is given under label, the second under element_name. *)
Definition reply_with_reasons : string :=
  "[{" +:+ dq +:+ "action" +:+ dq +:+ ":" +:+ dq +:+ "press_element" +:+ dq +:+ ","
  +:+ dq +:+ "target" +:+ dq +:+ ":{" +:+ dq +:+ "label" +:+ dq +:+ ":"
  +:+ dq +:+ "Continue" +:+ dq +:+ "},"
  +:+ dq +:+ "reason" +:+ dq +:+ ":" +:+ dq +:+ "The dialog covers the form." +:+ dq
  +:+ "},{"
  +:+ dq +:+ "action" +:+ dq +:+ ":" +:+ dq +:+ "press_element" +:+ dq +:+ ","
  +:+ dq +:+ "target" +:+ dq +:+ ":{" +:+ dq +:+ "element_name" +:+ dq +:+ ":"
  +:+ dq +:+ "OK" +:+ dq +:+ "},"
  +:+ dq +:+ "reason" +:+ dq +:+ ":" +:+ dq +:+ "Confirm the choice." +:+ dq
  +:+ "}]".

(** The two suggestions of that reply, as the decoder yields them. *)
Definition continue_step : list (string * value) :=
  [("action", VStr "press_element");
   ("target", VDict [("label", VStr "Continue")]);
   ("reason", VStr "The dialog covers the form.")].

Definition ok_step : list (string * value) :=
  [("action", VStr "press_element");
   ("target", VDict [("element_name", VStr "OK")]);
   ("reason", VStr "Confirm the choice.")].

(** An output directory with two images and a text file. *)
Definition world_with_screenshots : World := {|
  requests_post := λ _ _ _, Raise (PyExc "ConnectionError" "connection refused");
  save_llm_log := λ _ _ _, Ok tt;
  parse_xml := λ _, Ok [];
  path_exists := λ p, String.eqb p "execution_output";
  listdir := λ _, Ok ["step1.png"; "log.txt"; "step2.jpg"];
  getmtime := λ p,
    if String.eqb p "execution_output/step1.png" then Ok 10%Z
    else if String.eqb p "execution_output/step2.jpg" then Ok 20%Z
    else Raise (PyExc "FileNotFoundError" p);
  environ := λ _, None;
  Agent_init := λ _ _, Ok tt;
  Agent_tool := λ _ _, Ok tt;
  Agent_run := λ _ _, Ok "done";
  Agent_tool_calls := λ _ _, [];
  load_yaml_prompt := λ _ _, Raise (PyExc "ValueError" "not found");
  capture_screenshot := λ _, Ok None;
  capture_pagesource := Ok None
|}.

(** A project with a prompt file. *)
Definition world_with_prompt_file : World := {|
  requests_post := λ _ _ _, Raise (PyExc "ConnectionError" "connection refused");
  save_llm_log := λ _ _ _, Ok tt;
  parse_xml := λ _, Ok [];
  path_exists := λ p, String.eqb p "prompts.yaml";
  listdir := λ _, Ok [];
  getmtime := λ _, Ok 0%Z;
  environ := λ _, None;
  Agent_init := λ _ _, Ok tt;
  Agent_tool := λ _ _, Ok tt;
  Agent_run := λ _ _, Ok "done";
  Agent_tool_calls := λ _ _, [];
  load_yaml_prompt := λ _ _,
    Ok {| AgentPrompt.system_prompt := Some "You repair failing steps.";
          AgentPrompt.user_prompt := None;
          AgentPrompt.max_tokens := Some 200%Z |};
  capture_screenshot := λ _, Ok None;
  capture_pagesource := Ok None
|}.

Definition config_with_prompt_file (file : string) : LLMAgentConfig.t := {|
  LLMAgentConfig.enabled := true;
  LLMAgentConfig.url := None;
  LLMAgentConfig.capabilities := [("model", VStr "gpt-4o")];
  LLMAgentConfig.trigger := "Keyword_fail";
  LLMAgentConfig.system_prompt := Some "You are a test engineer.";
  LLMAgentConfig.user_prompt := None;
  LLMAgentConfig.max_tokens := Some 1000%Z;
  LLMAgentConfig.temperature := "0.7";
  LLMAgentConfig.prompt_file := Some file;
  LLMAgentConfig.prompt_source_file := None
|}.

(** The prompts a configuration carries itself. *)
Definition config_prompts (config : LLMAgentConfig.t) : AgentPrompt.t :=
  {| AgentPrompt.system_prompt := LLMAgentConfig.system_prompt config;
     AgentPrompt.user_prompt := LLMAgentConfig.user_prompt config;
     AgentPrompt.max_tokens := LLMAgentConfig.max_tokens config |}.

(** The registry invariant: every name a trigger lists has a client and a
    configuration, and every stored configuration is enabled. *)
Definition registry_consistent {C} (self : LLMAgentManager.t C) : Prop :=
  (∀ trigger name,
      name ∈ LLMAgentManager.agents_for trigger self →
      odict.mem name (LLMAgentManager.agents self) = true
      ∧ is_Some (LLMAgentManager.configs self !! name))
  ∧ (∀ name config,
        LLMAgentManager.configs self !! name = Some config →
        LLMAgentConfig.enabled config = true).

(** A configuration with an endpoint of its own, whose capabilities name
    another one and refer to the environment for the key. *)
Definition config_with_url : LLMAgentConfig.t := {|
  LLMAgentConfig.enabled := true;
  LLMAgentConfig.url := Some "http://localhost:8000/v1";
  LLMAgentConfig.capabilities :=
    [("model", VStr "gpt-4o"); ("api_base", VStr "https://api.example.com");
     ("api_key", VStr "${LLM_API_KEY}")];
  LLMAgentConfig.trigger := "Keyword_fail";
  LLMAgentConfig.system_prompt := None;
  LLMAgentConfig.user_prompt := None;
  LLMAgentConfig.max_tokens := Some 1000%Z;
  LLMAgentConfig.temperature := "0.7";
  LLMAgentConfig.prompt_file := None;
  LLMAgentConfig.prompt_source_file := None
|}.

(** The client [PydanticAIClient(config)] builds. *)
Definition bare_client (config : LLMAgentConfig.t) : PydanticAIClient.t :=
  {| PydanticAIClient.config := config;
     PydanticAIClient.prompt := config_prompts config;
     PydanticAIClient.agent := None;
     PydanticAIClient.tools := [] |}.

(** A capability value that refers to the environment variable [var]. *)
Definition env_reference (var : string) : string := "${" +:+ var +:+ "}".

(** The provider rejects the creation of an agent. *)
Definition world_rejecting_agents : World := {|
  requests_post := λ _ _ _, Raise (PyExc "ConnectionError" "connection refused");
  save_llm_log := λ _ _ _, Ok tt;
  parse_xml := λ _, Ok [];
  path_exists := λ _, false;
  listdir := λ _, Ok [];
  getmtime := λ _, Ok 0%Z;
  environ := λ _, None;
  Agent_init := λ _ _, Raise (PyExc "UserError" "unknown model");
  Agent_tool := λ _ _, Ok tt;
  Agent_run := λ _ _, Ok "done";
  Agent_tool_calls := λ _ _, [];
  load_yaml_prompt := λ _ _, Raise (PyExc "ValueError" "not found");
  capture_screenshot := λ _, Ok None;
  capture_pagesource := Ok None
|}.

(** A manager with two shipped clients. *)
Definition two_client_manager : LLMAgentManager.t PydanticAIClient.t := {|
  LLMAgentManager.agents :=
    [("repair", bare_client config_with_url);
     ("report", bare_client (Examples.agent_config "gpt-4o" "Keyword_fail"))];
  LLMAgentManager.configs := ∅;
  LLMAgentManager.trigger_map := <["Keyword_fail" := ["repair"; "report"]]> ∅;
  LLMAgentManager.session_tools := ∅
|}.

(** A text of whitespace only, as [str.strip] sees it. *)
Definition blank (s : string) : bool := pystr.is_empty (pystr.lstrip pystr.isspace s).

(** A text that does not begin with a character of the class [P]. *)
Definition head_kept (P : ascii → bool) (s : string) : Prop :=
  match s with
  | EmptyString => True
  | String c _ => P c = false
  end.




(** A stand-in client whose response lists actions and asks for a human. *)
Inductive asking_client : Type :=
| AskingClient (actions : list AgentAction.t).

#[global] Instance asking_agent_client : AgentClient asking_client := {|
  client_new := λ _ _, ret (AskingClient []);
  client_register_tools := λ _ _ c, (c, ret tt);
  client_execute := λ _ _ c,
    match c with
    | AskingClient actions =>
        ret {| AgentResponse.message := "A human should look at this.";
               AgentResponse.actions := actions;
               AgentResponse.requires_human_input := true |}
    end
|}.

Definition asking_manager : LLMAgentManager.t asking_client := {|
  LLMAgentManager.agents :=
    [("cautious", AskingClient [Examples.action "press_element" [VStr "Continue"]])];
  LLMAgentManager.configs := ∅;
  LLMAgentManager.trigger_map := <["Keyword_fail" := ["cautious"]]> ∅;
  LLMAgentManager.session_tools := <["s1" := Examples.session_keywords]> ∅
|}.

(** [l] is one of the orders in which the effects of concurrently running
    tasks can be observed: every step takes the next effect of one of the
    tasks, so each task's effects keep their own order.  The order in which
    [gather] runs the tasks, each to its end, is one of them; which one
    asyncio takes depends on where the tasks suspend. *)
Inductive interleaving : list Trace → Trace → Prop :=
  | interleaving_done (ts : list Trace) :
      Forall (λ t, t = []) ts → interleaving ts []
  | interleaving_step (ts : list Trace) (i : nat) (x : Effect) (t l : Trace) :
      ts !! i = Some (x :: t) →
      interleaving (<[i := t]> ts) l →
      interleaving ts (x :: l).

(** * Properties *)

(** ** Reasoning about [Eff] *)

Ltac eff_unfold :=
  unfold mbind, mret, fmap, eff_bind, eff_ret, eff_fmap, bind, ret, raise,
    log, emit, call, try_except, invoke, publish_command in *.

Ltac eff_simpl := repeat (eff_unfold; cbn [fst snd app] in *).

Lemma bind_ok {A B} (a : A) (t : Trace) (k : A → Eff B) :
  bind (Ok a, t) k = (fst (k a), t ++ snd (k a)).
Proof. unfold bind. by destruct (k a). Qed.

Lemma bind_raise {A B} (e : exn) (t : Trace) (k : A → Eff B) :
  bind (Raise e, t) k = (Raise e, t).
Proof. done. Qed.

Lemma dispatches_app (t1 t2 : Trace) :
  dispatches (t1 ++ t2) = dispatches t1 ++ dispatches t2.
Proof. unfold dispatches. apply List.filter_app. Qed.

Lemma dispatches_log lvl m (t : Trace) :
  dispatches (ELog lvl m :: t) = dispatches t.
Proof. done. Qed.

Lemma for_each_total {A} (body : A → Eff unit) (xs : list A) :
  (∀ x, fst (body x) = Ok tt) →
  for_each body xs = (Ok tt, List.concat (List.map (λ x, snd (body x)) xs)).
Proof.
  intros Hbody. induction xs as [|x xs IH]; [done|].
  cbn [for_each List.map List.concat]. unfold mbind, eff_bind.
  specialize (Hbody x). destruct (body x) as [r t]. cbn in Hbody. subst r.
  rewrite bind_ok, IH. done.
Qed.

Lemma gather_total (tasks : list (Eff unit)) :
  Forall (λ task, fst task = Ok tt) tasks →
  gather tasks = (Ok tt, List.concat (List.map snd tasks)).
Proof.
  induction 1 as [|[r t] tasks Hr _ IH]; [done|].
  cbn in Hr. subst r. cbn [gather List.map List.concat snd]. by rewrite IH.
Qed.

(** ** Prefixes of equal length exclude one another *)

Lemma startswith_same_length (p q s : string) :
  String.length p = String.length q →
  pystr.startswith p s = true → pystr.startswith q s = true → p = q.
Proof.
  unfold pystr.startswith. intros Hlen Hp Hq.
  apply String.prefix_correct in Hp, Hq. rewrite Hlen in Hp. congruence.
Qed.

Ltac prefix_clash :=
  match goal with
  | Hp : pystr.startswith ?p ?s = true, Hq : pystr.startswith ?q ?s = true |- _ =>
      let E := fresh in
      assert (E : p = q) by (by apply (startswith_same_length p q s));
      discriminate E
  end.

Section error_handler.
Import ErrorHandler.

  (** C2. The failure class of an error code is decided by its prefix:
      screen_popup exactly for E0201 and X0201, keyword_execution exactly for
      E0401 and X0401, driver_issue exactly for E0101, general_error exactly
      for every other code.  The code E9999_unknown is a general error, and
      handling it starts no recovery: the popup handler is not asked, no
      keyword is called, the result is false, whatever the context holds. *)
Theorem classify_failure_by_prefix :
    (∀ error_code : string,
        (classify_failure error_code = "screen_popup" ↔
           pystr.startswith "E0201" error_code = true
           ∨ pystr.startswith "X0201" error_code = true)
        ∧ (classify_failure error_code = "keyword_execution" ↔
             pystr.startswith "E0401" error_code = true
             ∨ pystr.startswith "X0401" error_code = true)
        ∧ (classify_failure error_code = "driver_issue" ↔
             pystr.startswith "E0101" error_code = true)
        ∧ (classify_failure error_code = "general_error" ↔
             pystr.startswith "E0201" error_code = false
             ∧ pystr.startswith "X0201" error_code = false
             ∧ pystr.startswith "E0401" error_code = false
             ∧ pystr.startswith "X0401" error_code = false
             ∧ pystr.startswith "E0101" error_code = false))
    ∧ classify_failure "E9999_unknown" = "general_error"
    ∧ ∀ (w : World) (self : t) (error_message : string)
        (context_info : option (gmap string string)),
        handle_error w self "E9999_unknown" error_message context_info
        = (Ok false, [ELog WARNING (MsgHandlingError "E9999_unknown" error_message)]).
  Proof.
    split; [|split; [done|done]].
    intros error_code. unfold classify_failure.
    destruct (pystr.startswith "E0201" error_code) eqn:E1;
      destruct (pystr.startswith "X0201" error_code) eqn:E2;
      destruct (pystr.startswith "E0401" error_code) eqn:E3;
      destruct (pystr.startswith "X0401" error_code) eqn:E4;
      destruct (pystr.startswith "E0101" error_code) eqn:E5;
      try prefix_clash; cbn;
      repeat split; intros; try done; try tauto;
      repeat match goal with
             | H : _ ∨ _ |- _ => destruct H
             | H : _ ∧ _ |- _ => destruct H
             end; try done; auto.
  Qed.

End error_handler.

Section manager_registry.
Context {C : Type} `{AgentClient C}.
Import LLMAgentManager.

Implicit Types (self : LLMAgentManager.t C) (w : World).

Lemma public_tools_all_private (keyword_map : KeywordMap) :
    all_private keyword_map = true → public_tools keyword_map = [].
  Proof.
    unfold all_private, public_tools.
    induction keyword_map as [|[n h] km IH]; [done|].
    cbn. intros [Hn Hkm]%andb_prop. rewrite Hn. cbn. auto.
  Qed.

Lemma register_tools_session_tools w session_id keyword_map self :
    session_tools (register_tools_for_session w session_id keyword_map self).1
    = <[session_id := keyword_map]> (session_tools self).
  Proof.
    unfold register_tools_for_session.
    by destruct (register_with_agents w keyword_map (agents self)).
  Qed.

  (** C9. Once a session is registered with a keyword map that is empty or
      holds only names with the private prefix, the tools offered for it are
      exactly the two control tools: pause_execution with its reason
      parameter, then resume_execution without parameters. *)
Theorem tools_of_session_without_public_handlers
      w session_id (keyword_map : KeywordMap) self :
    all_private keyword_map = true →
    _get_available_tools session_id
      (register_tools_for_session w session_id keyword_map self).1
    = [ {| Tool.name := "pause_execution";
           Tool.description := "Pause the test execution";
           Tool.parameters := [("reason", VStr "str")] |};
        {| Tool.name := "resume_execution";
           Tool.description := "Resume the test execution";
           Tool.parameters := [] |} ].
  Proof.
    intros Hprivate. unfold _get_available_tools.
    rewrite register_tools_session_tools, lookup_insert_eq.
    by rewrite public_tools_all_private.
  Qed.

  (** *** Disabled agents never enter the trigger map *)

Lemma register_agent_disabled w name config self :
    LLMAgentConfig.enabled config = false →
    register_agent w name config self = (self, (Ok tt, [ELog DEBUG (MsgAgentDisabled name)])).
  Proof. intros Hoff. unfold register_agent. by rewrite Hoff. Qed.

Lemma register_agent_trigger_map w name config self trigger (n : string) :
    n ∈ agents_for trigger (register_agent w name config self).1 →
    n ∈ agents_for trigger self
    ∨ (n = name ∧ LLMAgentConfig.enabled config = true).
  Proof.
    unfold register_agent.
    destruct (LLMAgentConfig.enabled config) eqn:Hen; cbn [negb]; [|by left].
    destruct (client_new w config) as [[client|e] tr]; cbn [fst]; [|by left].
    unfold agents_for at 1. cbn [trigger_map].
    destruct (decide (LLMAgentConfig.trigger config = trigger)) as [->|Hne].
    - rewrite lookup_insert_eq. cbn. rewrite elem_of_app, list_elem_of_singleton.
      intros [?| ->]; [by left | by right].
    - rewrite lookup_insert_ne by done. by left.
  Qed.

Lemma apply_op_trigger_map w op self trigger (n : string) :
    n ∈ agents_for trigger (apply_op w self op) →
    n ∈ agents_for trigger self
    ∨ ∃ config, op = OpRegisterAgent n config ∧ LLMAgentConfig.enabled config = true.
  Proof.
    destruct op as [name config|sid km|sid]; cbn [apply_op].
    - intros [?|[-> ?]]%register_agent_trigger_map; [by left|]. right. eauto.
    - unfold register_tools_for_session.
      destruct (register_with_agents w km (agents self)). by left.
    - unfold unregister_session.
      destruct (session_tools self !! sid); by left.
  Qed.

Lemma fold_ops_trigger_map w (ops : list manager_op) self trigger (n : string) :
    n ∈ agents_for trigger (fold_left (apply_op w) ops self) →
    n ∈ agents_for trigger self
    ∨ ∃ config, OpRegisterAgent n config ∈ ops ∧ LLMAgentConfig.enabled config = true.
  Proof.
    revert self. induction ops as [|op ops IH]; intros self; cbn [fold_left]; [by left|].
    intros [Hin|(config & Hin & Hen)]%IH.
    - apply apply_op_trigger_map in Hin as [?|(config & -> & Hen)]; [by left|].
      right. exists config. split; [by left|done].
    - right. exists config. split; [by right|done].
  Qed.

  (** C10. Registering an agent whose configuration is disabled changes
      nothing in the manager (only a debug record is written), and after any
      history of operations on a fresh manager in which every registration of
      a name was disabled, no trigger key lists that name: the list of agents
      the manager runs for an event never contains it. *)
Theorem disabled_agent_never_registered :
    (∀ w name config self,
        LLMAgentConfig.enabled config = false →
        (register_agent w name config self).1 = self
        ∧ (register_agent w name config self).2
          = (Ok tt, [ELog DEBUG (MsgAgentDisabled name)]))
    ∧ (∀ w (ops : list manager_op) (name : string),
          only_disabled name ops →
          ∀ trigger, name ∉ agents_for trigger (manager_after (C := C) w ops)).
  Proof.
    split.
    - intros w name config self Hoff. by rewrite register_agent_disabled.
    - intros w ops name Hdis trigger Hin.
      apply fold_ops_trigger_map in Hin as [Hin|(config & Hin & Hen)].
      + unfold agents_for, init in Hin. cbn in Hin.
        rewrite lookup_empty in Hin. by apply not_elem_of_nil in Hin.
      + apply Hdis in Hin. congruence.
  Qed.

End manager_registry.

Section dispatcher.
Context {C : Type} `{AgentClient C}.
Import LLMAgentManager.

Implicit Types (self : LLMAgentManager.t C) (w : World).

Lemma unpack_args_silent (v : value) : (unpack_args v).2 = [].
Proof. by destruct v. Qed.

Lemma unpack_kwargs_silent (v : value) : (unpack_kwargs v).2 = [].
Proof. by destruct v. Qed.

(** One action never raises out of the loop body, and its calls and
    commands are those of [dispatch_of]. *)
Lemma process_action_dispatch session_id (tools : KeywordMap) (action : AgentAction.t) :
  (process_action session_id tools action).1 = Ok tt
  ∧ dispatches (process_action session_id tools action).2
    = dispatch_of session_id tools action.
Proof.
  unfold process_action, dispatch_of.
  destruct (String.eqb _ "pause_execution"); [done|].
  destruct (String.eqb _ "resume_execution"); [done|].
  destruct (odict.get _ tools) as [h|]; [|done].
  unfold call_tool.
  pose proof (unpack_args_silent
    (odict.get_default "args" (VList []) (AgentAction.parameters action))) as Ha.
  pose proof (unpack_kwargs_silent
    (odict.get_default "kwargs" (VDict []) (AgentAction.parameters action))) as Hk.
  destruct (unpack_args _) as [[args|e] ta]; cbn in Ha; subst ta;
    destruct (unpack_kwargs _) as [[kwargs|e'] tk]; cbn in Hk; subst tk;
    destruct (h_async h); eff_simpl; try done;
    by destruct (h_run h args kwargs).
Qed.

(** The trace of an action whose handler raises: the call, then the error
    record. *)
Lemma process_action_raises session_id (tools : KeywordMap) (action : AgentAction.t)
    h args kwargs e :
  calls_tool tools action h args kwargs →
  h_run h args kwargs = Raise e →
  process_action session_id tools action
  = (Ok tt,
     [ELog INFO (MsgProcessingAction (AgentAction.tool_name action)
                   (AgentAction.parameters action));
      ELog DEBUG (MsgExecutingTool (AgentAction.tool_name action)
                    (odict.get_default "args" (VList []) (AgentAction.parameters action))
                    (odict.get_default "kwargs" (VDict []) (AgentAction.parameters action)));
      ECall (AgentAction.tool_name action) args kwargs;
      ELog ERROR (MsgToolError (AgentAction.tool_name action) e)]).
Proof.
  intros (Hp & Hr & Hh & Ha & Hk) Hraise. unfold process_action, call_tool.
  rewrite Hp, Hr, Hh, Ha, Hk. destruct (h_async h); eff_simpl; by rewrite Hraise.
Qed.

Lemma process_actions_registered session_id (tools : KeywordMap)
    (actions : list AgentAction.t) self :
  session_tools self !! session_id = Some tools →
  actions ≠ [] →
  _process_actions session_id actions self
  = (Ok tt, List.concat (List.map (λ a, (process_action session_id tools a).2) actions)).
Proof.
  intros Hs Hne. unfold _process_actions. rewrite Hs.
  destruct actions as [|a actions]; [done|].
  apply for_each_total. intros x. apply process_action_dispatch.
Qed.

(** C3. For a session with registered tools, the dispatcher works through a
    non-empty action list in list order: it returns normally, and the calls
    and commands it issued are those of the first action, then those of the
    second, and so on, one group per list entry, none moved or dropped as a
    repetition.  For a list [A, B, C] in which B calls a tool whose handler
    raises, the exception is caught and recorded, and the trace is the trace
    of A, then B's call and its error record, then the trace of C: what A and
    C do is what each does when processed alone. *)
Theorem process_actions_in_order_despite_failure session_id (tools : KeywordMap) self :
  session_tools self !! session_id = Some tools →
  (∀ actions : list AgentAction.t,
      actions ≠ [] →
      (_process_actions session_id actions self).1 = Ok tt
      ∧ dispatches (_process_actions session_id actions self).2
        = List.concat (List.map (dispatch_of session_id tools) actions))
  ∧ (∀ (A B C' : AgentAction.t) hB args kwargs e,
        calls_tool tools B hB args kwargs →
        h_run hB args kwargs = Raise e →
        _process_actions session_id [A; B; C'] self
        = (Ok tt,
           (process_action session_id tools A).2
           ++ [ELog INFO (MsgProcessingAction (AgentAction.tool_name B)
                            (AgentAction.parameters B));
               ELog DEBUG (MsgExecutingTool (AgentAction.tool_name B)
                             (odict.get_default "args" (VList []) (AgentAction.parameters B))
                             (odict.get_default "kwargs" (VDict []) (AgentAction.parameters B)));
               ECall (AgentAction.tool_name B) args kwargs;
               ELog ERROR (MsgToolError (AgentAction.tool_name B) e)]
           ++ (process_action session_id tools C').2)
        ∧ dispatches (_process_actions session_id [A; B; C'] self).2
          = dispatch_of session_id tools A
            ++ [ECall (AgentAction.tool_name B) args kwargs]
            ++ dispatch_of session_id tools C').
Proof.
  intros Hs. split.
  - intros actions Hne. rewrite (process_actions_registered _ tools) by done.
    split; [done|]. cbn [snd]. clear Hne.
    induction actions as [|a actions IH]; [done|].
    cbn [List.map List.concat]. rewrite dispatches_app, IH.
    by rewrite (proj2 (process_action_dispatch session_id tools a)).
  - intros A B C' hB args kwargs e HB Hraise.
    rewrite (process_actions_registered _ tools) by done.
    cbn [List.map List.concat snd].
    rewrite (process_action_raises _ _ B hB args kwargs e) by done.
    cbn [snd]. rewrite app_nil_r. split; [done|].
    rewrite !dispatches_app.
    rewrite (proj2 (process_action_dispatch session_id tools A)).
    rewrite (proj2 (process_action_dispatch session_id tools C')).
    done.
Qed.

End dispatcher.

Section fan_out.
Context {C : Type} `{AgentClient C}.
Import LLMAgentManager.

Implicit Types (self : LLMAgentManager.t C) (w : World).

Lemma process_actions_returns session_id (actions : list AgentAction.t) self :
  (_process_actions session_id actions self).1 = Ok tt.
Proof.
  unfold _process_actions. destruct actions as [|a actions]; [done|].
  destruct (session_tools self !! session_id) as [tools|]; [|done].
  rewrite for_each_total; [done|]. intros x. apply process_action_dispatch.
Qed.

(** An agent's turn ends inside [_execute_agent], whatever its client does. *)
Lemma execute_agent_returns w agent_name (context : AgentContext.t) self :
  (_execute_agent w agent_name context self).1 = Ok tt.
Proof.
  unfold _execute_agent. destruct (odict.get agent_name (agents self)) as [agent|]; [|done].
  destruct (client_execute w context agent) as [[response|e] t];
    eff_simpl; [|done].
  destruct (AgentResponse.requires_human_input response); [done|].
  pose proof (process_actions_returns (AgentContext.session_id context)
                (AgentResponse.actions response) self) as Hp.
  destruct (_process_actions _ _ self) as [r t']. cbn in Hp. by subst r.
Qed.

Lemma execute_agent_raising w agent_name (context : AgentContext.t) self agent e t :
  odict.get agent_name (agents self) = Some agent →
  client_execute w context agent = (Raise e, t) →
  _execute_agent w agent_name context self
  = (Ok tt,
     [ELog INFO (MsgExecutingAgent agent_name (AgentContext.event_type context))]
     ++ t ++ [ELog ERROR (MsgAgentError agent_name e)]).
Proof.
  intros Hagent Hexec. unfold _execute_agent. rewrite Hagent.
  eff_simpl. by rewrite Hexec.
Qed.

Lemma execute_agent_answering w agent_name (context : AgentContext.t) self agent response t :
  odict.get agent_name (agents self) = Some agent →
  client_execute w context agent = (Ok response, t) →
  AgentResponse.requires_human_input response = false →
  _execute_agent w agent_name context self
  = (Ok tt,
     [ELog INFO (MsgExecutingAgent agent_name (AgentContext.event_type context))]
     ++ t
     ++ [ELog INFO (MsgAgentResponse agent_name (AgentResponse.message response))]
     ++ (_process_actions (AgentContext.session_id context)
           (AgentResponse.actions response) self).2).
Proof.
  intros Hagent Hexec Hhuman. unfold _execute_agent. rewrite Hagent.
  pose proof (process_actions_returns (AgentContext.session_id context)
                (AgentResponse.actions response) self) as Hp.
  eff_simpl. rewrite Hexec, Hhuman.
  destruct (_process_actions _ _ self) as [r t']. cbn in Hp. by subst r.
Qed.

Lemma find_latest_screenshot_returns w :
  ∃ shot, (_find_latest_screenshot w).1 = Ok shot.
Proof.
  unfold _find_latest_screenshot.
  match goal with |- context [try_except ?m ?h] => destruct m as [[s|e] t] end;
    eff_simpl; eauto.
Qed.

Lemma tools_of_registered_session session_id (tools : KeywordMap) self :
  session_tools self !! session_id = Some tools →
  ∃ tool rest, _get_available_tools session_id self = tool :: rest.
Proof.
  intros Hs. unfold _get_available_tools. rewrite Hs.
  destruct (tool_of <$> public_tools tools) as [|tool rest]; cbn; eauto.
Qed.

Lemma on_event_returns w (event : Event.t) self :
  (on_event w event self).1 = Ok tt.
Proof.
  unfold on_event.
  destruct (agents_for (event_trigger event) self) as [|a names] eqn:Hnames; [done|].
  destruct (negb (PopupHandler.truthy_str (Event.extra event !! "session_id"))); [done|].
  destruct (_get_available_tools _ self) as [|tool tools]; [done|].
  destruct (find_latest_screenshot_returns w) as [shot Hshot].
  destruct (_find_latest_screenshot w) as [r ts]. cbn in Hshot. subst r.
  unfold mbind, eff_bind, log, emit. rewrite !bind_ok. cbn [fst].
  rewrite gather_total; [done|].
  apply Forall_fmap, Forall_forall. intros name _. apply execute_agent_returns.
Qed.

(** C4. No exception leaves [on_event].  When the trigger of an event lists
    two agents, the session is known and the second agent's call answers
    (without asking for a human), the event is handled to the end: after the
    first agent's turn, whatever it did, the second agent's actions go
    through the dispatcher.  A first agent whose call raises has the
    exception caught and recorded inside its own turn, which then is over. *)
Theorem on_event_isolates_agents :
  (∀ w (event : Event.t) self, (on_event w event self).1 = Ok tt)
  ∧ (∀ w (event : Event.t) self (a1 a2 session_id : string) (tools : KeywordMap)
       (c1 c2 : C) shot ts (r2 : AgentResponse.t) t2,
        agents_for (event_trigger event) self = [a1; a2] →
        Event.extra event !! "session_id" = Some session_id →
        pystr.is_empty session_id = false →
        session_tools self !! session_id = Some tools →
        odict.get a1 (agents self) = Some c1 →
        odict.get a2 (agents self) = Some c2 →
        _find_latest_screenshot w = (Ok shot, ts) →
        let context :=
          event_context event session_id shot (_get_available_tools session_id self) in
        client_execute w context c2 = (Ok r2, t2) →
        AgentResponse.requires_human_input r2 = false →
        on_event w event self
        = (Ok tt,
           [ELog DEBUG (MsgCheckingTrigger (event_trigger event))]
           ++ ts
           ++ (_execute_agent w a1 context self).2
           ++ [ELog INFO (MsgExecutingAgent a2 (event_trigger event))]
           ++ t2
           ++ [ELog INFO (MsgAgentResponse a2 (AgentResponse.message r2))]
           ++ (_process_actions session_id (AgentResponse.actions r2) self).2)
        ∧ (∀ e t1,
              client_execute w context c1 = (Raise e, t1) →
              _execute_agent w a1 context self
              = (Ok tt,
                 [ELog INFO (MsgExecutingAgent a1 (event_trigger event))]
                 ++ t1 ++ [ELog ERROR (MsgAgentError a1 e)]))).
Proof.
  split; [apply on_event_returns|].
  intros w event self a1 a2 sid tools c1 c2 shot ts r2 t2
    Hnames Hsid Hne Hs Hc1 Hc2 Hshot context Hexec2 Hhuman.
  split.
  - unfold on_event. rewrite Hnames, Hsid.
    change (default EmptyString (Some sid)) with sid.
    cbn [PopupHandler.truthy_str]. rewrite Hne. cbn [negb].
    destruct (tools_of_registered_session sid tools self Hs) as (tool & rest & Htools).
    subst context. rewrite Htools in *. rewrite Hshot.
    unfold mbind, eff_bind, log, emit. rewrite !bind_ok.
    cbn [fst snd fmap list_fmap].
    rewrite gather_total.
    2:{ repeat constructor; apply execute_agent_returns. }
    cbn [List.map List.concat fst snd].
    rewrite (execute_agent_answering w a2 _ self c2 r2 t2) by done.
    cbn [snd AgentContext.session_id AgentContext.event_type event_context].
    by rewrite app_nil_r.
  - intros e t1 Hexec1.
    by rewrite (execute_agent_raising w a1 _ self c1 e t1).
Qed.

End fan_out.

Section shipped_client.
Import LLMAgentManager.

Implicit Types (self : LLMAgentManager.t PydanticAIClient.t) (w : World).










End shipped_client.



(** ** Stripping and fences *)

Section strip_lemmas.
Import pystr.
Variable P : ascii → bool.

Lemma is_empty_append (s t : string) :
  is_empty (s +:+ t) = is_empty s && is_empty t.
Proof. by destruct s. Qed.

Lemma lstrip_append (s t : string) :
  lstrip P (s +:+ t)
  = if is_empty (lstrip P s) then lstrip P t else lstrip P s +:+ t.
Proof.
  induction s as [|c s IH]; [done|].
  simpl. destruct (P c); [exact IH | reflexivity].
Qed.

Lemma rstrip_snoc (s : string) (c : ascii) :
  P c = true → rstrip P (s +:+ String c EmptyString) = rstrip P s.
Proof.
  intros Hc. induction s as [|a s IH]; simpl.
  - by rewrite Hc.
  - by rewrite IH.
Qed.

Lemma rstrip_append_kept (s t : string) :
  rstrip P t = t → is_empty t = false → rstrip P (s +:+ t) = s +:+ t.
Proof.
  intros Ht Hne. induction s as [|a s IH]; [done|].
  simpl. rewrite IH, is_empty_append, Hne.
  by rewrite andb_false_r.
Qed.

Lemma rstrip_idempotent (s : string) : rstrip P (rstrip P s) = rstrip P s.
Proof.
  induction s as [|c s IH]; [done|].
  cbn [rstrip]. destruct (is_empty (rstrip P s) && P c) eqn:Hcut; [done|].
  cbn [rstrip]. by rewrite IH, Hcut.
Qed.

Lemma lstrip_head_kept (s : string) : head_kept P (lstrip P s).
Proof.
  induction s as [|c s IH]; [done|].
  cbn [lstrip]. by destruct (P c) eqn:Hc.
Qed.

Lemma head_kept_lstrip (s : string) : head_kept P s → lstrip P s = s.
Proof. destruct s as [|c s]; [done|]. cbn. by intros ->. Qed.

Lemma rstrip_head_kept (s : string) :
  head_kept P s → head_kept P (rstrip P s).
Proof.
  destruct s as [|c s]; [done|]. cbn [head_kept rstrip]. intros Hc.
  by rewrite Hc, andb_false_r.
Qed.

Lemma strip_with_idempotent (s : string) :
  strip_with P (strip_with P s) = strip_with P s.
Proof.
  unfold strip_with.
  rewrite (head_kept_lstrip (rstrip P (lstrip P s))).
  - apply rstrip_idempotent.
  - apply rstrip_head_kept, lstrip_head_kept.
Qed.

Lemma strip_with_snoc (s : string) (c : ascii) :
  P c = true → strip_with P (s +:+ String c EmptyString) = strip_with P s.
Proof.
  intros Hc. unfold strip_with. rewrite lstrip_append.
  destruct (lstrip P s) as [|a r] eqn:Hs; cbn [is_empty].
  - cbn [lstrip]. by rewrite Hc.
  - by apply rstrip_snoc.
Qed.

End strip_lemmas.

Section fences.
Import pystr.

Lemma string_length_append (s t : string) :
  String.length (s +:+ t) = String.length s + String.length t.
Proof. induction s as [|c s IH]; [done|]. simpl. by rewrite IH. Qed.

Lemma sub_closing_fence_cons (c : ascii) (r : string) :
  sub_closing_fence (String c r)
  = if String.eqb (String c r) fence then EmptyString
    else if String.eqb (String c r) (fence +:+ lf) then lf
    else String c (sub_closing_fence r).
Proof. reflexivity. Qed.

Lemma longer_than_fence (c : ascii) (content t : string) :
  (String.length t <= 4)%nat →
  String.eqb (String c (content +:+ lf +:+ fence)) t = false.
Proof.
  intros Ht. apply String.eqb_neq. intros E.
  apply (f_equal String.length) in E. simpl in E.
  rewrite !string_length_append in E. simpl in E. lia.
Qed.

(** The closing fence behind a line feed is the one match of the second
    alternative. *)
Lemma sub_closing_fence_tail (content : string) :
  sub_closing_fence (content +:+ lf +:+ fence) = content +:+ lf.
Proof.
  induction content as [|c content IH]; [done|].
  change (String c content +:+ lf +:+ fence)
    with (String c (content +:+ lf +:+ fence)).
  rewrite sub_closing_fence_cons, !longer_than_fence, IH by (simpl; lia).
  reflexivity.
Qed.

Lemma strip_fenced_json (content : string) :
  strip (fenced_json content) = fenced_json content.
Proof.
  unfold strip, strip_with, fenced_json.
  change (lstrip isspace (json_fence +:+ content +:+ lf +:+ fence))
    with (json_fence +:+ content +:+ lf +:+ fence).
  apply rstrip_append_kept.
  - by apply rstrip_append_kept.
  - by rewrite is_empty_append, andb_false_r.
Qed.

Lemma startswith_append (p s : string) : startswith p (p +:+ s) = true.
Proof.
  unfold startswith. induction p as [|a p IH]; simpl; [by destruct s|].
  by destruct (ascii_dec a a).
Qed.

Lemma drop_append (p s : string) : drop (String.length p) (p +:+ s) = s.
Proof. induction p as [|a p IH]; [done|]. simpl. exact IH. Qed.

Lemma sub_fences_fenced_json (content : string) :
  sub_fences (fenced_json content) = content +:+ lf.
Proof.
  unfold sub_fences, fenced_json.
  rewrite startswith_append, drop_append. apply sub_closing_fence_tail.
Qed.

Lemma loads_trailing_line_feed (s : string) :
  json.loads (s +:+ lf) = json.loads s.
Proof. unfold json.loads, lf. by rewrite strip_with_snoc. Qed.

(** C8 (amended). A response that wraps a content in a fenced block tagged
    json, the closing fence on a line of its own, is parsed by both handlers
    to what the content alone is parsed to, for every content that carries no
    fence of its own and around which [strip] finds only the whitespace JSON
    allows. *)
Theorem fenced_json_parses_like_bare (content : string) :
  sub_fences (strip content) = strip content →
  strip content = strip_with json_ws content →
  PopupHandler.extract_json_from_llm_response (VStr (fenced_json content))
  = PopupHandler.extract_json_from_llm_response (VStr content)
  ∧ AIActionHandler.extract_json_from_llm_response (VStr (fenced_json content))
    = AIActionHandler.extract_json_from_llm_response (VStr content).
Proof.
  intros Hbare Hws.
  assert (json.loads (sub_fences (strip (fenced_json content)))
          = json.loads (sub_fences (strip content))) as Hloads.
  { rewrite strip_fenced_json, sub_fences_fenced_json, loads_trailing_line_feed.
    rewrite Hbare, Hws. unfold json.loads. by rewrite strip_with_idempotent. }
  unfold PopupHandler.extract_json_from_llm_response,
    AIActionHandler.extract_json_from_llm_response.
  by rewrite Hloads.
Qed.

End fences.

Lemma fenced_json_parses_like_bare_witness :
  PopupHandler.extract_json_from_llm_response
    (VStr (fenced_json Examples.press_continue))
  = PopupHandler.extract_json_from_llm_response (VStr Examples.press_continue)
  ∧ AIActionHandler.extract_json_from_llm_response
      (VStr (fenced_json Examples.press_continue))
    = AIActionHandler.extract_json_from_llm_response
        (VStr Examples.press_continue).
Proof.
  apply (fenced_json_parses_like_bare Examples.press_continue);
    vm_compute; reflexivity.
Defined.

(** C8 (as stated). The bare suggestion list parses, the same list in a block
    tagged python does not; and a content that begins with a form feed parses
    bare, where [strip] removes the form feed, but not in a block tagged
    json, where the decoder meets it. *)
Example fence_with_other_tag_or_whitespace_differs :
  (PopupHandler.extract_json_from_llm_response (VStr Examples.press_continue)
   = ret Examples.press_continue_value
   ∧ PopupHandler.extract_json_from_llm_response
       (VStr (Examples.fenced "python" Examples.press_continue))
     = raise (ValueError "Failed to parse JSON"))
  ∧ (AIActionHandler.extract_json_from_llm_response
       (VStr (Examples.form_feed +:+ "[]"))
     = ret (VList [])
     ∧ AIActionHandler.extract_json_from_llm_response
         (VStr (Examples.fenced "json" (Examples.form_feed +:+ "[]")))
       = raise (ValueError "Failed to parse JSON")).
Proof. repeat split; vm_compute; reflexivity. Qed.

(** ** The theorems at work on the examples *)

Lemma tools_of_session_without_public_handlers_witness :
  LLMAgentManager._get_available_tools "s2"
    (LLMAgentManager.register_tools_for_session Examples.world_offline "s2"
       [("_teardown", Examples.returning)] Examples.mock_manager).1
  = [ {| Tool.name := "pause_execution";
         Tool.description := "Pause the test execution";
         Tool.parameters := [("reason", VStr "str")] |};
      {| Tool.name := "resume_execution";
         Tool.description := "Resume the test execution";
         Tool.parameters := [] |} ].
Proof.
  apply (tools_of_session_without_public_handlers Examples.world_offline "s2"
           [("_teardown", Examples.returning)] Examples.mock_manager).
  reflexivity.
Defined.

Lemma process_actions_in_order_despite_failure_witness :
  dispatches
    (LLMAgentManager._process_actions "s1"
       [Examples.action "press_element" [VStr "Continue"];
        Examples.action "enter_text" [VStr "hello"];
        Examples.action "press_element" [VStr "OK"]]
       Examples.mock_manager).2
  = [ECall "press_element" [VStr "Continue"] [];
     ECall "enter_text" [VStr "hello"] [];
     ECall "press_element" [VStr "OK"] []].
Proof.
  destruct (process_actions_in_order_despite_failure "s1"
              Examples.session_keywords Examples.mock_manager eq_refl)
    as [_ Hraises].
  apply (Hraises (Examples.action "press_element" [VStr "Continue"])
           (Examples.action "enter_text" [VStr "hello"])
           (Examples.action "press_element" [VStr "OK"])
           Examples.raising [VStr "hello"] []
           (PyExc "RuntimeError" "element not found")).
  - repeat split; reflexivity.
  - reflexivity.
Defined.

Lemma on_event_isolates_agents_witness :
  (LLMAgentManager.on_event Examples.world_offline Examples.fail_event
     Examples.mock_manager).1 = Ok tt
  ∧ dispatches
      (LLMAgentManager.on_event Examples.world_offline Examples.fail_event
         Examples.mock_manager).2
    = [ECall "press_element" [VStr "Continue"] []].
Proof.
  destruct (on_event_isolates_agents (C := Examples.mock_client)) as [_ Htwo].
  destruct (Htwo Examples.world_offline Examples.fail_event Examples.mock_manager
              "slow" "fast" "s1" Examples.session_keywords
              (Examples.MockRaises (PyExc "TimeoutError" "timed out"))
              (Examples.MockAnswers
                 [Examples.action "press_element" [VStr "Continue"]])
              None []
              {| AgentResponse.message := "ok";
                 AgentResponse.actions :=
                   [Examples.action "press_element" [VStr "Continue"]];
                 AgentResponse.requires_human_input := false |}
              [] eq_refl eq_refl eq_refl eq_refl eq_refl eq_refl eq_refl
              eq_refl eq_refl) as [Hrun _].
  rewrite Hrun. split; reflexivity.
Defined.

(** ** Recovery from a popup *)

Lemma bind_ret {A B} (a : A) (k : A → Eff B) : bind (ret a) k = k a.
Proof. unfold ret, bind. by destruct (k a). Qed.

Lemma eff_ret_bind {A B} (a : A) (k : A → Eff B) : (ret a ≫= k) = k a.
Proof. unfold mbind, eff_bind, ret, bind. by destruct (k a). Qed.

Lemma for_return_skip {A R} (body : A → Eff (option R)) (pre rest : list A) :
  Forall (λ p, (body p).1 = Ok None) pre →
  for_return body (pre ++ rest)
  = ((for_return body rest).1,
     List.concat (List.map (λ p, (body p).2) pre) ++ (for_return body rest).2).
Proof.
  induction 1 as [|p pre Hp _ IH].
  { cbn. by destruct (for_return body rest). }
  cbn [app for_return List.map List.concat]. unfold mbind, eff_bind.
  destruct (body p) as [r t]. cbn in Hp. subst r.
  rewrite bind_ok, IH. cbn [fst snd]. by rewrite app_assoc.
Qed.

Section popup_recovery.
Import ErrorHandler.

Implicit Types (self : ErrorHandler.t) (w : World).

Lemma try_step_skips self (step : value) :
  names_no_keyword (keyword_map self) step →
  (try_step self step).1 = Ok None ∧ dispatches (try_step self step).2 = [].
Proof.
  intros (d & -> & Hnone). unfold try_step, get_method.
  rewrite !eff_ret_bind, Hnone, eff_ret_bind. done.
Qed.

Lemma try_step_calls self (d : list (string * value)) name h arg :
  names_keyword (keyword_map self) d name h arg →
  try_step self (VDict d)
  = (match h_run h [arg] [] with
     | Ok _ => Ok (Some true)
     | Raise e => Raise e
     end, [ECall name [arg] []]).
Proof.
  intros (Haction & Hname & Hh & target & Htarget & Harg).
  unfold try_step, get_method, odict.get_default.
  rewrite Haction, Htarget, !eff_ret_bind. unfold keyword_for.
  rewrite Hname, Hh. cbn [fmap option_fmap option_map]. rewrite eff_ret_bind.
  unfold subscript. rewrite Harg, eff_ret_bind.
  eff_simpl. by destruct (h_run h [arg] []).
Qed.
End popup_recovery.

Section popup_handler_trace.
Import PopupHandler.

Lemma query_ollama_quiet (w : World) (prompt model : string) :
  dispatches (query_ollama w prompt model).2 = [].
Proof.
  unfold query_ollama. eff_simpl.
  destruct (requests_post w _ model prompt) as [response|e]; [|done].
  destruct (ok response); [|done].
  destruct (json_body response) as [body|e]; [|done].
  unfold subscript. destruct body as [| | | | |d|]; try done.
  by destruct (odict.get "response" d).
Qed.

Lemma extract_json_silent (raw_response : value) :
  (extract_json_from_llm_response raw_response).2 = [].
Proof.
  unfold extract_json_from_llm_response.
  destruct raw_response; try done. by destruct (json.loads _).
Qed.

(** Asking the model for suggestions calls no keyword. *)
Lemma handle_popup_quiet (w : World) (self : PopupHandler.t)
    (xml_string screenshot_path : option string) :
  dispatches (handle_popup w self None xml_string screenshot_path).2 = [].
Proof.
  unfold handle_popup. cbn [truthy_str]. rewrite eff_ret_bind.
  destruct (negb (truthy_str xml_string)); [done|].
  destruct (negb (truthy_str screenshot_path)); [done|].
  pose proof (query_ollama_quiet w (build_prompt (default EmptyString xml_string))
                (ollama_model self)) as Hq.
  destruct (query_ollama w _ _) as [[response|e] tq]; cbn [snd] in Hq; [|done].
  pose proof (extract_json_silent response) as He.
  unfold mbind, eff_bind, log, emit, call. rewrite bind_ok.
  destruct (save_llm_log w _ response "popup_handler") as [[]|e];
    destruct (extract_json_from_llm_response response) as [r te];
    cbn [snd] in He; subst te; cbn; rewrite dispatches_app, Hq; done.
Qed.

End popup_handler_trace.

Section popup_dispatch.
Import ErrorHandler.

Implicit Types (self : ErrorHandler.t) (w : World).

Lemma skipped_steps_quiet self (pre : list value) :
  Forall (names_no_keyword (keyword_map self)) pre →
  Forall (λ p, (try_step self p).1 = Ok None) pre
  ∧ dispatches (List.concat (List.map (λ p, (try_step self p).2) pre)) = [].
Proof.
  induction 1 as [|p pre Hp _ [IH1 IH2]]; [done|].
  destruct (try_step_skips self p Hp) as [Hnone Hquiet]. split.
  - by constructor.
  - cbn [List.map List.concat]. by rewrite dispatches_app, Hquiet, IH2.
Qed.

(** C1 (amended). For an error code of the popup class, a non-empty snapshot
    in the context and a suggestion list from the popup handler in which the
    suggestions before a given one name no registered keyword, and that one
    names a registered keyword and carries a value under element_name: the
    keyword is called once, with that value as its single argument, no other
    keyword is called, and [handle_error] returns true when the keyword
    returns, false when it raises. *)
Theorem first_registered_suggestion_dispatched w self
    (error_code error_message : string) (context_info : option (gmap string string))
    (pre post : list value) (step : list (string * value))
    (name : string) (h : Handler) (arg : value) :
  classify_failure error_code = "screen_popup" →
  PopupHandler.truthy_str (context_get context_info "page_source") = true →
  (PopupHandler.handle_popup w (popup_handler self) None
     (context_get context_info "page_source")
     (context_get context_info "screenshot_path")).1
  = Ok (VList (pre ++ VDict step :: post)) →
  Forall (names_no_keyword (keyword_map self)) pre →
  names_keyword (keyword_map self) step name h arg →
  (handle_error w self error_code error_message context_info).1
  = Ok (returned (h_run h [arg] []))
  ∧ dispatches (handle_error w self error_code error_message context_info).2
    = [ECall name [arg] []].
Proof.
  intros Hclass Hpage Hpopup Hpre Hstep.
  destruct (skipped_steps_quiet self pre Hpre) as [Hnone Hquiet].
  pose proof (handle_popup_quiet w (popup_handler self)
                (context_get context_info "page_source")
                (context_get context_info "screenshot_path")) as Hask.
  cut (∃ T, handle_error w self error_code error_message context_info
            = (Ok (returned (h_run h [arg] [])), T)
            ∧ dispatches T = [ECall name [arg] []]).
  { intros (T & -> & HT). done. }
  unfold handle_error. rewrite Hclass, Hpage.
  change (String.eqb "screen_popup" "screen_popup" && true) with true.
  cbn iota.
  destruct (PopupHandler.handle_popup _ _ _ _ _) as [r t].
  cbn [fst snd] in Hpopup, Hask. subst r.
  unfold mbind, eff_bind, log, emit. rewrite !bind_ok. cbn [iterate fst snd].
  rewrite bind_ret, (for_return_skip _ pre) by done.
  cbn [for_return fst snd]. unfold mbind, eff_bind.
  rewrite (try_step_calls self step name h arg) by done.
  destruct (h_run h [arg] []) as [v|e]; eff_simpl; cbn [returned];
    eexists; (split; [reflexivity|]);
    repeat (rewrite dispatches_app || rewrite dispatches_log);
    rewrite Hask, Hquiet; done.
Qed.

End popup_dispatch.

Lemma first_registered_suggestion_dispatched_witness :
  (ErrorHandler.handle_error (Examples.world_replying Examples.press_continue)
     (Examples.handler_with Examples.returning)
     "E0201_modal_blocking" "a dialog covers the screen"
     (Some Examples.popup_context)).1 = Ok true
  ∧ dispatches
      (ErrorHandler.handle_error (Examples.world_replying Examples.press_continue)
         (Examples.handler_with Examples.returning)
         "E0201_modal_blocking" "a dialog covers the screen"
         (Some Examples.popup_context)).2
    = [ECall "press_element" [VStr "Continue"] []].
Proof.
  apply (first_registered_suggestion_dispatched
           (Examples.world_replying Examples.press_continue)
           (Examples.handler_with Examples.returning)
           "E0201_modal_blocking" "a dialog covers the screen"
           (Some Examples.popup_context) [] []
           [("action", VStr "press_element");
            ("target", VDict [("element_name", VStr "Continue")])]
           "press_element" Examples.returning (VStr "Continue")).
  - vm_compute; reflexivity.
  - vm_compute; reflexivity.
  - vm_compute; reflexivity.
  - constructor.
  - repeat split. eexists. split; reflexivity.
Defined.

(** C1 (as stated). The scenario of the claim with a press_element that
    raises: the popup handler yields the one suggestion, press_element is
    registered and is called with the single argument Continue, and
    [handle_error] returns false. *)
Example raising_keyword_returns_false :
  (PopupHandler.handle_popup (Examples.world_replying Examples.press_continue)
     PopupHandler.init None
     (Some "<hierarchy><node text='Continue'/></hierarchy>")
     (Some "execution_output/popup.png")).1
  = Ok Examples.press_continue_value
  ∧ odict.mem "press_element"
      (ErrorHandler.keyword_map (Examples.handler_with Examples.raising)) = true
  ∧ dispatches
      (ErrorHandler.handle_error (Examples.world_replying Examples.press_continue)
         (Examples.handler_with Examples.raising)
         "E0201_modal_blocking" "a dialog covers the screen"
         (Some Examples.popup_context)).2
    = [ECall "press_element" [VStr "Continue"] []]
  ∧ (ErrorHandler.handle_error (Examples.world_replying Examples.press_continue)
       (Examples.handler_with Examples.raising)
       "E0201_modal_blocking" "a dialog covers the screen"
       (Some Examples.popup_context)).1 = Ok false.
Proof. repeat split; vm_compute; reflexivity. Qed.

Section recovery_outcome.
Import ErrorHandler.

Implicit Types (self : ErrorHandler.t) (w : World).

Lemma try_step_true self (step : value) (b : bool) :
  (try_step self step).1 = Ok (Some b) →
  b = true ∧ invoked_keyword self (try_step self step).2.
Proof.
  unfold try_step, get_method. destruct step as [| | | | | |d]; try done.
  rewrite !eff_ret_bind. unfold keyword_for.
  destruct (odict.get_default "action" VNone d) as [| | | |s|l|l];
    try (by rewrite eff_ret_bind); try (by destruct l).
  destruct (pystr.is_empty s); [by rewrite eff_ret_bind|].
  destruct (odict.get s (keyword_map self)) as [h|] eqn:Hh;
    cbn [fmap option_fmap option_map]; rewrite eff_ret_bind; [|done].
  unfold subscript.
  destruct (odict.get_default "target" (VDict []) d) as [| | | | | |target];
    try done.
  destruct (odict.get "element_name" target) as [arg|]; [|done].
  rewrite eff_ret_bind. eff_simpl.
  destruct (h_run h [arg] []) as [v|e] eqn:Hrun; [|done].
  cbn. intros [= <-]. split; [done|]. exists s, h, arg.
  rewrite Hrun. repeat split; [done|]. apply list_elem_of_singleton. done.
Qed.

Lemma for_return_true self (steps : list value) (b : bool) :
  (for_return (try_step self) steps).1 = Ok (Some b) →
  b = true ∧ invoked_keyword self (for_return (try_step self) steps).2.
Proof.
  induction steps as [|step steps IH]; [done|].
  cbn [for_return]. unfold mbind, eff_bind.
  pose proof (try_step_true self step) as Hstep.
  destruct (try_step self step) as [[[b'|]|e] t]; cbn [fst snd] in *.
  - rewrite bind_ok. cbn. intros [= <-].
    destruct (Hstep b' eq_refl) as (-> & name & h & arg & ? & ? & ?).
    split; [done|]. exists name, h, arg. by rewrite app_nil_r.
  - rewrite bind_ok. cbn [fst snd]. intros Hrest.
    destruct (IH Hrest) as (-> & name & h & arg & ? & ? & ?).
    split; [done|]. exists name, h, arg. repeat split; [done| |done].
    apply elem_of_app. by right.
  - done.
Qed.

End recovery_outcome.

Section recovery_never_raises.
Import ErrorHandler.

Implicit Types (self : ErrorHandler.t) (w : World).

Lemma handle_error_without_snapshot w self error_code error_message context_info :
  PopupHandler.truthy_str (context_get context_info "page_source") = false →
  handle_error w self error_code error_message context_info
  = (Ok false, [ELog WARNING (MsgHandlingError error_code error_message)]).
Proof.
  intros Hpage. unfold handle_error. rewrite Hpage, andb_false_r. done.
Qed.

Lemma handle_error_popup_raises w self error_code error_message context_info e t :
  classify_failure error_code = "screen_popup" →
  PopupHandler.truthy_str (context_get context_info "page_source") = true →
  PopupHandler.handle_popup w (popup_handler self) None
    (context_get context_info "page_source")
    (context_get context_info "screenshot_path") = (Raise e, t) →
  handle_error w self error_code error_message context_info
  = (Ok false,
     t ++ [ELog ERROR (MsgPopupHandlerFailed e);
           ELog WARNING (MsgHandlingError error_code error_message)]).
Proof.
  intros Hclass Hpage Hpopup. unfold handle_error.
  rewrite Hclass, Hpage, Hpopup.
  change (String.eqb "screen_popup" "screen_popup" && true) with true.
  eff_simpl. by rewrite <- app_assoc.
Qed.

Lemma handle_error_outcome w self error_code error_message context_info :
  ∃ b, (handle_error w self error_code error_message context_info).1 = Ok b
       ∧ (b = true →
          invoked_keyword self
            (handle_error w self error_code error_message context_info).2).
Proof.
  unfold handle_error.
  destruct (String.eqb (classify_failure error_code) "screen_popup"
            && PopupHandler.truthy_str (context_get context_info "page_source")).
  2:{ exists false. by rewrite eff_ret_bind. }
  destruct (PopupHandler.handle_popup _ _ _ _ _) as [[suggestions|e] t].
  2:{ exists false. eff_simpl. done. }
  unfold mbind, eff_bind, log, emit. rewrite !bind_ok. cbn [fst snd].
  destruct (iterate suggestions) as [[steps|e] ti] eqn:Hiter.
  2:{ exists false. eff_simpl. done. }
  assert (ti = []) as ->
    by (unfold iterate, ret, raise in Hiter; destruct suggestions; congruence).
  rewrite bind_ok. cbn [fst snd app].
  pose proof (for_return_true self steps) as Hloop.
  destruct (for_return (try_step self) steps) as [[[b|]|e'] tl]; cbn [fst snd] in *.
  - destruct (Hloop b eq_refl) as (-> & name & h & arg & ? & ? & ?).
    exists true. eff_simpl. split; [done|]. intros _. exists name, h, arg.
    repeat split; [done| |done].
    rewrite app_nil_r. apply elem_of_app. right. by right.
  - exists false. eff_simpl. done.
  - exists false. eff_simpl. done.
Qed.

End recovery_never_raises.

Section recovery_failures.
Import ErrorHandler.

Implicit Types (self : ErrorHandler.t) (w : World).

Lemma handle_popup_inference_raises w (ph : PopupHandler.t) (xml_string screenshot_path : string) e :
  pystr.is_empty xml_string = false →
  pystr.is_empty screenshot_path = false →
  requests_post w "http://localhost:11434/api/generate" (PopupHandler.ollama_model ph)
    (PopupHandler.build_prompt xml_string) = Raise e →
  (PopupHandler.handle_popup w ph None (Some xml_string) (Some screenshot_path)).1
  = Raise e.
Proof.
  intros Hx Hs Hpost. unfold PopupHandler.handle_popup.
  cbn [PopupHandler.truthy_str]. rewrite eff_ret_bind.
  cbn [PopupHandler.truthy_str]. rewrite Hx, Hs. cbn [negb].
  change (default EmptyString (Some xml_string)) with xml_string.
  unfold PopupHandler.query_ollama. eff_simpl. by rewrite Hpost.
Qed.

Lemma handle_popup_parse_fails w (ph : PopupHandler.t) (xml_string screenshot_path : string)
    (response : HttpResponse) (body : list (string * value)) (reply : string) :
  pystr.is_empty xml_string = false →
  pystr.is_empty screenshot_path = false →
  requests_post w "http://localhost:11434/api/generate" (PopupHandler.ollama_model ph)
    (PopupHandler.build_prompt xml_string) = Ok response →
  ok response = true →
  json_body response = Ok (VDict body) →
  odict.get "response" body = Some (VStr reply) →
  json.loads (pystr.sub_fences (pystr.strip reply)) = None →
  ∃ e, (PopupHandler.handle_popup w ph None (Some xml_string) (Some screenshot_path)).1
       = Raise e.
Proof.
  intros Hx Hs Hpost Hok Hbody Hreply Hparse. unfold PopupHandler.handle_popup.
  cbn [PopupHandler.truthy_str]. rewrite eff_ret_bind.
  cbn [PopupHandler.truthy_str]. rewrite Hx, Hs. cbn [negb].
  change (default EmptyString (Some xml_string)) with xml_string.
  unfold PopupHandler.query_ollama, PopupHandler.extract_json_from_llm_response.
  eff_simpl. rewrite Hpost, Hok, Hbody. unfold subscript. rewrite Hreply.
  cbn. rewrite Hparse. destruct (save_llm_log w _ _ _) as [[]|e]; cbn; eauto.
Qed.

(** C5. [handle_error] returns a boolean for every input and never raises.
    Without a snapshot in the context it returns false after a warning.  When
    the popup handler raises (its inference call raised, or the reply could
    not be parsed), the exception is recorded as an error and the result is
    false.  The result is true only when a keyword of the map was called with
    one argument and returned. *)
Theorem handle_error_returns_boolean :
  (∀ w self error_code error_message context_info,
      ∃ b, (handle_error w self error_code error_message context_info).1 = Ok b
           ∧ (b = true →
              invoked_keyword self
                (handle_error w self error_code error_message context_info).2))
  ∧ (∀ w self error_code error_message context_info,
        PopupHandler.truthy_str (context_get context_info "page_source") = false →
        handle_error w self error_code error_message context_info
        = (Ok false, [ELog WARNING (MsgHandlingError error_code error_message)]))
  ∧ (∀ w self error_code error_message context_info e t,
        classify_failure error_code = "screen_popup" →
        PopupHandler.truthy_str (context_get context_info "page_source") = true →
        PopupHandler.handle_popup w (popup_handler self) None
          (context_get context_info "page_source")
          (context_get context_info "screenshot_path") = (Raise e, t) →
        handle_error w self error_code error_message context_info
        = (Ok false,
           t ++ [ELog ERROR (MsgPopupHandlerFailed e);
                 ELog WARNING (MsgHandlingError error_code error_message)]))
  ∧ (∀ w (ph : PopupHandler.t) (xml_string screenshot_path : string) e,
        pystr.is_empty xml_string = false →
        pystr.is_empty screenshot_path = false →
        requests_post w "http://localhost:11434/api/generate"
          (PopupHandler.ollama_model ph) (PopupHandler.build_prompt xml_string)
        = Raise e →
        (PopupHandler.handle_popup w ph None (Some xml_string)
           (Some screenshot_path)).1 = Raise e)
  ∧ (∀ w (ph : PopupHandler.t) (xml_string screenshot_path : string)
       (response : HttpResponse) (body : list (string * value)) (reply : string),
        pystr.is_empty xml_string = false →
        pystr.is_empty screenshot_path = false →
        requests_post w "http://localhost:11434/api/generate"
          (PopupHandler.ollama_model ph) (PopupHandler.build_prompt xml_string)
        = Ok response →
        ok response = true →
        json_body response = Ok (VDict body) →
        odict.get "response" body = Some (VStr reply) →
        json.loads (pystr.sub_fences (pystr.strip reply)) = None →
        ∃ e, (PopupHandler.handle_popup w ph None (Some xml_string)
                (Some screenshot_path)).1 = Raise e).
Proof.
  split; [exact handle_error_outcome|].
  split; [exact handle_error_without_snapshot|].
  split; [exact handle_error_popup_raises|].
  split; [exact handle_popup_inference_raises|exact handle_popup_parse_fails].
Qed.

End recovery_failures.

Lemma handle_error_returns_boolean_witness :
  (ErrorHandler.handle_error Examples.world_offline
     (Examples.handler_with Examples.returning)
     "E0201_modal_blocking" "a dialog covers the screen"
     (Some Examples.popup_context)).1 = Ok false.
Proof.
  destruct handle_error_returns_boolean as (_ & _ & Hraises & _).
  erewrite Hraises; [reflexivity| | |]; vm_compute; reflexivity.
Defined.

Section target_selection.
Import AIActionHandler.

Implicit Types (self : AIActionHandler.t).


Lemma element_value_first (items : list (string * value)) :
  element_value items
  = match items with
    | [] => VNone
    | (_, v) :: _ => v
    end.
Proof. by destruct items as [|[k v] items]. Qed.

End target_selection.

(** * Further properties of the recovery path *)

Section recovery_edges.
Import ErrorHandler.

Implicit Types (self : ErrorHandler.t) (w : World).

Lemma classify_failure_popup (error_code : string) :
  classify_failure error_code = "screen_popup"
  ↔ pystr.startswith "E0201" error_code = true
    ∨ pystr.startswith "X0201" error_code = true.
Proof.
  unfold classify_failure.
  destruct (pystr.startswith "E0201" error_code),
    (pystr.startswith "X0201" error_code); cbn; try tauto;
    (split; [|intros [|]; done]);
    repeat match goal with |- context [if ?b then _ else _] => destruct b end;
    done.
Qed.

(** X1. Only the popup class starts a recovery: for every error code that
    begins with neither E0201 nor X0201 the handler writes its warning and
    returns false, without asking the model and without calling a keyword,
    whatever the context holds. *)
Theorem only_popup_codes_start_recovery w self error_code error_message context_info :
  pystr.startswith "E0201" error_code = false →
  pystr.startswith "X0201" error_code = false →
  handle_error w self error_code error_message context_info
  = (Ok false, [ELog WARNING (MsgHandlingError error_code error_message)]).
Proof.
  intros HE HX. unfold handle_error.
  destruct (String.eqb_spec (classify_failure error_code) "screen_popup") as [Hc|_];
    [|done].
  apply classify_failure_popup in Hc as [Hc|Hc]; congruence.
Qed.

(** X2. A popup failure whose context carries a snapshot but no screenshot
    path is not recovered: the popup handler refuses before the model is
    asked, the refusal is recorded, and the result is false. *)
Theorem popup_without_screenshot_is_not_recovered
    w self error_code error_message context_info :
  classify_failure error_code = "screen_popup" →
  PopupHandler.truthy_str (context_get context_info "page_source") = true →
  PopupHandler.truthy_str (context_get context_info "screenshot_path") = false →
  handle_error w self error_code error_message context_info
  = (Ok false,
     [ELog ERROR (MsgPopupHandlerFailed
                    (ValueError "screenshot_path is not provided for popup handling."));
      ELog WARNING (MsgHandlingError error_code error_message)]).
Proof.
  intros Hclass Hpage Hshot.
  apply (handle_error_popup_raises w self error_code error_message context_info
           (ValueError "screenshot_path is not provided for popup handling.") []);
    [done|done|].
  unfold PopupHandler.handle_popup. cbn [PopupHandler.truthy_str].
  rewrite eff_ret_bind, Hpage, Hshot. done.
Qed.

End recovery_edges.

Lemma only_popup_codes_start_recovery_witness :
  ErrorHandler.handle_error (Examples.world_replying Examples.press_continue)
    (Examples.handler_with Examples.returning)
    "E0401_keyword_failed" "step failed" (Some Examples.popup_context)
  = (Ok false,
     [ELog WARNING (MsgHandlingError "E0401_keyword_failed" "step failed")]).
Proof.
  apply (only_popup_codes_start_recovery
           (Examples.world_replying Examples.press_continue)
           (Examples.handler_with Examples.returning)
           "E0401_keyword_failed" "step failed" (Some Examples.popup_context));
    reflexivity.
Defined.

Lemma popup_without_screenshot_is_not_recovered_witness :
  (ErrorHandler.handle_error (Examples.world_replying Examples.press_continue)
     (Examples.handler_with Examples.returning)
     "X0201_dialog" "a dialog covers the screen"
     (Some (<["page_source" := "<hierarchy/>"]> ∅))).1 = Ok false.
Proof.
  rewrite (popup_without_screenshot_is_not_recovered
             (Examples.world_replying Examples.press_continue)
             (Examples.handler_with Examples.returning)
             "X0201_dialog" "a dialog covers the screen"
             (Some (<["page_source" := "<hierarchy/>"]> ∅)));
    [reflexivity| | |]; vm_compute; reflexivity.
Defined.

Section one_keyword_per_failure.
Import ErrorHandler.

Implicit Types (self : ErrorHandler.t) (w : World).

(** A pass of the loop body that goes on to the next suggestion called no
    keyword; no pass calls more than one. *)
Lemma try_step_calls_at_most_one self (step : value) :
  (List.length (dispatches (try_step self step).2) ≤ 1)%nat
  ∧ ((try_step self step).1 = Ok None → dispatches (try_step self step).2 = []).
Proof.
  unfold try_step, get_method. destruct step as [| | | | | |d]; try done;
    try (cbn; split; [lia|done]).
  rewrite !eff_ret_bind. unfold keyword_for.
  destruct (odict.get_default "action" VNone d) as [| | | |s|l|l];
    try (rewrite eff_ret_bind; cbn; split; [lia|done]);
    try (destruct l; [rewrite eff_ret_bind|]; cbn; split; (lia || done)).
  destruct (pystr.is_empty s); [rewrite eff_ret_bind; cbn; split; [lia|done]|].
  destruct (odict.get s (keyword_map self)) as [h|];
    cbn [fmap option_fmap option_map]; rewrite eff_ret_bind;
    [|cbn; split; [lia|done]].
  unfold subscript.
  destruct (odict.get_default "target" (VDict []) d) as [| | | | | |target];
    try (cbn; split; [lia|done]).
  destruct (odict.get "element_name" target) as [arg|]; [|cbn; split; [lia|done]].
  rewrite eff_ret_bind. eff_simpl.
  destruct (h_run h [arg] []); cbn; split; (lia || done).
Qed.

Lemma for_return_calls_at_most_one self (steps : list value) :
  (List.length (dispatches (for_return (try_step self) steps).2) ≤ 1)%nat.
Proof.
  induction steps as [|step steps IH]; [cbn; lia|].
  cbn [for_return]. unfold mbind, eff_bind.
  destruct (try_step_calls_at_most_one self step) as [Hone Hnone].
  destruct (try_step self step) as [[[b|]|e] t]; cbn [fst snd] in *.
  - rewrite bind_ok. cbn [fst snd]. by rewrite app_nil_r.
  - rewrite bind_ok. cbn [fst snd]. rewrite dispatches_app, Hnone by done. exact IH.
  - exact Hone.
Qed.

(** X3. Handling one failure calls at most one keyword, whatever the model
    suggested: the loop over the suggestions is left at the first call, by
    the return after it or by the exception it raised. *)
Theorem handle_error_calls_at_most_one_keyword
    w self error_code error_message context_info :
  (List.length
     (dispatches (handle_error w self error_code error_message context_info).2)
   ≤ 1)%nat.
Proof.
  unfold handle_error.
  destruct (String.eqb (classify_failure error_code) "screen_popup"
            && PopupHandler.truthy_str (context_get context_info "page_source")).
  2:{ rewrite eff_ret_bind. cbn. lia. }
  pose proof (handle_popup_quiet w (popup_handler self)
                (context_get context_info "page_source")
                (context_get context_info "screenshot_path")) as Hask.
  destruct (PopupHandler.handle_popup _ _ _ _ _) as [[suggestions|e] t];
    cbn [snd] in Hask.
  2:{ eff_simpl. rewrite !dispatches_app, Hask. cbn. lia. }
  unfold mbind, eff_bind, log, emit. rewrite !bind_ok. cbn [fst snd].
  destruct (iterate suggestions) as [[steps|e] ti] eqn:Hiter.
  2:{ assert (ti = []) as ->
        by (unfold iterate, ret, raise in Hiter; destruct suggestions; congruence).
      eff_simpl. rewrite !dispatches_app, Hask. cbn. lia. }
  assert (ti = []) as ->
    by (unfold iterate, ret, raise in Hiter; destruct suggestions; congruence).
  rewrite bind_ok. cbn [fst snd app].
  pose proof (for_return_calls_at_most_one self steps) as Hloop.
  destruct (for_return (try_step self) steps) as [[[b|]|e'] tl]; cbn [fst snd] in *;
    eff_simpl;
    repeat (rewrite dispatches_app || rewrite dispatches_log);
    rewrite Hask; cbn [app]; rewrite ?app_nil_r; exact Hloop.
Qed.

(** X4. A suggestion that names a registered keyword but carries no
    element_name in its target ends the recovery: the missing key is an
    exception, no keyword is called, the suggestions behind it are not
    tried, and the result is false. *)
Theorem suggestion_without_element_name_ends_recovery w self
    (error_code error_message : string) (context_info : option (gmap string string))
    (pre post : list value) (step target : list (string * value))
    (name : string) (h : Handler) :
  classify_failure error_code = "screen_popup" →
  PopupHandler.truthy_str (context_get context_info "page_source") = true →
  (PopupHandler.handle_popup w (popup_handler self) None
     (context_get context_info "page_source")
     (context_get context_info "screenshot_path")).1
  = Ok (VList (pre ++ VDict step :: post)) →
  Forall (names_no_keyword (keyword_map self)) pre →
  odict.get "action" step = Some (VStr name) →
  pystr.is_empty name = false →
  odict.get name (keyword_map self) = Some h →
  odict.get "target" step = Some (VDict target) →
  odict.get "element_name" target = None →
  (handle_error w self error_code error_message context_info).1 = Ok false
  ∧ dispatches (handle_error w self error_code error_message context_info).2 = [].
Proof.
  intros Hclass Hpage Hpopup Hpre Haction Hname Hh Htarget Harg.
  destruct (skipped_steps_quiet self pre Hpre) as [Hnone Hquiet].
  pose proof (handle_popup_quiet w (popup_handler self)
                (context_get context_info "page_source")
                (context_get context_info "screenshot_path")) as Hask.
  cut (∃ T, handle_error w self error_code error_message context_info = (Ok false, T)
            ∧ dispatches T = []).
  { intros (T & -> & HT). done. }
  unfold handle_error. rewrite Hclass, Hpage.
  change (String.eqb "screen_popup" "screen_popup" && true) with true.
  cbn iota.
  destruct (PopupHandler.handle_popup _ _ _ _ _) as [r t].
  cbn [fst snd] in Hpopup, Hask. subst r.
  unfold mbind, eff_bind, log, emit. rewrite !bind_ok. cbn [iterate fst snd].
  rewrite bind_ret, (for_return_skip _ pre) by done.
  cbn [for_return fst snd]. unfold mbind, eff_bind.
  assert (try_step self (VDict step) = (Raise (KeyError "element_name"), [])) as ->.
  { unfold try_step, get_method, odict.get_default.
    rewrite Haction, Htarget, !eff_ret_bind. unfold keyword_for.
    rewrite Hname, Hh. cbn [fmap option_fmap option_map]. rewrite eff_ret_bind.
    unfold subscript. by rewrite Harg. }
  eff_simpl. eexists. split; [reflexivity|].
  repeat (rewrite dispatches_app || rewrite dispatches_log).
  rewrite Hask, Hquiet. done.
Qed.

End one_keyword_per_failure.

Lemma suggestion_without_element_name_ends_recovery_witness :
  (ErrorHandler.handle_error (Examples.world_replying label_then_element_name)
     (Examples.handler_with Examples.returning)
     "E0201_modal_blocking" "a dialog covers the screen"
     (Some Examples.popup_context)).1 = Ok false
  ∧ dispatches
      (ErrorHandler.handle_error (Examples.world_replying label_then_element_name)
         (Examples.handler_with Examples.returning)
         "E0201_modal_blocking" "a dialog covers the screen"
         (Some Examples.popup_context)).2 = [].
Proof.
  apply (suggestion_without_element_name_ends_recovery
           (Examples.world_replying label_then_element_name)
           (Examples.handler_with Examples.returning)
           "E0201_modal_blocking" "a dialog covers the screen"
           (Some Examples.popup_context) []
           [VDict [("action", VStr "press_element");
                   ("target", VDict [("element_name", VStr "OK")])]]
           [("action", VStr "press_element");
            ("target", VDict [("label", VStr "Continue")])]
           [("label", VStr "Continue")] "press_element" Examples.returning);
    try (vm_compute; reflexivity).
  constructor.
Defined.

(** * The AI action handler *)

Section ai_action.
Import AIActionHandler.

Implicit Types (self : AIActionHandler.t) (w : World).

Lemma ai_query_ollama_quiet w (prompt model : string) :
  dispatches (query_ollama w prompt model).2 = [].
Proof.
  unfold query_ollama. eff_simpl.
  destruct (requests_post w _ model prompt) as [response|e]; [|done].
  destruct (ok response); [|done].
  destruct (json_body response) as [body|e]; [|done].
  unfold subscript. destruct body as [| | | | |d|]; try done.
  by destruct (odict.get "response" d).
Qed.

Lemma ai_extract_json_silent (raw_response : value) :
  (extract_json_from_llm_response raw_response).2 = [].
Proof.
  unfold extract_json_from_llm_response.
  destruct raw_response; try done. by destruct (json.loads _).
Qed.

Lemma handle_action_quiet w self instruction (xml_string screenshot_path : option string) :
  dispatches (handle_action w self instruction None xml_string screenshot_path).2 = [].
Proof.
  unfold handle_action. cbn [PopupHandler.truthy_str]. rewrite eff_ret_bind.
  destruct (negb (PopupHandler.truthy_str xml_string)); [done|].
  destruct (negb (PopupHandler.truthy_str screenshot_path)); [done|].
  pose proof (ai_query_ollama_quiet w
                (build_prompt instruction (default EmptyString xml_string))
                (ollama_model self)) as Hq.
  destruct (query_ollama w _ _) as [[response|e] tq]; cbn [snd] in Hq; [|done].
  pose proof (ai_extract_json_silent response) as He.
  unfold mbind, eff_bind, log, emit, call. rewrite bind_ok.
  destruct (save_llm_log w _ response "ai_action") as [[]|e];
    destruct (extract_json_from_llm_response response) as [r te];
    cbn [snd] in He; subst te; cbn; rewrite dispatches_app, Hq; done.
Qed.

Lemma handle_action_calls_nothing w self instruction
    (xml_file xml_string screenshot_path : option string) :
  dispatches (handle_action w self instruction xml_file xml_string screenshot_path).2 = [].
Proof.
  destruct (PopupHandler.truthy_str xml_file) eqn:Hfile.
  - unfold handle_action. by rewrite Hfile.
  - rewrite <- (handle_action_quiet w self instruction xml_string screenshot_path).
    unfold handle_action. cbn [PopupHandler.truthy_str]. by rewrite Hfile.
Qed.

(** One pass of the loop for a suggestion that asks for a registered
    keyword: the keyword is called on the first value of the target. *)
Lemma perform_step_asked self (step : list (string * value)) (name : string)
    (target : list (string * value)) (h : Handler) :
  asks_for (keyword_map self) step name target h →
  perform_step self (VDict step)
  = (match h_run h [first_value target] [] with
     | Ok _ => Ok tt
     | Raise e => Raise e
     end, [ECall name [first_value target] []])
  ∧ call_for step = ECall name [first_value target] [].
Proof.
  intros (Haction & Hname & Hh & Htarget). split.
  - unfold perform_step, get_method. rewrite !eff_ret_bind.
    fold (step_action step). fold (step_target step). rewrite Haction, Htarget.
    unfold keyword_for. rewrite Hname, Hh.
    cbn [fmap option_fmap option_map]. rewrite eff_ret_bind.
    unfold items_method. rewrite eff_ret_bind, element_value_first.
    fold (first_value target). eff_simpl.
    by destruct (h_run h [first_value target] []).
  - unfold call_for. by rewrite Haction, Htarget.
Qed.

(** X5. [perform_ai_action] returns normally for every input: whatever is
    raised while the model is asked, the reply parsed or a keyword run is
    caught and recorded. *)
Theorem perform_ai_action_never_raises w self instruction xml_file xml_string screenshot_path :
  (perform_ai_action w self instruction xml_file xml_string screenshot_path).1 = Ok tt.
Proof.
  unfold perform_ai_action.
  match goal with |- (try_except ?m _).1 = _ => destruct m as [[[]|e] t] end; done.
Qed.

End ai_action.

Lemma for_each_prefix {A} (body : A → Eff unit) (pre rest : list A) :
  Forall (λ x, (body x).1 = Ok tt) pre →
  for_each body (pre ++ rest)
  = ((for_each body rest).1,
     List.concat (List.map (λ x, (body x).2) pre) ++ (for_each body rest).2).
Proof.
  induction 1 as [|x pre Hx _ IH].
  { cbn. by destruct (for_each body rest). }
  cbn [app for_each List.map List.concat]. unfold mbind, eff_bind.
  destruct (body x) as [r t]. cbn in Hx. subst r.
  rewrite bind_ok, IH. cbn [fst snd]. by rewrite app_assoc.
Qed.

Section ai_action_loop.
Import AIActionHandler.

Implicit Types (self : AIActionHandler.t) (w : World).
Implicit Types (steps pre post : list (list (string * value))).

Lemma returning_suggestions self steps :
  Forall (keyword_returns (keyword_map self)) steps →
  Forall (λ step, (perform_step self step).1 = Ok tt) (VDict <$> steps)
  ∧ dispatches
      (List.concat (List.map (λ step, (perform_step self step).2) (VDict <$> steps)))
    = call_for <$> steps.
Proof.
  induction 1 as [|step steps (name & target & h & Hasks & Hret) _ [IH1 IH2]]; [done|].
  cbn [fmap list_fmap List.map List.concat].
  destruct (perform_step_asked self step name target h Hasks) as [Hstep Hcall].
  destruct (h_run h [first_value target] []) as [v|e]; [|done].
  split.
  - constructor; [by rewrite Hstep|exact IH1].
  - rewrite dispatches_app, Hstep, Hcall. cbn [snd]. by rewrite IH2.
Qed.

(** The loop up to and including a suggestion that asks for a registered
    keyword, whatever the records hold besides action and target. *)
Lemma perform_ai_action_reaches w self instruction
    (xml_file xml_string screenshot_path : option string)
    pre (step : list (string * value)) post
    (name : string) (target : list (string * value)) (h : Handler) :
  (handle_action w self instruction xml_file xml_string screenshot_path).1
  = Ok (VList (VDict <$> pre ++ step :: post)) →
  Forall (keyword_returns (keyword_map self)) pre →
  asks_for (keyword_map self) step name target h →
  ∃ asked looped,
    (perform_ai_action w self instruction xml_file xml_string screenshot_path).2
    = asked ++ looped
      ++ match h_run h [first_value target] [] with
         | Ok _ => (for_each (perform_step self) (VDict <$> post)).2
                   ++ match (for_each (perform_step self) (VDict <$> post)).1 with
                      | Ok _ => []
                      | Raise e => [ELog ERROR (MsgAIHandlerFailed e)]
                      end
         | Raise e => [ELog ERROR (MsgAIHandlerFailed e)]
         end
    ∧ dispatches asked = []
    ∧ dispatches looped = (call_for <$> pre) ++ [ECall name [first_value target] []].
Proof.
  intros Hreply Hpre Hasks.
  destruct (returning_suggestions self pre Hpre) as [Hok Hcalls].
  pose proof (handle_action_calls_nothing w self instruction xml_file xml_string
                screenshot_path) as Hask.
  destruct (perform_step_asked self step name target h Hasks) as [Hstep _].
  unfold perform_ai_action.
  destruct (handle_action w self instruction xml_file xml_string screenshot_path)
    as [r t].
  cbn [fst snd] in Hreply, Hask. subst r.
  unfold mbind, eff_bind, log, emit. rewrite !bind_ok. cbn [iterate fst snd].
  rewrite bind_ret, fmap_app, fmap_cons, (for_each_prefix _ _ _ Hok).
  cbn [for_each]. unfold mbind, eff_bind. rewrite Hstep.
  eexists (t ++ [ELog INFO (MsgPopupSuggestion _)]),
    (List.concat (List.map (λ s, (perform_step self s).2) (VDict <$> pre))
     ++ [ECall name [first_value target] []]).
  split; [|split].
  - destruct (h_run h [first_value target] []) as [v|e].
    + rewrite bind_ok. cbn [fst snd].
      destruct (for_each (perform_step self) (VDict <$> post)) as [[[]|e] tl];
        eff_simpl;
        repeat (rewrite <- app_assoc || rewrite <- app_comm_cons
                || rewrite app_nil_r || rewrite app_nil_l);
        reflexivity.
    + eff_simpl.
      repeat (rewrite <- app_assoc || rewrite <- app_comm_cons
              || rewrite app_nil_r || rewrite app_nil_l).
      reflexivity.
  - by rewrite dispatches_app, Hask.
  - by rewrite dispatches_app, Hcalls.
Qed.


(** X6. Every suggestion is carried out, in the order of the reply: when
    the reply is a list of records that each ask for a registered keyword
    which returns (whatever further fields the records hold), the keywords
    called are, one per suggestion and in list order, the named keyword on
    the first value of its target. *)
Theorem every_suggestion_is_executed_in_order
    w self instruction (xml_file xml_string screenshot_path : option string) steps :
  (handle_action w self instruction xml_file xml_string screenshot_path).1
  = Ok (VList (VDict <$> steps)) →
  Forall (keyword_returns (keyword_map self)) steps →
  dispatches
    (perform_ai_action w self instruction xml_file xml_string screenshot_path).2
  = call_for <$> steps.
Proof.
  intros Hreply Hsteps.
  destruct (returning_suggestions self steps Hsteps) as [Hok Hcalls].
  pose proof (handle_action_calls_nothing w self instruction xml_file xml_string
                screenshot_path) as Hask.
  unfold perform_ai_action.
  destruct (handle_action w self instruction xml_file xml_string screenshot_path)
    as [r t].
  cbn [fst snd] in Hreply, Hask. subst r.
  unfold mbind, eff_bind, log, emit. rewrite !bind_ok. cbn [iterate fst snd].
  rewrite bind_ret.
  rewrite <- (app_nil_r (VDict <$> steps)).
  rewrite (for_each_prefix _ _ []) by done.
  cbn [for_each]. eff_simpl.
  repeat (rewrite dispatches_app || rewrite dispatches_log).
  rewrite Hask, Hcalls. cbn. by rewrite app_nil_r.
Qed.

(** X7. A keyword that raises ends the loop over the suggestions: the
    suggestions before it were carried out, its own call is the last one, the
    exception is recorded, and the suggestions behind it are dropped. *)
Theorem raising_keyword_ends_the_action_loop
    w self instruction (xml_file xml_string screenshot_path : option string)
    pre (failing : list (string * value)) post (e : exn) :
  (handle_action w self instruction xml_file xml_string screenshot_path).1
  = Ok (VList (VDict <$> pre ++ failing :: post)) →
  Forall (keyword_returns (keyword_map self)) pre →
  keyword_raises (keyword_map self) failing e →
  dispatches
    (perform_ai_action w self instruction xml_file xml_string screenshot_path).2
  = (call_for <$> pre) ++ [call_for failing]
  ∧ ELog ERROR (MsgAIHandlerFailed e)
    ∈ (perform_ai_action w self instruction xml_file xml_string screenshot_path).2.
Proof.
  intros Hreply Hpre (name & target & h & Hasks & Hraise).
  destruct (perform_step_asked self failing name target h Hasks) as [_ Hcall].
  destruct (perform_ai_action_reaches w self instruction xml_file xml_string
              screenshot_path pre failing post name target h Hreply Hpre Hasks)
    as (asked & looped & -> & Hasked & Hlooped).
  rewrite Hraise, Hcall. split.
  - rewrite !dispatches_app, Hasked, Hlooped. cbn. by rewrite app_nil_r.
  - rewrite !elem_of_app. right. right. by apply list_elem_of_singleton.
Qed.

(** X8. Handing the handler a page-source file instead of the text always
    fails: the element extractor is declared without a receiver, so the
    handler object arrives where the file path is expected and the parser
    rejects it.  Nothing is asked of the model and no keyword is called. *)
Theorem page_source_file_is_never_read
    w self instruction (xml_file : string) (xml_string screenshot_path : option string) :
  pystr.is_empty xml_file = false →
  perform_ai_action w self instruction (Some xml_file) xml_string screenshot_path
  = (Ok tt,
     [ELog ERROR
        (MsgAIHandlerFailed
           (TypeError "expected str, bytes or os.PathLike object, not AIActionHandler"))]).
Proof.
  intros Hfile. unfold perform_ai_action, handle_action.
  cbn [PopupHandler.truthy_str]. rewrite Hfile. done.
Qed.

End ai_action_loop.


Lemma every_suggestion_is_executed_in_order_witness :
  dispatches
    (AIActionHandler.perform_ai_action
       (Examples.world_replying reply_with_reasons)
       (AIActionHandler.init (Some [("press_element", Examples.returning)]))
       (Some "accept the dialog") None (Some "<hierarchy/>")
       (Some "execution_output/ai_action_screenshot.png")).2
  = [ECall "press_element" [VStr "Continue"] [];
     ECall "press_element" [VStr "OK"] []].
Proof.
  apply (every_suggestion_is_executed_in_order
           (Examples.world_replying reply_with_reasons)
           (AIActionHandler.init (Some [("press_element", Examples.returning)]))
           (Some "accept the dialog") None (Some "<hierarchy/>")
           (Some "execution_output/ai_action_screenshot.png")
           [continue_step; ok_step]).
  - vm_compute; reflexivity.
  - repeat constructor.
    + exists "press_element", [("label", VStr "Continue")], Examples.returning.
      repeat split.
    + exists "press_element", [("element_name", VStr "OK")], Examples.returning.
      repeat split.
Defined.

Lemma raising_keyword_ends_the_action_loop_witness :
  dispatches
    (AIActionHandler.perform_ai_action
       (Examples.world_replying reply_with_reasons)
       (AIActionHandler.init (Some [("press_element", Examples.raising)]))
       (Some "accept the dialog") None (Some "<hierarchy/>")
       (Some "execution_output/ai_action_screenshot.png")).2
  = [ECall "press_element" [VStr "Continue"] []].
Proof.
  apply (raising_keyword_ends_the_action_loop
           (Examples.world_replying reply_with_reasons)
           (AIActionHandler.init (Some [("press_element", Examples.raising)]))
           (Some "accept the dialog") None (Some "<hierarchy/>")
           (Some "execution_output/ai_action_screenshot.png")
           [] continue_step [ok_step]
           (PyExc "RuntimeError" "element not found")).
  - vm_compute; reflexivity.
  - constructor.
  - exists "press_element", [("label", VStr "Continue")], Examples.raising.
    repeat split.
Defined.

Lemma page_source_file_is_never_read_witness :
  dispatches
    (AIActionHandler.perform_ai_action
       (Examples.world_replying Examples.press_continue)
       (AIActionHandler.init (Some [("press_element", Examples.returning)]))
       (Some "accept the dialog") (Some "page_source.xml") None
       (Some "execution_output/ai_action_screenshot.png")).2 = [].
Proof.
  rewrite (page_source_file_is_never_read
             (Examples.world_replying Examples.press_continue)
             (AIActionHandler.init (Some [("press_element", Examples.returning)]))
             (Some "accept the dialog") "page_source.xml" None
             (Some "execution_output/ai_action_screenshot.png"));
    reflexivity.
Defined.

(** * Sessions and their tools *)

Section sessions.
Context {C : Type} `{AgentClient C}.
Import LLMAgentManager.

Implicit Types (self : LLMAgentManager.t C) (w : World).

Lemma public_tools_names (keyword_map : KeywordMap) :
  (public_tools keyword_map).*1
  = List.filter (λ n, negb (pystr.startswith "_" n)) keyword_map.*1.
Proof.
  unfold public_tools. induction keyword_map as [|[n h] km IH]; [done|].
  cbn [List.filter fmap list_fmap fst].
  destruct (negb (pystr.startswith "_" n)); cbn [fmap list_fmap fst]; by rewrite <- IH.
Qed.

Lemma public_tools_elem (keyword_map : KeywordMap) (name : string) (h : Handler) :
  (name, h) ∈ keyword_map → pystr.startswith "_" name = false →
  (name, h) ∈ public_tools keyword_map.
Proof.
  intros Hin Hpub. unfold public_tools.
  apply list_elem_of_In, List.filter_In. split; [by apply list_elem_of_In|].
  cbn [fst]. by rewrite Hpub.
Qed.

(** X9. The tools offered for a session after its registration are, in
    this order, one tool for each key of the keyword map that does not start
    with an underscore, then pause_execution (with its parameter reason) and
    resume_execution; this holds whether or not handing the tools to the
    agents succeeded.  The tool of a keyword carries the keyword's name, its
    docstring as the description or, without a docstring, a description made
    of its name, and no parameters. *)
Theorem tools_of_registered_session_are_public_keywords
    w session_id (keyword_map : KeywordMap) self :
  let tools :=
    _get_available_tools session_id
      (register_tools_for_session w session_id keyword_map self).1 in
  tools
  = ((λ nf : string * Handler,
        {| Tool.name := nf.1;
           Tool.description :=
             match h_doc nf.2 with
             | Some doc =>
                 if pystr.is_empty doc
                 then "Execute the " +:+ nf.1 +:+ " function"
                 else doc
             | None => "Execute the " +:+ nf.1 +:+ " function"
             end;
           Tool.parameters := [] |})
     <$> List.filter (λ nf, negb (pystr.startswith "_" nf.1)) keyword_map)
    ++ [ {| Tool.name := "pause_execution";
            Tool.description := "Pause the test execution";
            Tool.parameters := [("reason", VStr "str")] |};
         {| Tool.name := "resume_execution";
            Tool.description := "Resume the test execution";
            Tool.parameters := [] |} ]
  ∧ Tool.name <$> tools
    = List.filter (λ n, negb (pystr.startswith "_" n)) keyword_map.*1
      ++ ["pause_execution"; "resume_execution"]
  ∧ (∀ name h, (name, h) ∈ keyword_map →
       pystr.startswith "_" name = false →
       {| Tool.name := name;
          Tool.description :=
            match h_doc h with
            | Some doc =>
                if pystr.is_empty doc
                then "Execute the " +:+ name +:+ " function"
                else doc
            | None => "Execute the " +:+ name +:+ " function"
            end;
          Tool.parameters := [] |} ∈ tools).
Proof.
  intros tools. subst tools. unfold _get_available_tools.
  rewrite register_tools_session_tools, lookup_insert_eq. split; [|split].
  - f_equal. apply list_fmap_ext. intros _ [name h] _.
    unfold tool_of, PydanticAIClient.or_default. cbn [fst snd].
    destruct (h_doc h) as [doc|]; [|done]. cbn [PopupHandler.truthy_str].
    by destruct (pystr.is_empty doc).
  - rewrite fmap_app, <- list_fmap_compose, <- public_tools_names. done.
  - intros name h Hin Hpub. apply elem_of_app. left.
    apply list_elem_of_fmap. exists (name, h).
    split; [|by apply public_tools_elem].
    unfold tool_of, PydanticAIClient.or_default. cbn [fst snd].
    destruct (h_doc h) as [doc|]; [|done]. cbn [PopupHandler.truthy_str].
    by destruct (pystr.is_empty doc).
Qed.

(** X10. Unregistering a session after registering it leaves the session
    without tools, while the tools offered for every other session are what
    they were before the two calls. *)
Theorem unregister_undoes_register w session_id (keyword_map : KeywordMap) self :
  let self' :=
    (unregister_session session_id
       (register_tools_for_session w session_id keyword_map self).1).1 in
  session_tools self' = delete session_id (session_tools self)
  ∧ _get_available_tools session_id self' = []
  ∧ ∀ other, other ≠ session_id →
      _get_available_tools other self' = _get_available_tools other self.
Proof.
  intros self'. subst self'.
  assert (session_tools
            (unregister_session session_id
               (register_tools_for_session w session_id keyword_map self).1).1
          = delete session_id (session_tools self)) as Hs.
  { unfold unregister_session.
    rewrite register_tools_session_tools, lookup_insert_eq. cbn [fst session_tools].
    rewrite ?register_tools_session_tools. apply delete_insert_eq. }
  split; [exact Hs|]. unfold _get_available_tools. rewrite Hs. split.
  - by rewrite lookup_delete_eq.
  - intros other Hother. by rewrite lookup_delete_ne.
Qed.

(** X11. Without registered tools for the session nothing an agent asks for
    is carried out, not even a pause or a resume: a non-empty action list is
    answered with one warning. *)
Theorem actions_of_unknown_session_are_dropped
    session_id (actions : list AgentAction.t) self :
  session_tools self !! session_id = None →
  actions ≠ [] →
  _process_actions session_id actions self
  = (Ok tt, [ELog WARNING (MsgNoToolsToProcess session_id)]).
Proof.
  intros Hs Hne. unfold _process_actions. rewrite Hs. by destruct actions.
Qed.

(** X12. An event starts no agent turn when no agent is registered for its
    trigger, when it carries no session id, or when its session has no
    registered tools: the manager writes its records and returns, without
    looking for a screenshot. *)
Theorem event_without_agents_or_session_starts_no_turn w (event : Event.t) self :
  (agents_for (event_trigger event) self = [] →
   on_event w event self
   = (Ok tt, [ELog DEBUG (MsgCheckingTrigger (event_trigger event))]))
  ∧ (agents_for (event_trigger event) self ≠ [] →
     PopupHandler.truthy_str (Event.extra event !! "session_id") = false →
     on_event w event self
     = (Ok tt, [ELog DEBUG (MsgCheckingTrigger (event_trigger event));
                ELog WARNING (MsgNoSessionId (Event.entity_id event))]))
  ∧ (∀ session_id,
       agents_for (event_trigger event) self ≠ [] →
       Event.extra event !! "session_id" = Some session_id →
       pystr.is_empty session_id = false →
       session_tools self !! session_id = None →
       on_event w event self
       = (Ok tt, [ELog DEBUG (MsgCheckingTrigger (event_trigger event));
                  ELog WARNING (MsgNoToolsForSession session_id)])).
Proof.
  unfold on_event. repeat split.
  - intros ->. done.
  - intros Hagents Hsid.
    destruct (agents_for (event_trigger event) self); [done|]. by rewrite Hsid.
  - intros session_id Hagents Hsid Hne Hs.
    destruct (agents_for (event_trigger event) self); [done|].
    rewrite Hsid. cbn [PopupHandler.truthy_str]. rewrite Hne. cbn [negb].
    change (default EmptyString (Some session_id)) with session_id.
    unfold _get_available_tools. by rewrite Hs.
Qed.

End sessions.

Lemma actions_of_unknown_session_are_dropped_witness :
  LLMAgentManager._process_actions "s9"
    [Examples.action "pause_execution" []] Examples.mock_manager
  = (Ok tt, [ELog WARNING (MsgNoToolsToProcess "s9")]).
Proof.
  apply (actions_of_unknown_session_are_dropped "s9"
           [Examples.action "pause_execution" []] Examples.mock_manager);
    [reflexivity|discriminate].
Defined.

(** No call is among a few records and commands. *)
Ltac no_call :=
  let Hin := fresh "Hin" in
  intros Hin;
  repeat (apply elem_of_cons in Hin as [Hin|Hin]; [discriminate Hin|]);
  by apply not_elem_of_nil in Hin.

Section control_tools.
Context {C : Type} `{AgentClient C}.
Import LLMAgentManager.

Implicit Types (self : LLMAgentManager.t C) (w : World).

Lemma process_action_call session_id (tools : KeywordMap) (action : AgentAction.t)
    (name : string) (args : list value) (kwargs : list (string * value)) :
  ECall name args kwargs ∈ (process_action session_id tools action).2 →
  name = AgentAction.tool_name action
  ∧ String.eqb name "pause_execution" = false
  ∧ String.eqb name "resume_execution" = false
  ∧ odict.mem name tools = true.
Proof.
  unfold process_action, odict.mem.
  destruct (String.eqb _ "pause_execution") eqn:Hp; [eff_simpl; no_call|].
  destruct (String.eqb _ "resume_execution") eqn:Hr; [eff_simpl; no_call|].
  destruct (odict.get _ tools) as [h|] eqn:Hh; [|eff_simpl; no_call].
  unfold call_tool.
  pose proof (unpack_args_silent
    (odict.get_default "args" (VList []) (AgentAction.parameters action))) as Ha.
  pose proof (unpack_kwargs_silent
    (odict.get_default "kwargs" (VDict []) (AgentAction.parameters action))) as Hk.
  destruct (unpack_args _) as [[a|e] ta]; cbn in Ha; subst ta;
    destruct (unpack_kwargs _) as [[k|e'] tk]; cbn in Hk; subst tk;
    destruct (h_async h); eff_simpl; try no_call;
    destruct (h_run h a k); cbn;
    rewrite ?elem_of_cons; intros Hin;
    repeat match goal with
           | Hin : _ ∨ _ |- _ => destruct Hin as [Hin|Hin]
           | Hin : ECall _ _ _ = ECall _ _ _ |- _ => injection Hin as -> -> ->
           end;
    try discriminate; try (by apply not_elem_of_nil in Hin);
    by rewrite Hh.
Qed.

(** X13. The names pause_execution and resume_execution are taken by the
    control tools: whatever the session registered under these names, the
    dispatcher never calls a keyword of that name.  Every keyword it does
    call is a key of the session's map. *)
Theorem control_tool_names_shadow_keywords
    session_id (actions : list AgentAction.t) self
    (name : string) (args : list value) (kwargs : list (string * value)) :
  ECall name args kwargs ∈ (_process_actions session_id actions self).2 →
  name ≠ "pause_execution"
  ∧ name ≠ "resume_execution"
  ∧ ∃ tools, session_tools self !! session_id = Some tools
             ∧ odict.mem name tools = true.
Proof.
  unfold _process_actions. destruct actions as [|a actions]; [eff_simpl; no_call|].
  destruct (session_tools self !! session_id) as [tools|]; [|eff_simpl; no_call].
  rewrite for_each_total by (intros x; apply process_action_dispatch).
  cbn [snd]. generalize (a :: actions). intros l. clear a actions.
  induction l as [|a l IH]; cbn [List.map List.concat]; [no_call|].
  rewrite elem_of_app. intros [Hin|Hin]; [|by apply IH].
  apply process_action_call in Hin as (_ & Hp & Hr & Hmem).
  apply String.eqb_neq in Hp, Hr. eauto.
Qed.

End control_tools.

Lemma control_tool_names_shadow_keywords_witness :
  "press_element" ≠ "pause_execution"
  ∧ "press_element" ≠ "resume_execution"
  ∧ ∃ tools, LLMAgentManager.session_tools Examples.mock_manager !! "s1" = Some tools
             ∧ odict.mem "press_element" tools = true.
Proof.
  apply (control_tool_names_shadow_keywords "s1"
           [Examples.action "pause_execution" [];
            Examples.action "press_element" [VStr "Continue"]]
           Examples.mock_manager "press_element" [VStr "Continue"] []).
  apply (list_elem_of_lookup_2 _ 4). vm_compute. reflexivity.
Defined.

(** * The latest screenshot *)

Section latest_screenshot.
Import LLMAgentManager.

Lemma max_by_greatest (key : string → Outcome Z) (rest : list string)
    (best : string) (best_key : Z) (r : string) (t : Trace) :
  max_by key best best_key rest = (Ok r, t) →
  ∃ kr, ((r = best ∧ kr = best_key) ∨ (r ∈ rest ∧ key r = Ok kr))
        ∧ (best_key ≤ kr)%Z
        ∧ ∀ q, q ∈ rest → ∃ kq, key q = Ok kq ∧ (kq ≤ kr)%Z.
Proof.
  revert best best_key. induction rest as [|x rest IH]; intros best best_key.
  - cbn. intros [= <- _]. exists best_key. split; [by left|]. split; [lia|].
    intros q Hq. by apply not_elem_of_nil in Hq.
  - cbn [max_by]. unfold mbind, eff_bind.
    destruct (key x) as [k|e] eqn:Hx; [|done]. rewrite bind_ok. cbn [fst snd app].
    destruct (best_key <? k)%Z eqn:Hlt.
    + apply Z.ltb_lt in Hlt. rewrite <- surjective_pairing. intros Hmax.
      destruct (IH _ _ Hmax) as (kr & Hr & Hle & Hall). exists kr.
      split; [|split; [lia|]].
      * destruct Hr as [[-> ->]|[Hin Hkey]]; right.
        -- split; [by left|done].
        -- split; [by right|done].
      * intros q [->|Hq]%elem_of_cons; [exists k; split; [done|lia]|by apply Hall].
    + apply Z.ltb_ge in Hlt. rewrite <- surjective_pairing. intros Hmax.
      destruct (IH _ _ Hmax) as (kr & Hr & Hle & Hall). exists kr.
      split; [|split; [lia|]].
      * destruct Hr as [[-> ->]|[Hin Hkey]]; [by left|]. right.
        split; [by right|done].
      * intros q [->|Hq]%elem_of_cons; [exists k; split; [done|lia]|by apply Hall].
Qed.

(** X14. When a screenshot is found it is the newest image of the output
    directory: a file of the directory listing whose name ends in .png, .jpg
    or .jpeg, and no image file of the listing has a later modification
    time. *)
Theorem latest_screenshot_is_newest_image (w : World) (p : string) :
  (_find_latest_screenshot w).1 = Ok (Some p) →
  ∃ names kp,
    path_exists w "execution_output" = true
    ∧ listdir w "execution_output" = Ok names
    ∧ p ∈ (λ f, "execution_output" +:+ "/" +:+ f) <$> names
    ∧ is_image p = true
    ∧ getmtime w p = Ok kp
    ∧ ∀ q, q ∈ (λ f, "execution_output" +:+ "/" +:+ f) <$> names →
           is_image q = true →
           ∃ kq, getmtime w q = Ok kq ∧ (kq ≤ kp)%Z.
Proof.
  unfold _find_latest_screenshot.
  destruct (path_exists w "execution_output"); cbn [negb]; [|done].
  destruct (listdir w "execution_output") as [names|e]; [|done].
  unfold mbind at 1. unfold eff_bind. rewrite bind_ok. cbn [fst snd app].
  set (files := (λ f, "execution_output" +:+ "/" +:+ f) <$> names).
  assert (∀ q, q ∈ List.filter is_image files ↔ q ∈ files ∧ is_image q = true)
    as Hfilter.
  { intros q. rewrite !list_elem_of_In, List.filter_In. done. }
  destruct (List.filter is_image files) as [|f fs]; [done|].
  unfold mbind, eff_bind, fmap, eff_fmap.
  destruct (getmtime w f) as [k|e] eqn:Hf; [|done]. rewrite bind_ok.
  cbn [fst snd app].
  destruct (max_by (getmtime w) f k fs) as [[best|e] t] eqn:Hmax; [|done].
  cbn. intros [= <-].
  destruct (max_by_greatest _ _ _ _ _ _ Hmax) as (kr & Hr & Hle & Hall).
  exists names, kr. split; [done|]. split; [done|].
  assert (best ∈ f :: fs ∧ getmtime w best = Ok kr) as [Hin Hkey].
  { destruct Hr as [[-> ->]|[Hin Hkey]]; split; try done; [by left|by right]. }
  apply Hfilter in Hin as [Hin Himg].
  split; [done|]. split; [done|]. split; [done|].
  intros q Hq Himgq.
  assert (q ∈ f :: fs) as [->|Hqfs]%elem_of_cons by (by apply Hfilter).
  - exists k. done.
  - by apply Hall.
Qed.

(** X15. Looking for the screenshot never raises.  A missing output
    directory gives no screenshot and no record; a directory that cannot be
    listed gives no screenshot and one error record. *)
Theorem latest_screenshot_failures_give_none (w : World) :
  (∃ shot, (_find_latest_screenshot w).1 = Ok shot)
  ∧ (path_exists w "execution_output" = false →
     _find_latest_screenshot w = (Ok None, []))
  ∧ (∀ e, path_exists w "execution_output" = true →
          listdir w "execution_output" = Raise e →
          _find_latest_screenshot w = (Ok None, [ELog ERROR (MsgScreenshotError e)])).
Proof.
  split; [apply find_latest_screenshot_returns|]. unfold _find_latest_screenshot.
  split.
  - intros ->. done.
  - intros e -> ->. done.
Qed.

End latest_screenshot.

Lemma latest_screenshot_is_newest_image_witness :
  ∃ names kp,
    path_exists world_with_screenshots "execution_output" = true
    ∧ listdir world_with_screenshots "execution_output" = Ok names
    ∧ "execution_output/step2.jpg"
      ∈ (λ f, "execution_output" +:+ "/" +:+ f) <$> names
    ∧ LLMAgentManager.is_image "execution_output/step2.jpg" = true
    ∧ getmtime world_with_screenshots "execution_output/step2.jpg" = Ok kp
    ∧ ∀ q, q ∈ (λ f, "execution_output" +:+ "/" +:+ f) <$> names →
           LLMAgentManager.is_image q = true →
           ∃ kq, getmtime world_with_screenshots q = Ok kq ∧ (kq ≤ kp)%Z.
Proof.
  apply (latest_screenshot_is_newest_image world_with_screenshots
           "execution_output/step2.jpg").
  vm_compute. reflexivity.
Defined.

(** * Insertion-ordered dictionaries *)

Section odict_lemmas.
Context {V : Type}.
Implicit Types (d : list (string * V)) (k : string) (v : V).

Lemma odict_get_set_eq k v d : odict.get k (odict.set k v d) = Some v.
Proof.
  induction d as [|[k' v'] d IH]; cbn.
  - by rewrite String.eqb_refl.
  - destruct (String.eqb k k') eqn:Hk; cbn; rewrite ?String.eqb_refl, ?Hk; done.
Qed.

Lemma odict_get_set_ne k k' v d :
  k ≠ k' → odict.get k (odict.set k' v d) = odict.get k d.
Proof.
  intros Hne. apply String.eqb_neq in Hne.
  induction d as [|[k'' v''] d IH]; cbn.
  - by rewrite Hne.
  - destruct (String.eqb k' k'') eqn:Hk; cbn.
    + apply String.eqb_eq in Hk as <-. by rewrite Hne.
    + by rewrite IH.
Qed.

Lemma odict_get_in k v d :
  NoDup d.*1 → (k, v) ∈ d → odict.get k d = Some v.
Proof.
  induction d as [|[k' v'] d IH]; [intros _ Hin; by apply not_elem_of_nil in Hin|].
  cbn. intros [Hfresh Hnodup]%NoDup_cons [[= -> ->]|Hin]%elem_of_cons.
  - by rewrite String.eqb_refl.
  - destruct (String.eqb_spec k k') as [->|_]; [|by apply IH].
    exfalso. apply Hfresh. apply list_elem_of_fmap. by exists (k', v).
Qed.

End odict_lemmas.

Section registration.
Context {C : Type} `{AgentClient C}.
Import LLMAgentManager.

Implicit Types (self : LLMAgentManager.t C) (w : World).

(** X16. Registering an enabled agent whose client can be built appends its
    name to the list of its trigger and leaves the lists of the other
    triggers alone; the client and the configuration are stored under the
    name.  Nothing removes an earlier entry: a name registered twice is
    listed twice. *)
Theorem enabled_agent_is_appended_to_its_trigger
    w (name : string) (config : LLMAgentConfig.t) self (client : C) (tr : Trace) :
  LLMAgentConfig.enabled config = true →
  client_new w config = (Ok client, tr) →
  let self' := (register_agent w name config self).1 in
  (∀ trigger,
     agents_for trigger self'
     = if decide (trigger = LLMAgentConfig.trigger config)
       then agents_for trigger self ++ [name]
       else agents_for trigger self)
  ∧ odict.get name (agents self') = Some client
  ∧ configs self' !! name = Some config
  ∧ agents_for (LLMAgentConfig.trigger config) (register_agent w name config self').1
    = agents_for (LLMAgentConfig.trigger config) self ++ [name; name].
Proof.
  intros Hon Hnew self'.
  assert (∀ s : LLMAgentManager.t C,
            register_agent w name config s
            = ({| agents := odict.set name client (agents s);
                  configs := <[name := config]> (configs s);
                  trigger_map :=
                    <[LLMAgentConfig.trigger config :=
                        agents_for (LLMAgentConfig.trigger config) s ++ [name]]>
                      (trigger_map s);
                  session_tools := session_tools s |},
               (Ok tt, tr ++ [ELog INFO (MsgAgentRegistered name
                                           (LLMAgentConfig.trigger config))])))
    as Hreg.
  { intros s. unfold register_agent. by rewrite Hon, Hnew. }
  subst self'. rewrite !Hreg. cbn [fst]. repeat split.
  - intros trigger. unfold agents_for at 1. cbn [trigger_map].
    destruct (decide (trigger = LLMAgentConfig.trigger config)) as [->|Hne].
    + by rewrite lookup_insert_eq.
    + by rewrite lookup_insert_ne.
  - apply odict_get_set_eq.
  - cbn [configs]. apply lookup_insert_eq.
  - unfold agents_for at 1. cbn [trigger_map]. rewrite lookup_insert_eq. cbn.
    unfold agents_for at 1. cbn [trigger_map]. rewrite lookup_insert_eq. cbn.
    by rewrite <- app_assoc.
Qed.

(** X17. When the client of an enabled agent cannot be built, the exception
    leaves [register_agent]; by then the configuration is stored under the
    name, but no client is, and no trigger lists the agent. *)
Theorem failed_client_leaves_agent_unregistered
    w (name : string) (config : LLMAgentConfig.t) self (e : exn) (tr : Trace) :
  LLMAgentConfig.enabled config = true →
  client_new w config = (Raise e, tr) →
  (register_agent w name config self).2 = (Raise e, tr)
  ∧ configs (register_agent w name config self).1 !! name = Some config
  ∧ agents (register_agent w name config self).1 = agents self
  ∧ trigger_map (register_agent w name config self).1 = trigger_map self.
Proof.
  intros Hon Hnew. unfold register_agent. rewrite Hon, Hnew. cbn.
  repeat split. apply lookup_insert_eq.
Qed.

End registration.

(** * The shipped client *)

Section client_construction.
Import PydanticAIClient.

Lemma init_builds_bare_client (w : World) (config : LLMAgentConfig.t)
    (client : PydanticAIClient.t) (t : Trace) :
  init w config = (Ok client, t) →
  client = {| config := config; prompt := config_prompts config;
              agent := None; tools := [] |}.
Proof.
  unfold init, _load_prompts, load_prompt_from_file, agent_name.
  destruct (PopupHandler.truthy_str (LLMAgentConfig.prompt_file config)).
  - destruct (negb true || negb (path_exists w _)); cbn; [|done].
    by intros [= <- _].
  - cbn. by intros [= <- _].
Qed.

(** X18. The client never takes its prompts from a file.  A configuration
    that names an existing prompt file cannot be turned into a client: the
    loader is asked without an agent name and raises ValueError, which the
    constructor does not catch.  A prompt file that does not exist is
    recorded as an error.  Every client that is built carries the prompts of
    its configuration, no agent and no tools. *)
Theorem prompts_are_never_loaded_from_a_file (w : World) (config : LLMAgentConfig.t) :
  (∀ file, LLMAgentConfig.prompt_file config = Some file →
           pystr.is_empty file = false →
           path_exists w file = true →
           init w config
           = (Raise (ValueError "Agent name is required for loading prompts from file"),
              []))
  ∧ (∀ file, LLMAgentConfig.prompt_file config = Some file →
             pystr.is_empty file = false →
             path_exists w file = false →
             ∃ e, exc_class e = "FileNotFoundError"
                  ∧ init w config
                    = (Ok {| config := config; prompt := config_prompts config;
                             agent := None; tools := [] |},
                       [ELog ERROR (MsgPromptFileFailed e)]))
  ∧ (∀ client t, init w config = (Ok client, t) →
                 client = {| config := config; prompt := config_prompts config;
                             agent := None; tools := [] |}).
Proof.
  split; [|split; [|apply init_builds_bare_client]];
    unfold init, _load_prompts, load_prompt_from_file, agent_name.
  - intros file -> Hfile Hexists. cbn [PopupHandler.truthy_str].
    change (default EmptyString (Some file)) with file.
    rewrite Hfile, Hexists. done.
  - intros file -> Hfile Hmissing. cbn [PopupHandler.truthy_str].
    change (default EmptyString (Some file)) with file.
    rewrite Hfile, Hmissing. eexists. split; [|reflexivity]. done.
Qed.

(** X19. A client on which no tools were registered has no agent to run:
    asked to execute, an enabled one answers that it is not initialised and
    asks for a human, without running the model. *)
Theorem client_without_tools_asks_for_a_human
    (w : World) (config : LLMAgentConfig.t) (context : AgentContext.t)
    (client : PydanticAIClient.t) (t : Trace) :
  LLMAgentConfig.enabled config = true →
  init w config = (Ok client, t) →
  execute w context client
  = (Ok {| AgentResponse.message := "Agent not properly initialized with tools";
           AgentResponse.actions := [];
           AgentResponse.requires_human_input := true |},
     [ELog ERROR MsgAgentNotInitialized]).
Proof.
  intros Hon Hinit.
  rewrite (init_builds_bare_client w config client t Hinit).
  unfold execute. cbn [PydanticAIClient.config agent]. by rewrite Hon.
Qed.

End client_construction.

Lemma enabled_agent_is_appended_to_its_trigger_witness :
  LLMAgentManager.agents_for "Keyword_fail"
    (LLMAgentManager.register_agent Examples.world_offline "fast"
       (Examples.agent_config "fast" "Keyword_fail")
       (LLMAgentManager.register_agent Examples.world_offline "fast"
          (Examples.agent_config "fast" "Keyword_fail") Examples.mock_manager).1).1
  = ["slow"; "fast"; "fast"; "fast"].
Proof.
  refine (proj2 (proj2 (proj2
    (enabled_agent_is_appended_to_its_trigger Examples.world_offline "fast"
       (Examples.agent_config "fast" "Keyword_fail") Examples.mock_manager
       (Examples.MockAnswers []) [] _ _)))); reflexivity.
Defined.

Lemma failed_client_leaves_agent_unregistered_witness :
  (LLMAgentManager.register_agent world_with_prompt_file "repair"
     (config_with_prompt_file "prompts.yaml")
     (LLMAgentManager.init (C := PydanticAIClient.t))).2
  = (Raise (ValueError "Agent name is required for loading prompts from file"), [])
  ∧ LLMAgentManager.configs
      (LLMAgentManager.register_agent world_with_prompt_file "repair"
         (config_with_prompt_file "prompts.yaml")
         (LLMAgentManager.init (C := PydanticAIClient.t))).1 !! "repair"
    = Some (config_with_prompt_file "prompts.yaml")
  ∧ LLMAgentManager.agents
      (LLMAgentManager.register_agent world_with_prompt_file "repair"
         (config_with_prompt_file "prompts.yaml")
         (LLMAgentManager.init (C := PydanticAIClient.t))).1 = []
  ∧ LLMAgentManager.trigger_map
      (LLMAgentManager.register_agent world_with_prompt_file "repair"
         (config_with_prompt_file "prompts.yaml")
         (LLMAgentManager.init (C := PydanticAIClient.t))).1 = ∅.
Proof.
  apply (failed_client_leaves_agent_unregistered world_with_prompt_file "repair"
           (config_with_prompt_file "prompts.yaml")
           (LLMAgentManager.init (C := PydanticAIClient.t)));
    reflexivity.
Defined.

Lemma client_without_tools_asks_for_a_human_witness :
  PydanticAIClient.execute Examples.world_offline
    (LLMAgentManager.event_context Examples.fail_event "s1" None [])
    {| PydanticAIClient.config := Examples.agent_config "gpt-4o" "Keyword_fail";
       PydanticAIClient.prompt :=
         config_prompts (Examples.agent_config "gpt-4o" "Keyword_fail");
       PydanticAIClient.agent := None;
       PydanticAIClient.tools := [] |}
  = (Ok {| AgentResponse.message := "Agent not properly initialized with tools";
           AgentResponse.actions := [];
           AgentResponse.requires_human_input := true |},
     [ELog ERROR MsgAgentNotInitialized]).
Proof.
  apply (client_without_tools_asks_for_a_human Examples.world_offline
           (Examples.agent_config "gpt-4o" "Keyword_fail")
           (LLMAgentManager.event_context Examples.fail_event "s1" None []) _ []);
    reflexivity.
Defined.

(** * Every listed agent has a client, and gets its turn *)

Section registry_invariant.
Context {C : Type} `{AgentClient C}.
Import LLMAgentManager.

Implicit Types (self : LLMAgentManager.t C) (w : World).

Lemma odict_mem_keys {V} (k : string) (d : list (string * V)) :
  odict.mem k d = true ↔ k ∈ d.*1.
Proof.
  unfold odict.mem. induction d as [|[k' v] d IH]; cbn.
  - split; [done|]. intros Hin. by apply not_elem_of_nil in Hin.
  - rewrite elem_of_cons. destruct (String.eqb_spec k k') as [->|Hne].
    + split; [by left|done].
    + rewrite IH. split; [by right|]. by intros [?|?].
Qed.

Lemma odict_set_keys {V} (k : string) (v : V) (d : list (string * V)) (n : string) :
  n ∈ (odict.set k v d).*1 ↔ n = k ∨ n ∈ d.*1.
Proof.
  induction d as [|[k' v'] d IH]; cbn.
  - rewrite list_elem_of_singleton. split; [by left|].
    intros [?|Hin]; [done|]. by apply not_elem_of_nil in Hin.
  - destruct (String.eqb_spec k k') as [->|Hne]; cbn; rewrite !elem_of_cons.
    + tauto.
    + rewrite IH. tauto.
Qed.

Lemma register_with_agents_keys w (keyword_map : KeywordMap) (todo : list (string * C)) :
  (register_with_agents w keyword_map todo).1.*1 = todo.*1.
Proof.
  induction todo as [|[n a] rest IH]; [done|]. cbn [register_with_agents].
  destruct (client_register_tools w (public_tools keyword_map) a) as [a' [[[]|e] tr]].
  - destruct (register_with_agents w keyword_map rest) as [rest' r'].
    cbn in *. by rewrite IH.
  - done.
Qed.

Lemma apply_op_consistent w self (op : manager_op) :
  registry_consistent self → registry_consistent (apply_op w self op).
Proof.
  intros [Hlisted Henabled]. destruct op as [name config|sid km|sid]; cbn [apply_op].
  - unfold register_agent.
    destruct (LLMAgentConfig.enabled config) eqn:Hon; cbn [negb]; [|done].
    destruct (client_new w config) as [[client|e] tr]; cbn [fst]; split.
    + intros trigger n. unfold agents_for at 1. cbn [trigger_map agents configs].
      rewrite odict_mem_keys, odict_set_keys.
      destruct (decide (LLMAgentConfig.trigger config = trigger)) as [->|Hne].
      * rewrite lookup_insert_eq. cbn. rewrite elem_of_app, list_elem_of_singleton.
        intros [Hin| ->]; [|split; [by left|by rewrite lookup_insert_eq]].
        destruct (Hlisted _ _ Hin) as [Hmem Hcfg]. split.
        -- right. by apply odict_mem_keys.
        -- destruct (decide (n = name)) as [->|?];
             [by rewrite lookup_insert_eq|by rewrite lookup_insert_ne].
      * rewrite lookup_insert_ne by done. intros Hin.
        destruct (Hlisted _ _ Hin) as [Hmem Hcfg]. split.
        -- right. by apply odict_mem_keys.
        -- destruct (decide (n = name)) as [->|?];
             [by rewrite lookup_insert_eq|by rewrite lookup_insert_ne].
    + intros n cfg. cbn [configs].
      destruct (decide (n = name)) as [->|?].
      * rewrite lookup_insert_eq. by intros [= <-].
      * rewrite lookup_insert_ne by done. apply Henabled.
    + intros trigger n Hin. cbn [agents configs].
      destruct (Hlisted _ _ Hin) as [Hmem Hcfg]. split; [done|].
      destruct (decide (n = name)) as [->|?];
        [by rewrite lookup_insert_eq|by rewrite lookup_insert_ne].
    + intros n cfg. cbn [configs].
      destruct (decide (n = name)) as [->|?].
      * rewrite lookup_insert_eq. by intros [= <-].
      * rewrite lookup_insert_ne by done. apply Henabled.
  - unfold register_tools_for_session.
    pose proof (register_with_agents_keys w km (agents self)) as Hkeys.
    destruct (register_with_agents w km (agents self)) as [agents' r].
    cbn [fst] in *. split; [|done].
    intros trigger n Hin. cbn [agents configs].
    destruct (Hlisted _ _ Hin) as [Hmem Hcfg]. split; [|done].
    apply odict_mem_keys. rewrite Hkeys. by apply odict_mem_keys.
  - unfold unregister_session. by destruct (session_tools self !! sid).
Qed.

(** X20. After any history of registrations and unregistrations on a fresh
    manager, every name a trigger lists has a client and an enabled
    configuration stored under it: the turn of a listed agent never ends
    with the record that the agent was not found. *)
Theorem listed_agents_have_clients w (ops : list manager_op) (trigger name : string) :
  name ∈ agents_for trigger (manager_after (C := C) w ops) →
  ∃ client config,
    odict.get name (agents (manager_after w ops)) = Some client
    ∧ configs (manager_after w ops) !! name = Some config
    ∧ LLMAgentConfig.enabled config = true.
Proof.
  assert (registry_consistent (manager_after (C := C) w ops)) as [Hlisted Henabled].
  { unfold manager_after.
    assert (registry_consistent (init (C := C))) as Hinit.
    { split; [|done]. intros t n Hin. unfold agents_for, init in Hin. cbn in Hin.
      rewrite lookup_empty in Hin. by apply not_elem_of_nil in Hin. }
    revert Hinit. generalize (init (C := C)).
    induction ops as [|op ops IH]; intros s Hs; cbn [fold_left]; [done|].
    apply IH. by apply apply_op_consistent. }
  intros Hin. destruct (Hlisted _ _ Hin) as [Hmem [config Hcfg]].
  unfold odict.mem in Hmem.
  destruct (odict.get name (agents (manager_after w ops))) as [client|]; [|done].
  exists client, config. eauto.
Qed.

End registry_invariant.

Lemma listed_agents_have_clients_witness :
  ∃ client config,
    odict.get "fast"
      (LLMAgentManager.agents
         (manager_after (C := Examples.mock_client) Examples.world_offline
            [OpRegisterAgent "idle" Examples.disabled_config;
             OpRegisterAgent "fast" (Examples.agent_config "fast" "Keyword_fail");
             OpRegisterTools "s1" Examples.session_keywords]))
    = Some client
    ∧ LLMAgentManager.configs
        (manager_after (C := Examples.mock_client) Examples.world_offline
           [OpRegisterAgent "idle" Examples.disabled_config;
            OpRegisterAgent "fast" (Examples.agent_config "fast" "Keyword_fail");
            OpRegisterTools "s1" Examples.session_keywords]) !! "fast"
      = Some config
    ∧ LLMAgentConfig.enabled config = true.
Proof.
  apply (listed_agents_have_clients (C := Examples.mock_client) Examples.world_offline
           [OpRegisterAgent "idle" Examples.disabled_config;
            OpRegisterAgent "fast" (Examples.agent_config "fast" "Keyword_fail");
            OpRegisterTools "s1" Examples.session_keywords]
           "Keyword_fail" "fast").
  apply (list_elem_of_lookup_2 _ 0). vm_compute. reflexivity.
Defined.

Section every_agent_has_its_turn.
Context {C : Type} `{AgentClient C}.
Import LLMAgentManager.

Implicit Types (self : LLMAgentManager.t C) (w : World).

(** Running the tasks one after the other is one of the interleavings. *)
Lemma interleaving_idle (ts : list Trace) (l : Trace) :
  interleaving ts l → interleaving ([] :: ts) l.
Proof.
  induction 1 as [ts Hall|ts i x t l Hi _ IH].
  - apply interleaving_done. by constructor.
  - by apply (interleaving_step ([] :: ts) (S i) x t l).
Qed.

Lemma interleaving_concat (ts : list Trace) :
  interleaving ts (List.concat ts).
Proof.
  induction ts as [|t ts IH]; [by apply interleaving_done|].
  cbn [List.concat]. induction t as [|x t IHt].
  - by apply interleaving_idle.
  - by apply (interleaving_step ((x :: t) :: ts) 0 x t (t ++ List.concat ts)).
Qed.

(** In every interleaving each task's effects occur in their own order. *)
Lemma interleaving_sublist (ts : list Trace) (l : Trace) :
  interleaving ts l → ∀ i t, ts !! i = Some t → t `sublist_of` l.
Proof.
  induction 1 as [ts Hall|ts j x t0 l Hj _ IH]; intros i t Hi.
  - rewrite Forall_lookup in Hall. rewrite (Hall i t Hi). apply sublist_nil_l.
  - destruct (decide (i = j)) as [->|Hne].
    + rewrite Hj in Hi. injection Hi as <-. apply sublist_skip.
      apply (IH j). apply list_lookup_insert_eq. by eapply lookup_lt_Some.
    + apply sublist_cons. apply (IH i). by rewrite list_lookup_insert_ne.
Qed.

(** X21. For an event whose session has registered tools, every agent the
    trigger lists gets a turn with the same context, as often as it is
    listed.  No order between the turns is asserted: after the debug record
    and the search for the screenshot, the effects of the event are an
    interleaving of the effects of the turns, one turn per listing, and so
    the effects of each listed agent's turn occur among them in their own
    order. *)
Theorem every_listed_agent_gets_a_turn
    w (event : Event.t) self (session_id : string) (tools : KeywordMap)
    (shot : option string) (ts : Trace) :
  agents_for (event_trigger event) self ≠ [] →
  Event.extra event !! "session_id" = Some session_id →
  pystr.is_empty session_id = false →
  session_tools self !! session_id = Some tools →
  _find_latest_screenshot w = (Ok shot, ts) →
  let turn name :=
    (_execute_agent w name
       (event_context event session_id shot (_get_available_tools session_id self))
       self).2 in
  ∃ turns,
    on_event w event self
    = (Ok tt, [ELog DEBUG (MsgCheckingTrigger (event_trigger event))] ++ ts ++ turns)
    ∧ interleaving (turn <$> agents_for (event_trigger event) self) turns
    ∧ ∀ name, name ∈ agents_for (event_trigger event) self →
              turn name `sublist_of` turns.
Proof.
  intros Hnames Hsid Hne Hs Hshot turn.
  exists (List.concat (turn <$> agents_for (event_trigger event) self)).
  split; [|split; [apply interleaving_concat|]].
  2:{ intros name [i Hi]%list_elem_of_lookup_1.
      apply (interleaving_sublist _ _ (interleaving_concat _) i).
      by rewrite list_lookup_fmap, Hi. }
  unfold on_event.
  destruct (agents_for (event_trigger event) self) as [|a names]; [done|].
  rewrite Hsid. change (default EmptyString (Some session_id)) with session_id.
  cbn [PopupHandler.truthy_str]. rewrite Hne. cbn [negb].
  destruct (tools_of_registered_session session_id tools self Hs)
    as (tool & rest & Htools).
  subst turn. rewrite Htools, Hshot.
  unfold mbind, eff_bind, log, emit. rewrite !bind_ok. cbn [fst snd].
  rewrite gather_total.
  2:{ apply Forall_fmap, Forall_forall. intros name _. apply execute_agent_returns. }
  cbn [fst snd]. do 3 f_equal.
  generalize (a :: names). intros l. induction l as [|n l IH]; [done|].
  cbn [fmap list_fmap List.map List.concat snd]. by rewrite <- IH.
Qed.

End every_agent_has_its_turn.

Lemma every_listed_agent_gets_a_turn_witness :
  ∃ turns,
    LLMAgentManager.on_event Examples.world_offline Examples.fail_event
      Examples.mock_manager
    = (Ok tt, [ELog DEBUG (MsgCheckingTrigger "Keyword_fail")] ++ [] ++ turns)
    ∧ interleaving
        ((λ name,
            (LLMAgentManager._execute_agent Examples.world_offline name
               (LLMAgentManager.event_context Examples.fail_event "s1" None
                  (LLMAgentManager._get_available_tools "s1"
                     Examples.mock_manager))
               Examples.mock_manager).2)
         <$> ["slow"; "fast"])
        turns
    ∧ ∀ name, name ∈ ["slow"; "fast"] →
              (LLMAgentManager._execute_agent Examples.world_offline name
                 (LLMAgentManager.event_context Examples.fail_event "s1" None
                    (LLMAgentManager._get_available_tools "s1"
                       Examples.mock_manager))
                 Examples.mock_manager).2 `sublist_of` turns.
Proof.
  apply (every_listed_agent_gets_a_turn Examples.world_offline Examples.fail_event
           Examples.mock_manager "s1" Examples.session_keywords None []);
    try reflexivity.
  vm_compute. discriminate.
Defined.

(** * Tools and keyword arguments of the shipped client *)

Section fold_set.
Context {V : Type}.
Implicit Types (l acc : list (string * V)) (k : string).

Lemma odict_get_absent k l : k ∉ l.*1 → odict.get k l = None.
Proof.
  induction l as [|[k' v] l IH]; [done|]. cbn.
  rewrite not_elem_of_cons. intros [Hne Hl].
  destruct (String.eqb_spec k k'); [done|]. by apply IH.
Qed.

(** Storing the entries of a dictionary one by one, except the keys a test
    skips: a lookup afterwards finds the dictionary's value for a key it
    holds and does not skip, and the earlier value otherwise. *)
Lemma fold_set_get (skip : string → bool) l acc k :
  NoDup l.*1 →
  odict.get k
    (fold_left (λ acc kv, if skip kv.1 then acc else odict.set kv.1 kv.2 acc) l acc)
  = if skip k then odict.get k acc
    else match odict.get k l with
         | Some v => Some v
         | None => odict.get k acc
         end.
Proof.
  revert acc. induction l as [|[n v] l IH]; intros acc Hnodup.
  { cbn. by destruct (skip k). }
  cbn [fmap list_fmap fst] in Hnodup. apply NoDup_cons in Hnodup as [Hfresh Hnodup].
  cbn [fold_left fst snd]. rewrite IH by done. cbn [odict.get].
  destruct (String.eqb_spec k n) as [->|Hne].
  - rewrite (odict_get_absent n l) by done.
    destruct (skip n); [done|]. by rewrite odict_get_set_eq.
  - destruct (skip k); destruct (skip n); try done;
      by rewrite ?odict_get_set_ne.
Qed.

End fold_set.

Section client_tools.
Import PydanticAIClient.

Lemma register_tools_stored (w : World) (tools_in : KeywordMap) (self : PydanticAIClient.t) :
  tools (register_tools w tools_in self).1
  = fold_left (λ acc nf, if is_private nf.1 then acc else odict.set nf.1 nf.2 acc)
      tools_in (tools self).
Proof.
  unfold register_tools. by repeat case_match.
Qed.

(** X22. Registering tools with a client stores every keyword of the map
    whose name has no private prefix under its name, replacing an earlier
    keyword of that name, and changes nothing else: private names are not
    stored, and keywords stored earlier under other names stay.  This holds
    also when creating the agent fails afterwards. *)
Theorem register_tools_stores_public_keywords
    (w : World) (tools_in : KeywordMap) (self : PydanticAIClient.t) (name : string) :
  NoDup tools_in.*1 →
  odict.get name (tools (register_tools w tools_in self).1)
  = if is_private name then odict.get name (tools self)
    else match odict.get name tools_in with
         | Some h => Some h
         | None => odict.get name (tools self)
         end.
Proof.
  intros Hnodup. rewrite register_tools_stored. by apply fold_set_get.
Qed.

End client_tools.

Section client_agent.
Import PydanticAIClient.

Lemma odict_set_nodup {V} (k : string) (v : V) (d : list (string * V)) :
  NoDup d.*1 → NoDup (odict.set k v d).*1.
Proof.
  induction d as [|[k' v'] d IH]; cbn.
  - intros _. apply NoDup_singleton.
  - intros [Hfresh Hnodup]%NoDup_cons.
    destruct (String.eqb_spec k k') as [->|Hne]; cbn.
    + by apply NoDup_cons.
    + apply NoDup_cons. split; [|by apply IH].
      rewrite odict_set_keys. intros [?|?]; [by subst|done].
Qed.

Lemma process_capabilities_returns (w : World) (caps acc : list (string * value)) :
  ∃ processed tp,
    process_capabilities w caps acc = (Ok processed, tp)
    ∧ Forall (λ x, ∃ v, x = ELog WARNING (MsgEnvVarNotFound v)) tp
    ∧ (NoDup acc.*1 → NoDup processed.*1).
Proof.
  revert acc. induction caps as [|[key v] caps IH]; intros acc.
  { exists acc, []. done. }
  cbn [process_capabilities].
  assert (∀ x, ∃ processed tp,
            process_capabilities w caps (odict.set key x acc) = (Ok processed, tp)
            ∧ Forall (λ x, ∃ v, x = ELog WARNING (MsgEnvVarNotFound v)) tp
            ∧ (NoDup acc.*1 → NoDup processed.*1)) as Hset.
  { intros x. destruct (IH (odict.set key x acc)) as (p & tp & -> & Htp & Hnd).
    exists p, tp. repeat split; [done|]. intros Hacc. by apply Hnd, odict_set_nodup. }
  destruct v as [| | | |s| |]; try apply Hset.
  destruct (pystr.startswith "${" s && pystr.endswith "}" s); [|apply Hset].
  destruct (PopupHandler.truthy_str (environ w _)); [apply Hset|].
  destruct (IH acc) as (p & tp & Hp & Htp & Hnd).
  eff_simpl. rewrite Hp. eexists _, _. split; [reflexivity|]. split; [|done].
  constructor; [eauto|done].
Qed.

Lemma agent_kwargs_get (self : PydanticAIClient.t) (processed : list (string * value))
    (k : string) :
  NoDup processed.*1 →
  odict.get k (agent_kwargs self processed)
  = if String.eqb k "model"
    then None
    else match odict.get k processed with
         | Some v => Some v
         | None =>
             odict.get k
               (match AgentPrompt.max_tokens (prompt self) with
                | Some n =>
                    odict.set "max_tokens" (VInt n)
                      (odict.set "temperature"
                         (VFloat (LLMAgentConfig.temperature (config self)))
                         [("system_prompt",
                           VStr (or_default (AgentPrompt.system_prompt (prompt self))
                                   "You are an AI assistant helping with test automation."))])
                | None =>
                    odict.set "temperature"
                      (VFloat (LLMAgentConfig.temperature (config self)))
                      [("system_prompt",
                        VStr (or_default (AgentPrompt.system_prompt (prompt self))
                                "You are an AI assistant helping with test automation."))]
                end)
         end.
Proof.
  intros Hnodup. unfold agent_kwargs.
  rewrite (fold_set_get (λ key, String.eqb key "model")) by done.
  destruct (String.eqb_spec k "model") as [->|_]; [|done].
  by destruct (AgentPrompt.max_tokens (prompt self)).
Qed.

Lemma register_each_trace (w : World) (a : PydAgent) (stored : KeywordMap) :
  Forall (λ x, ∃ n, x = EAgentTool n) (register_each w a stored).2.2.
Proof.
  revert a. induction stored as [|[n h] stored IH]; intros a; [constructor|].
  cbn [register_each].
  destruct (Agent_tool w a n) as [[]|e]; [|cbn; constructor; eauto].
  specialize (IH (with_tool n h a)).
  destruct (register_each w (with_tool n h a) stored) as [a' [r t]].
  unfold mbind, eff_bind. rewrite bind_ok. cbn [fst snd] in *.
  constructor; [eauto|exact IH].
Qed.

End client_agent.

Section client_agent_creation.
Import PydanticAIClient.

(** What [register_tools] does, step by step: the warnings about missing
    environment variables, the creation of the agent with its model and
    keyword arguments, then tool registrations and records. *)
Lemma register_tools_trace (w : World) (tools_in : KeywordMap) (self : PydanticAIClient.t) :
  ∃ processed tp rest,
    process_capabilities w (LLMAgentConfig.capabilities (config self)) []
    = (Ok processed, tp)
    ∧ NoDup processed.*1
    ∧ (register_tools w tools_in self).2.2
      = tp
        ++ [EAgentInit
              (odict.get_default "model" (VStr "gpt-3.5-turbo")
                 (LLMAgentConfig.capabilities (config self)))
              (agent_kwargs self
                 (if PopupHandler.truthy_str (LLMAgentConfig.url (config self))
                  then odict.set "api_base"
                         (VStr (default EmptyString (LLMAgentConfig.url (config self))))
                         processed
                  else processed))]
        ++ rest
    ∧ Forall (λ x, ∃ v, x = ELog WARNING (MsgEnvVarNotFound v)) tp
    ∧ Forall (λ x, (∃ n, x = EAgentTool n) ∨ ∃ lvl m, x = ELog lvl m) rest.
Proof.
  unfold register_tools.
  destruct (process_capabilities_returns w
              (LLMAgentConfig.capabilities (config self)) [])
    as (processed & tp & Hp & Htp & Hnodup).
  specialize (Hnodup (NoDup_nil_2 : NoDup ([] : list (string * value)).*1)).
  exists processed, tp.
  unfold mbind at 1. unfold eff_bind at 1. rewrite Hp, bind_ok.
  unfold mbind, eff_bind, call. cbn [fst snd].
  destruct (Agent_init w _ _) as [[]|e].
  - rewrite bind_ok. cbn [fst snd ret app].
    match goal with |- context [register_each w ?a0 ?st] =>
      pose proof (register_each_trace w a0 st) as Htools;
      destruct (register_each w a0 st) as [a' [ro tt']]
    end.
    cbn [fst snd] in Htools.
    assert (Forall (λ x, (∃ n, x = EAgentTool n) ∨ ∃ lvl m, x = ELog lvl m) tt')
      as Htools'.
    { eapply Forall_impl; [exact Htools|]. cbn. intros ? [n ->]. eauto. }
    clear Htools.
    destruct ro as [[]|e]; eff_simpl.
    + eexists (tt' ++ [_]).
      split; [done|]. split; [done|]. split; [by rewrite <- !app_assoc|]. split; [done|].
      apply Forall_app. split; [done|]. constructor; [right; eauto|constructor].
    + exists (tt' ++ [ELog ERROR (MsgAgentCreateFailed e)]).
      split; [done|]. split; [done|]. split; [by rewrite <- !app_assoc|]. split; [done|].
      apply Forall_app. split; [done|]. constructor; [right; eauto|constructor].
  - eff_simpl. exists [ELog ERROR (MsgAgentCreateFailed e)].
    split; [done|]. split; [done|]. split; [by rewrite <- !app_assoc|]. split; [done|].
    constructor; [right; eauto|constructor].
Qed.

(** X23. The agent is created once per registration, with the model named
    in the capabilities (gpt-3.5-turbo without one); the model is never
    among the keyword arguments, and a configured url is passed as api_base,
    whatever the capabilities say about api_base. *)
Theorem agent_is_created_with_url_and_without_model_keyword
    (w : World) (tools_in : KeywordMap) (self : PydanticAIClient.t)
    (model : value) (kwargs : list (string * value)) :
  EAgentInit model kwargs ∈ (register_tools w tools_in self).2.2 →
  model = odict.get_default "model" (VStr "gpt-3.5-turbo")
            (LLMAgentConfig.capabilities (config self))
  ∧ odict.get "model" kwargs = None
  ∧ (∀ url, LLMAgentConfig.url (config self) = Some url →
            pystr.is_empty url = false →
            odict.get "api_base" kwargs = Some (VStr url)).
Proof.
  destruct (register_tools_trace w tools_in self)
    as (processed & tp & rest & _ & Hnodup & -> & Htp & Hrest).
  rewrite !elem_of_app, list_elem_of_singleton. intros [Hin|[Hin|Hin]].
  - rewrite Forall_forall in Htp. by destruct (Htp _ Hin) as [v ?].
  - injection Hin as -> ->. split; [done|]. split.
    + rewrite agent_kwargs_get; [done|].
      destruct (PopupHandler.truthy_str _); [by apply odict_set_nodup|done].
    + intros url Hurl Hne. rewrite Hurl. cbn [PopupHandler.truthy_str]. rewrite Hne.
      cbn [negb]. rewrite agent_kwargs_get by (by apply odict_set_nodup).
      change (default EmptyString (Some url)) with url.
      by rewrite odict_get_set_eq.
  - rewrite Forall_forall in Hrest. by destruct (Hrest _ Hin) as [[n ?]|(lvl & m & ?)].
Qed.

End client_agent_creation.

Section environment_references.
Import PydanticAIClient.

Lemma endswith_brace (var : string) : pystr.endswith "}" (var +:+ "}") = true.
Proof.
  induction var as [|c var IH]; [done|].
  simpl. rewrite IH. by rewrite orb_true_r.
Qed.

Lemma drop_last_brace (var : string) : pystr.drop_last (var +:+ "}") = var.
Proof.
  induction var as [|c var IH]; [done|].
  simpl. rewrite IH. by destruct var.
Qed.

Lemma env_reference_parts (var : string) :
  pystr.startswith "${" (env_reference var) = true
  ∧ pystr.endswith "}" (env_reference var) = true
  ∧ pystr.drop_last (pystr.drop 2 (env_reference var)) = var.
Proof.
  unfold env_reference. split; [apply (startswith_append "${")|]. split.
  - change ("${" +:+ var +:+ "}") with (String "$" (String "{" (var +:+ "}"))).
    cbn [pystr.endswith]. rewrite endswith_brace. by rewrite !orb_true_r.
  - apply drop_last_brace.
Qed.

(** One pass of the loop either stores a value under the key or leaves a
    warning. *)
Lemma process_capabilities_step (w : World) (k : string) (v : value)
    (caps acc : list (string * value)) :
  (∃ x, process_capabilities w ((k, v) :: caps) acc
        = process_capabilities w caps (odict.set k x acc))
  ∨ (∃ var processed tp,
       process_capabilities w caps acc = (Ok processed, tp)
       ∧ process_capabilities w ((k, v) :: caps) acc
         = (Ok processed, ELog WARNING (MsgEnvVarNotFound var) :: tp)).
Proof.
  cbn [process_capabilities].
  destruct v as [| | | |s| |]; try (left; eauto; fail).
  destruct (pystr.startswith "${" s && pystr.endswith "}" s); [|left; eauto].
  destruct (PopupHandler.truthy_str (environ w _)); [left; eauto|].
  right. destruct (process_capabilities_returns w caps acc) as (p & tp & Hp & _).
  exists (pystr.drop_last (pystr.drop 2 s)), p, tp. split; [done|].
  unfold mbind, eff_bind, log, emit. by rewrite bind_ok, Hp.
Qed.

Lemma process_capabilities_other_key (w : World) (caps acc : list (string * value))
    (key : string) (processed : list (string * value)) (tp : Trace) :
  key ∉ caps.*1 →
  process_capabilities w caps acc = (Ok processed, tp) →
  odict.get key processed = odict.get key acc.
Proof.
  revert acc tp. induction caps as [|[k v] caps IH]; intros acc tp Hfresh Hrun.
  { cbn in Hrun. by injection Hrun as <- _. }
  cbn [fmap list_fmap fst] in Hfresh. apply not_elem_of_cons in Hfresh as [Hne Hfresh].
  destruct (process_capabilities_step w k v caps acc)
    as [[x Hstep]|(var & p & t & Hrest & Hstep)]; rewrite Hstep in Hrun.
  - rewrite (IH _ _ Hfresh Hrun). by apply odict_get_set_ne.
  - injection Hrun as <- _. by apply (IH _ _ Hfresh Hrest).
Qed.

(** The capabilities after the loop: an entry that refers to a variable the
    environment does not hold contributes nothing and leaves a warning, one
    that refers to a variable it holds contributes the variable's value. *)
Lemma process_capabilities_reference (w : World) (caps acc : list (string * value))
    (key var : string) (processed : list (string * value)) (tp : Trace) :
  NoDup caps.*1 →
  (key, VStr (env_reference var)) ∈ caps →
  process_capabilities w caps acc = (Ok processed, tp) →
  (∀ val, environ w var = Some val → pystr.is_empty val = false →
          odict.get key processed = Some (VStr val))
  ∧ (PopupHandler.truthy_str (environ w var) = false →
     odict.get key processed = odict.get key acc
     ∧ ELog WARNING (MsgEnvVarNotFound var) ∈ tp).
Proof.
  revert acc tp. induction caps as [|[k v] caps IH]; intros acc tp Hnodup Hin Hrun.
  { by apply not_elem_of_nil in Hin. }
  cbn [fmap list_fmap fst] in Hnodup. apply NoDup_cons in Hnodup as [Hfresh Hnodup].
  apply elem_of_cons in Hin as [[= <- <-]|Hin].
  - destruct (env_reference_parts var) as (Hstart & Hend & Hvar).
    cbn [process_capabilities] in Hrun. rewrite Hstart, Hend, Hvar in Hrun.
    cbn [andb] in Hrun. split.
    + intros val Hval Hne. rewrite Hval in Hrun. cbn [PopupHandler.truthy_str] in Hrun.
      rewrite Hne in Hrun. cbn [negb] in Hrun.
      change (default EmptyString (Some val)) with val in Hrun.
      rewrite (process_capabilities_other_key _ _ _ _ _ _ Hfresh Hrun).
      apply odict_get_set_eq.
    + intros Hmissing. rewrite Hmissing in Hrun.
      unfold mbind, eff_bind, log, emit in Hrun. rewrite bind_ok in Hrun.
      destruct (process_capabilities w caps acc) as [r t] eqn:Hrest.
      cbn in Hrun. injection Hrun as -> <-.
      split; [by apply (process_capabilities_other_key _ _ _ _ _ _ Hfresh Hrest)|].
      by left.
  - assert (key ≠ k) as Hne.
    { intros ->. apply Hfresh. apply list_elem_of_fmap.
      by exists (k, VStr (env_reference var)). }
    destruct (process_capabilities_step w k v caps acc)
      as [[x Hstep]|(var' & p & t & Hrest & Hstep)]; rewrite Hstep in Hrun.
    + destruct (IH _ _ Hnodup Hin Hrun) as [Hval Hmiss].
      split; [done|]. intros Hm. destruct (Hmiss Hm) as [Hg Hw].
      by rewrite Hg, odict_get_set_ne.
    + injection Hrun as <- <-.
      destruct (IH _ _ Hnodup Hin Hrest) as [Hval Hmiss].
      split; [done|]. intros Hm. destruct (Hmiss Hm) as [Hg Hw].
      split; [done|]. by right.
Qed.

End environment_references.

Section environment_in_keyword_arguments.
Import PydanticAIClient.

Lemma agent_init_in_trace (w : World) (tools_in : KeywordMap) (self : PydanticAIClient.t)
    (model : value) (kwargs : list (string * value)) :
  EAgentInit model kwargs ∈ (register_tools w tools_in self).2.2 →
  ∃ processed tp,
    process_capabilities w (LLMAgentConfig.capabilities (config self)) []
    = (Ok processed, tp)
    ∧ NoDup processed.*1
    ∧ kwargs
      = agent_kwargs self
          (if PopupHandler.truthy_str (LLMAgentConfig.url (config self))
           then odict.set "api_base"
                  (VStr (default EmptyString (LLMAgentConfig.url (config self))))
                  processed
           else processed)
    ∧ ∀ x, x ∈ tp → x ∈ (register_tools w tools_in self).2.2.
Proof.
  destruct (register_tools_trace w tools_in self)
    as (processed & tp & rest & Hp & Hnodup & -> & Htp & Hrest).
  rewrite !elem_of_app, list_elem_of_singleton. intros [Hin|[Hin|Hin]].
  - rewrite Forall_forall in Htp. by destruct (Htp _ Hin) as [v ?].
  - injection Hin as -> ->. exists processed, tp.
    repeat split; try done. intros x Hx. apply elem_of_app. by left.
  - rewrite Forall_forall in Hrest. by destruct (Hrest _ Hin) as [[n ?]|(lvl & m & ?)].
Qed.

(** X24. A capability written as a reference to an environment variable is
    resolved when the agent is created: with the variable set, the keyword
    argument of that name is the variable's value; with the variable unset
    or empty, the capability is left out (the argument is what it is
    without the capability) and a warning names the variable. *)
Theorem environment_reference_is_resolved_or_dropped
    (w : World) (tools_in : KeywordMap) (self : PydanticAIClient.t)
    (key var : string) (model : value) (kwargs : list (string * value)) :
  NoDup (LLMAgentConfig.capabilities (config self)).*1 →
  (key, VStr (env_reference var)) ∈ LLMAgentConfig.capabilities (config self) →
  key ≠ "model" →
  key ≠ "api_base" →
  EAgentInit model kwargs ∈ (register_tools w tools_in self).2.2 →
  (∀ val, environ w var = Some val → pystr.is_empty val = false →
          odict.get key kwargs = Some (VStr val))
  ∧ (PopupHandler.truthy_str (environ w var) = false →
     odict.get key kwargs = odict.get key (agent_kwargs self [])
     ∧ ELog WARNING (MsgEnvVarNotFound var) ∈ (register_tools w tools_in self).2.2).
Proof.
  intros Hcaps Hin Hmodel Hbase Hinit.
  destruct (agent_init_in_trace w tools_in self model kwargs Hinit)
    as (processed & tp & Hp & Hnodup & -> & Htp).
  destruct (process_capabilities_reference w _ [] key var processed tp Hcaps Hin Hp)
    as [Hset Hmissing].
  assert (NoDup
            (if PopupHandler.truthy_str (LLMAgentConfig.url (config self))
             then odict.set "api_base"
                    (VStr (default EmptyString (LLMAgentConfig.url (config self))))
                    processed
             else processed).*1) as Hnodup'.
  { destruct (PopupHandler.truthy_str _); [by apply odict_set_nodup|done]. }
  assert (odict.get key
            (if PopupHandler.truthy_str (LLMAgentConfig.url (config self))
             then odict.set "api_base"
                    (VStr (default EmptyString (LLMAgentConfig.url (config self))))
                    processed
             else processed)
          = odict.get key processed) as Hkey.
  { destruct (PopupHandler.truthy_str _); [by apply odict_get_set_ne|done]. }
  apply String.eqb_neq in Hmodel.
  rewrite agent_kwargs_get, Hmodel, Hkey by done. split.
  - intros val Hval Hne. by rewrite (Hset val Hval Hne).
  - intros Hunset. destruct (Hmissing Hunset) as [-> Hwarn].
    rewrite agent_kwargs_get, Hmodel by apply NoDup_nil_2.
    split; [done|]. by apply Htp.
Qed.

End environment_in_keyword_arguments.

Lemma register_tools_stores_public_keywords_witness :
  odict.get "press_element"
    (PydanticAIClient.tools
       (PydanticAIClient.register_tools Examples.world_offline
          Examples.session_keywords (bare_client config_with_url)).1)
  = Some Examples.returning
  ∧ odict.get "_teardown"
      (PydanticAIClient.tools
         (PydanticAIClient.register_tools Examples.world_offline
            Examples.session_keywords (bare_client config_with_url)).1)
    = None.
Proof.
  split.
  - apply (register_tools_stores_public_keywords Examples.world_offline
             Examples.session_keywords (bare_client config_with_url) "press_element").
    apply (bool_decide_unpack _). vm_compute. exact I.
  - apply (register_tools_stores_public_keywords Examples.world_offline
             Examples.session_keywords (bare_client config_with_url) "_teardown").
    apply (bool_decide_unpack _). vm_compute. exact I.
Defined.

Lemma agent_is_created_with_url_and_without_model_keyword_witness :
  odict.get "model"
    [("system_prompt", VStr "You are an AI assistant helping with test automation.");
     ("temperature", VFloat "0.7"); ("max_tokens", VInt 1000);
     ("api_base", VStr "http://localhost:8000/v1")] = None
  ∧ (∀ url, LLMAgentConfig.url config_with_url = Some url →
            pystr.is_empty url = false →
            odict.get "api_base"
              [("system_prompt",
                VStr "You are an AI assistant helping with test automation.");
               ("temperature", VFloat "0.7"); ("max_tokens", VInt 1000);
               ("api_base", VStr "http://localhost:8000/v1")]
            = Some (VStr url)).
Proof.
  refine (proj2 (agent_is_created_with_url_and_without_model_keyword
                   Examples.world_offline Examples.session_keywords
                   (bare_client config_with_url) (VStr "gpt-4o") _ _)).
  apply (list_elem_of_lookup_2 _ 1). vm_compute. reflexivity.
Defined.

Lemma environment_reference_is_resolved_or_dropped_witness :
  odict.get "api_key"
    [("system_prompt", VStr "You are an AI assistant helping with test automation.");
     ("temperature", VFloat "0.7"); ("max_tokens", VInt 1000);
     ("api_base", VStr "http://localhost:8000/v1")]
  = odict.get "api_key" (PydanticAIClient.agent_kwargs (bare_client config_with_url) [])
  ∧ ELog WARNING (MsgEnvVarNotFound "LLM_API_KEY")
    ∈ (PydanticAIClient.register_tools Examples.world_offline
         Examples.session_keywords (bare_client config_with_url)).2.2.
Proof.
  refine (proj2 (environment_reference_is_resolved_or_dropped
                   Examples.world_offline Examples.session_keywords
                   (bare_client config_with_url) "api_key" "LLM_API_KEY"
                   (VStr "gpt-4o") _ _ _ _ _ _) _).
  - apply (bool_decide_unpack _). vm_compute. exact I.
  - apply (list_elem_of_lookup_2 _ 2). reflexivity.
  - discriminate.
  - discriminate.
  - apply (list_elem_of_lookup_2 _ 1). vm_compute. reflexivity.
  - reflexivity.
Defined.

(** * Handing the tools of a session to the agents *)

Section hand_over.
Context {C : Type} `{AgentClient C}.
Import LLMAgentManager.

Implicit Types (self : LLMAgentManager.t C) (w : World).

Lemma register_with_agents_failure w (keyword_map : KeywordMap)
    (pre rest : list (string * C)) (n : string) (a a' : C) (e : exn) (tr : Trace) :
  Forall (λ na, (client_register_tools w (public_tools keyword_map) na.2).2.1 = Ok tt) pre →
  client_register_tools w (public_tools keyword_map) a = (a', (Raise e, tr)) →
  (register_with_agents w keyword_map (pre ++ (n, a) :: rest)).1
  = ((λ na, (na.1, (client_register_tools w (public_tools keyword_map) na.2).1)) <$> pre)
    ++ (n, a') :: rest
  ∧ (register_with_agents w keyword_map (pre ++ (n, a) :: rest)).2.1 = Raise e.
Proof.
  intros Hpre Hfail. induction Hpre as [|[m b] pre Hb _ [IH1 IH2]].
  - cbn [app register_with_agents]. by rewrite Hfail.
  - cbn [app register_with_agents fmap list_fmap fst snd] in *.
    destruct (client_register_tools w (public_tools keyword_map) b) as [b' [r t]].
    cbn [fst snd] in Hb. subst r.
    destruct (register_with_agents w keyword_map (pre ++ (n, a) :: rest))
      as [agents' [r' t']].
    cbn [fst snd] in *. subst. split; [done|].
    unfold mbind, eff_bind, log, emit. by rewrite !bind_ok.
Qed.

(** X25. When registering the tools with one agent raises, the exception
    leaves [register_tools_for_session]: by then the keyword map is stored
    for the session and the agents before the failing one have the tools,
    but the agents behind it are not asked and keep their state. *)
Theorem failed_registration_stops_the_hand_over
    w (session_id : string) (keyword_map : KeywordMap) self
    (pre rest : list (string * C)) (n : string) (a a' : C) (e : exn) (tr : Trace) :
  agents self = pre ++ (n, a) :: rest →
  Forall (λ na, (client_register_tools w (public_tools keyword_map) na.2).2.1 = Ok tt) pre →
  client_register_tools w (public_tools keyword_map) a = (a', (Raise e, tr)) →
  (register_tools_for_session w session_id keyword_map self).2.1 = Raise e
  ∧ agents (register_tools_for_session w session_id keyword_map self).1
    = ((λ na, (na.1, (client_register_tools w (public_tools keyword_map) na.2).1)) <$> pre)
      ++ (n, a') :: rest
  ∧ session_tools (register_tools_for_session w session_id keyword_map self).1
      !! session_id
    = Some keyword_map.
Proof.
  intros Hagents Hpre Hfail.
  destruct (register_with_agents_failure w keyword_map pre rest n a a' e tr Hpre Hfail)
    as [Hstate Hraise].
  rewrite register_tools_session_tools, lookup_insert_eq.
  unfold register_tools_for_session. rewrite Hagents.
  destruct (register_with_agents w keyword_map (pre ++ (n, a) :: rest))
    as [agents' [r t]].
  cbn [fst snd] in *. subst. repeat split.
Qed.

End hand_over.

Section ai_keyword.
Import AIKeyword.


End ai_keyword.


Lemma failed_registration_stops_the_hand_over_witness :
  (LLMAgentManager.register_tools_for_session world_rejecting_agents "s1"
     Examples.session_keywords two_client_manager).2.1
  = Raise (PyExc "UserError" "unknown model")
  ∧ odict.get "report"
      (LLMAgentManager.agents
         (LLMAgentManager.register_tools_for_session world_rejecting_agents "s1"
            Examples.session_keywords two_client_manager).1)
    = Some (bare_client (Examples.agent_config "gpt-4o" "Keyword_fail"))
  ∧ LLMAgentManager.session_tools
      (LLMAgentManager.register_tools_for_session world_rejecting_agents "s1"
         Examples.session_keywords two_client_manager).1 !! "s1"
    = Some Examples.session_keywords.
Proof.
  assert (client_register_tools world_rejecting_agents
            (LLMAgentManager.public_tools Examples.session_keywords)
            (bare_client config_with_url)
          = ((PydanticAIClient.register_tools world_rejecting_agents
                (LLMAgentManager.public_tools Examples.session_keywords)
                (bare_client config_with_url)).1,
             (Raise (PyExc "UserError" "unknown model"),
              (PydanticAIClient.register_tools world_rejecting_agents
                 (LLMAgentManager.public_tools Examples.session_keywords)
                 (bare_client config_with_url)).2.2))) as Hfail
    by (vm_compute; reflexivity).
  destruct (failed_registration_stops_the_hand_over world_rejecting_agents "s1"
              Examples.session_keywords two_client_manager []
              [("report", bare_client (Examples.agent_config "gpt-4o" "Keyword_fail"))]
              "repair" (bare_client config_with_url) _ _ _
              eq_refl (Forall_nil_2 _) Hfail)
    as (Hraise & Hagents & Hstored).
  split; [exact Hraise|]. split; [by rewrite Hagents|exact Hstored].
Defined.

(** * Whitespace around a reply *)

Section padded_reply.
Import pystr.

Lemma append_assoc_char (y : string) (c : ascii) (ws : string) :
  (y +:+ String c EmptyString) +:+ ws = y +:+ String c ws.
Proof.
  induction y as [|a y IH]; [done|].
  change (String a ((y +:+ String c EmptyString) +:+ ws) = String a (y +:+ String c ws)).
  by rewrite IH.
Qed.

Lemma rstrip_blank (y ws : string) :
  blank ws = true → rstrip isspace (y +:+ ws) = rstrip isspace y.
Proof.
  unfold blank. revert y. induction ws as [|c ws IH]; intros y Hws.
  - induction y as [|a y IHy]; [done|]. simpl. by rewrite IHy.
  - cbn [lstrip] in Hws. destruct (isspace c) eqn:Hc; [|done].
    rewrite <- (append_assoc_char y c ws), IH by done. by apply rstrip_snoc.
Qed.

Lemma strip_padded (before s after : string) :
  blank before = true → blank after = true →
  strip (before +:+ s +:+ after) = strip s.
Proof.
  unfold blank. intros Hb Ha. unfold strip, strip_with.
  rewrite lstrip_append. destruct (lstrip isspace before); [|done]. cbn [is_empty].
  rewrite lstrip_append. destruct (lstrip isspace s) as [|c r] eqn:Hs; cbn [is_empty].
  - by destruct (lstrip isspace after).
  - by apply rstrip_blank.
Qed.

(** X27. Whitespace before and after a reply does not matter: both
    handlers parse a reply padded with spaces, tabs or line breaks to what
    they parse the reply itself to. *)
Theorem padding_around_a_reply_is_ignored (before reply after : string) :
  blank before = true →
  blank after = true →
  PopupHandler.extract_json_from_llm_response (VStr (before +:+ reply +:+ after))
  = PopupHandler.extract_json_from_llm_response (VStr reply)
  ∧ AIActionHandler.extract_json_from_llm_response (VStr (before +:+ reply +:+ after))
    = AIActionHandler.extract_json_from_llm_response (VStr reply).
Proof.
  intros Hb Ha.
  unfold PopupHandler.extract_json_from_llm_response,
    AIActionHandler.extract_json_from_llm_response.
  by rewrite strip_padded.
Qed.

End padded_reply.

Lemma padding_around_a_reply_is_ignored_witness :
  PopupHandler.extract_json_from_llm_response
    (VStr ((pystr.lf +:+ "  ") +:+ Examples.press_continue +:+ (" " +:+ pystr.lf)))
  = PopupHandler.extract_json_from_llm_response (VStr Examples.press_continue)
  ∧ AIActionHandler.extract_json_from_llm_response
      (VStr ((pystr.lf +:+ "  ") +:+ Examples.press_continue +:+ (" " +:+ pystr.lf)))
    = AIActionHandler.extract_json_from_llm_response (VStr Examples.press_continue).
Proof.
  apply (padding_around_a_reply_is_ignored (pystr.lf +:+ "  ")
           Examples.press_continue (" " +:+ pystr.lf)); reflexivity.
Defined.

(** * A response that asks for a human *)

Section human_input.
Context {C : Type} `{AgentClient C}.
Import LLMAgentManager.

Implicit Types (self : LLMAgentManager.t C) (w : World).

(** X28. When an agent's response asks for human input, its turn ends with
    a warning and none of the actions the response lists is carried out. *)
Theorem actions_of_a_response_asking_for_a_human_are_ignored
    w (agent_name : string) (context : AgentContext.t) self
    (agent : C) (response : AgentResponse.t) (t : Trace) :
  odict.get agent_name (agents self) = Some agent →
  client_execute w context agent = (Ok response, t) →
  AgentResponse.requires_human_input response = true →
  _execute_agent w agent_name context self
  = (Ok tt,
     [ELog INFO (MsgExecutingAgent agent_name (AgentContext.event_type context))]
     ++ t
     ++ [ELog INFO (MsgAgentResponse agent_name (AgentResponse.message response));
         ELog WARNING (MsgRequiresHuman agent_name (AgentResponse.message response))]).
Proof.
  intros Hagent Hexec Hhuman. unfold _execute_agent. rewrite Hagent.
  eff_simpl. by rewrite Hexec, Hhuman.
Qed.

End human_input.

Lemma actions_of_a_response_asking_for_a_human_are_ignored_witness :
  LLMAgentManager._execute_agent Examples.world_offline "cautious"
    (LLMAgentManager.event_context Examples.fail_event "s1" None [])
    asking_manager
  = (Ok tt,
     [ELog INFO (MsgExecutingAgent "cautious" "Keyword_fail")]
     ++ []
     ++ [ELog INFO (MsgAgentResponse "cautious" "A human should look at this.");
         ELog WARNING (MsgRequiresHuman "cautious" "A human should look at this.")]).
Proof.
  apply (actions_of_a_response_asking_for_a_human_are_ignored Examples.world_offline
           "cautious" (LLMAgentManager.event_context Examples.fail_event "s1" None [])
           asking_manager
           (AskingClient [Examples.action "press_element" [VStr "Continue"]])
           {| AgentResponse.message := "A human should look at this.";
              AgentResponse.actions :=
                [Examples.action "press_element" [VStr "Continue"]];
              AgentResponse.requires_human_input := true |}
           []); reflexivity.
Defined.

(** * When the shipped client runs the model *)

Section client_execute.
Import PydanticAIClient.

Lemma filter_runs_app (t1 t2 : Trace) :
  List.filter (λ x, match x with EAgentRun _ => true | _ => false end) (t1 ++ t2)
  = List.filter (λ x, match x with EAgentRun _ => true | _ => false end) t1
    ++ List.filter (λ x, match x with EAgentRun _ => true | _ => false end) t2.
Proof. apply List.filter_app. Qed.

Lemma run_tool_calls_hold_no_run (w : World) (a : PydAgent) (query : string) :
  List.filter (λ x, match x with EAgentRun _ => true | _ => false end)
    (run_tool_calls w a query) = [].
Proof.
  unfold run_tool_calls.
  induction (Agent_tool_calls w a query) as [|[[n args] kwargs] l IH]; [done|].
  cbn [omap list_omap]. cbn [fst snd].
  destruct (odict.mem n (pa_tools a)); [|exact IH]. cbn [List.filter]. exact IH.
Qed.

(** X29. [execute] runs the model exactly when the client is enabled and
    has an agent, once, on the user prompt (the configured one, or the
    built-in one) followed by the description of the event; its response
    asks for a human exactly when an enabled client has no agent or the run
    raised. *)
Theorem execute_runs_an_enabled_initialised_client
    (w : World) (context : AgentContext.t) (self : PydanticAIClient.t) :
  let query :=
    or_default (AgentPrompt.user_prompt (prompt self)) default_user_prompt
    +:+ pystr.lf +:+ pystr.lf +:+ context_str context in
  ∃ response t,
    execute w context self = (Ok response, t)
    ∧ AgentResponse.requires_human_input response
      = LLMAgentConfig.enabled (config self)
        && match agent self with
           | None => true
           | Some a => negb (returned (Agent_run w a query))
           end
    ∧ List.filter (λ x, match x with EAgentRun _ => true | _ => false end) t
      = if LLMAgentConfig.enabled (config self)
        then match agent self with
             | None => []
             | Some _ => [EAgentRun query]
             end
        else [].
Proof.
  intros query. unfold execute.
  destruct (LLMAgentConfig.enabled (config self)); cbn [negb andb].
  - destruct (agent self) as [a|].
    + fold query. unfold run. eff_simpl.
      destruct (Agent_run w a query) as [message|e]; cbn [returned negb];
        eexists _, _; (split; [reflexivity|]); (split; [done|]);
        cbn [List.filter app];
        rewrite ?filter_runs_app, run_tool_calls_hold_no_run; done.
    + eff_simpl. eauto.
  - eauto.
Qed.

End client_execute.
